(** * Pokedex research agent: a shallow embedding and its verified properties

    The development follows the Python sources module by module:
    - [models.py]: the pydantic records ([ResearchStep], [PokemonData],
      [ResearchContext], [ResearchReport]);
    - [pokeapi_tools.py]: the PokeAPI client (the data fetch adapter);
    - [llm_agent.py]: the orchestrator [LLMAgent] and its function
      dispatcher.

    Python values that come from JSON documents are modelled by the
    inductive type [json]; Python floats are IEEE binary64 numbers, that is
    Rocq's primitive floats; strings are ASCII strings.  Effects (the
    mutable [ResearchContext], the client session, logging, calls to the
    language model) are modelled by a state monad with exceptions: a
    command returns a value or raises, and keeps the state that it has
    reached in both cases.  The collaborators that live outside the
    repository are interfaces (type classes), and every theorem holds for
    all their implementations:
    - the language model answers each request as it likes;
    - the HTTP servers answer a request by its URL (the upstream data do
      not change during a run);
    - [json.loads], the validation of pydantic models and the order in
      which a [set] is listed;
    - the methods of [WebSearcher], whose results come from scraped pages.

    What is not modelled: the text of the prompts and of [json.dumps]
    (only whether building them raises), wall-clock timestamps, the log
    records of [llm_agent.py], and exceptions that are not subclasses of
    [Exception]. *)

From Stdlib Require Import ZArith List String Ascii Bool Lia PeanoNat.
From Stdlib Require Import Floats.
From Stdlib Require Import DecimalString.
Import ListNotations.

Set Implicit Arguments.
Set Warnings "-register-all,-inexact-float".

Open Scope list_scope.
Open Scope string_scope.

(** ** Python values *)

(** A value decoded from JSON ([json.loads], [response.json()]): [None],
    [bool], [int], [float], [str], [list] and [dict] with string keys.  A
    dict is an association list in insertion order with distinct keys. *)
Inductive json : Type :=
| JNull
| JBool (b : bool)
| JInt (n : Z)
| JFloat (x : float)
| JStr (s : string)
| JList (l : list json)
| JDict (d : list (string * json)).

(** The exceptions that the modelled code can raise.  [LibraryError] stands
    for the errors of the network libraries (connection errors, timeouts,
    API errors of the language-model client); [HTTPError] is what
    [raise_for_status] raises. *)
Inductive exn : Type :=
| AttributeError
| KeyError (k : string)
| TypeError
| IndexError
| OverflowError
| RecursionError
| UnboundLocalError
| RuntimeError (msg : string)
| JSONDecodeError
| ValidationError
| HTTPError (status : Z)
| LibraryError (msg : string).

(** [str(e)]: the message of an exception (abbreviated to the class name
    for the interpreter's own messages).  The message of a [KeyError] is
    given as the key itself: Python writes a string key between quotes. *)
Definition str_exn (e : exn) : string :=
  match e with
  | AttributeError => "AttributeError"
  | KeyError k => k
  | TypeError => "TypeError"
  | IndexError => "IndexError"
  | OverflowError => "OverflowError"
  | RecursionError => "RecursionError"
  | UnboundLocalError => "UnboundLocalError"
  | RuntimeError msg => msg
  | JSONDecodeError => "JSONDecodeError"
  | ValidationError => "ValidationError"
  | HTTPError _ => "HTTPError"
  | LibraryError msg => msg
  end.

(** The result of a pure computation that may raise. *)
Inductive result (A : Type) : Type :=
| Ok (a : A)
| Raise (e : exn).
Arguments Ok {A} a.
Arguments Raise {A} e.

Definition rbind {A B} (r : result A) (f : A -> result B) : result B :=
  match r with
  | Ok a => f a
  | Raise e => Raise e
  end.

Declare Scope result_scope.
Delimit Scope result_scope with result.
Notation "x <~ r ; k" := (rbind r (fun x => k))
  (at level 61, r at next level, right associativity) : result_scope.

Fixpoint rmap {A B} (f : A -> result B) (l : list A) : result (list B) :=
  match l with
  | [] => Ok []
  | a :: t =>
      match f a with
      | Ok b => match rmap f t with
                | Ok bs => Ok (b :: bs)
                | Raise e => Raise e
                end
      | Raise e => Raise e
      end
  end.

(** ** Strings *)

(** [str.lower()] on ASCII text. *)
Definition lower_ascii (c : ascii) : ascii :=
  let n := nat_of_ascii c in
  if andb (Nat.leb 65 n) (Nat.leb n 90) then ascii_of_nat (n + 32) else c.

Fixpoint lower (s : string) : string :=
  match s with
  | EmptyString => EmptyString
  | String c t => String (lower_ascii c) (lower t)
  end.

(** [needle in hay] for two strings. *)
Fixpoint contains (needle hay : string) : bool :=
  if prefix needle hay then true
  else match hay with
       | EmptyString => false
       | String _ t => contains needle t
       end.

(** [s.replace(old, new)] for one-character [old] and [new]. *)
Fixpoint replace_char (old new : ascii) (s : string) : string :=
  match s with
  | EmptyString => EmptyString
  | String c t =>
      String (if Ascii.eqb c old then new else c) (replace_char old new t)
  end.

(** [s.split(sep)] for a one-character separator: the pieces, in order
    (the first component is the piece being read). *)
Fixpoint split_on (sep : ascii) (s : string) : string * list string :=
  match s with
  | EmptyString => (EmptyString, [])
  | String c t =>
      let (piece, pieces) := split_on sep t in
      if Ascii.eqb c sep then (EmptyString, piece :: pieces)
      else (String c piece, pieces)
  end.

Definition split (sep : ascii) (s : string) : list string :=
  let (piece, pieces) := split_on sep s in piece :: pieces.

(** [sep.join(parts)]. *)
Fixpoint join (sep : string) (parts : list string) : string :=
  match parts with
  | [] => EmptyString
  | [p] => p
  | p :: t => p ++ sep ++ join sep t
  end.

(** [str(n)] for an int: its decimal numeral. *)
Definition str_of_int (n : Z) : string :=
  NilZero.string_of_int (Z.to_int n).

(** The characters of a string, as one-character strings. *)
Fixpoint chars (s : string) : list string :=
  match s with
  | EmptyString => []
  | String c t => String c EmptyString :: chars t
  end.

Fixpoint string_firstn (n : nat) (s : string) : string :=
  match n, s with
  | S m, String c t => String c (string_firstn m t)
  | _, _ => EmptyString
  end.

(** ** Dictionaries *)

Section Dict.
Variable V : Type.

Fixpoint dict_get (k : string) (d : list (string * V)) : option V :=
  match d with
  | [] => None
  | (k', v) :: t => if String.eqb k k' then Some v else dict_get k t
  end.

(** [d[k] = v]: replaces the value of an existing key in place, appends a
    new key at the end. *)
Fixpoint dict_set (k : string) (v : V) (d : list (string * V))
  : list (string * V) :=
  match d with
  | [] => [(k, v)]
  | (k', v') :: t =>
      if String.eqb k k' then (k', v) :: t else (k', v') :: dict_set k v t
  end.

Definition dict_keys (d : list (string * V)) : list string := map fst d.
Definition dict_values (d : list (string * V)) : list V := map snd d.
End Dict.

(** ** Operations of the interpreter on JSON values *)

(** Truth value of a Python object. *)
Definition truthy (v : json) : bool :=
  match v with
  | JNull => false
  | JBool b => b
  | JInt n => negb (n =? 0)%Z
  | JFloat x => negb (PrimFloat.eqb x 0%float)
  | JStr s => negb (String.eqb s "")
  | JList l => match l with [] => false | _ => true end
  | JDict d => match d with [] => false | _ => true end
  end.

(** [v.get(k, default)]: only a dict has the method. *)
Definition py_get (v : json) (k : string) (default : json) : result json :=
  match v with
  | JDict d => Ok (match dict_get k d with Some x => x | None => default end)
  | _ => Raise AttributeError
  end.

(** [v[k]] for a string key [k]. *)
Definition py_getitem (v : json) (k : string) : result json :=
  match v with
  | JDict d => match dict_get k d with
               | Some x => Ok x
               | None => Raise (KeyError k)
               end
  | _ => Raise TypeError
  end.

(** [for x in v]: the elements of a list, the keys of a dict, the
    characters of a string. *)
Definition py_iter (v : json) : result (list json) :=
  match v with
  | JList l => Ok l
  | JDict d => Ok (map JStr (dict_keys d))
  | JStr s => Ok (map JStr (chars s))
  | _ => Raise TypeError
  end.

(** [v[:n]]: defined on sequences. *)
Definition py_slice_to (n : nat) (v : json) : result json :=
  match v with
  | JList l => Ok (JList (firstn n l))
  | JStr s => Ok (JStr (string_firstn n s))
  | _ => Raise TypeError
  end.

(** [len(v)]. *)
Definition py_len (v : json) : result nat :=
  match v with
  | JList l => Ok (List.length l)
  | JDict d => Ok (List.length d)
  | JStr s => Ok (String.length s)
  | _ => Raise TypeError
  end.

(** [v[i]] for a natural number [i] below [len(v)]. *)
Definition py_index (v : json) (i : nat) : result json :=
  match v with
  | JList l => match nth_error l i with
               | Some x => Ok x
               | None => Raise IndexError
               end
  | JStr s => match nth_error (chars s) i with
              | Some c => Ok (JStr c)
              | None => Raise IndexError
              end
  | JDict _ => Raise (KeyError (str_of_int (Z.of_nat i)))
  | _ => Raise TypeError
  end.

(** [v.lower()]: only a string has the method. *)
Definition py_lower (v : json) : result string :=
  match v with
  | JStr s => Ok (lower s)
  | _ => Raise AttributeError
  end.

(** [sep.join(v)]: [v] must be an iterable of strings. *)
Definition py_join (sep : string) (v : json) : result string :=
  (items <~ py_iter v ;
   parts <~ rmap (fun x => match x with
                           | JStr s => Ok s
                           | _ => Raise TypeError
                           end) items ;
   Ok (join sep parts))%result.

(** [isinstance(v, int)]: [bool] is a subclass of [int]. *)
Definition is_int (v : json) : bool :=
  match v with
  | JInt _ | JBool _ => true
  | _ => false
  end.

Definition int_of_bool (b : bool) : Z := if b then 1%Z else 0%Z.

(** The value of an int ([True] is 1 and [False] is 0). *)
Definition int_value (v : json) : Z :=
  match v with
  | JInt n => n
  | JBool b => int_of_bool b
  | _ => 0%Z
  end.

(** [float(n)] for an int: rounding to nearest-even, [OverflowError] when
    the int is too large for a binary64. *)
Definition float_of_int (n : Z) : result float :=
  let x := SF2Prim (binary_normalize prec emax n 0 false) in
  if PrimFloat.is_infinity x then Raise OverflowError else Ok x.

(** [v / 10.0]. *)
Definition py_div10 (v : json) : result float :=
  match v with
  | JInt n => (x <~ float_of_int n ; Ok (PrimFloat.div x 10%float))%result
  | JBool b =>
      (x <~ float_of_int (int_of_bool b) ; Ok (PrimFloat.div x 10%float))%result
  | JFloat x => Ok (PrimFloat.div x 10%float)
  | _ => Raise TypeError
  end.

(** [v < n] for an int literal [n]. *)
Definition py_lt_int (v : json) (n : Z) : result bool :=
  match v with
  | JInt m => Ok (m <? n)%Z
  | JBool b => Ok (int_of_bool b <? n)%Z
  | JFloat x => (y <~ float_of_int n ; Ok (PrimFloat.ltb x y))%result
  | _ => Raise TypeError
  end.

(** [v + 1]. *)
Definition py_succ (v : json) : result json :=
  match v with
  | JInt m => Ok (JInt (m + 1))
  | JBool b => Ok (JInt (int_of_bool b + 1))
  | JFloat x => Ok (JFloat (PrimFloat.add x 1%float))
  | _ => Raise TypeError
  end.

(** The number of nodes of a value: a bound on the depth of any traversal. *)
Fixpoint json_size (v : json) : nat :=
  match v with
  | JList l => S (fold_right (fun x n => json_size x + n) 0 l)
  | JDict d => S (fold_right (fun kv n => json_size (snd kv) + n) 0 d)
  | _ => 1
  end.

(** ** models.py *)

Inductive ResearchStepType : Type :=
| CLARIFICATION
| POKEAPI_QUERY
| WEB_SEARCH
| ANALYSIS
| SYNTHESIS.

(** [PokemonData].  The fields assigned after construction
    ([description], [evolution_chain]) are not validated by pydantic and
    hold whatever the adapter returned. *)
Module PokemonData.
Record t : Type := mk {
  id : Z;
  name : string;
  types : list string;
  height : float;
  weight : float;
  base_experience : Z;
  abilities : list string;
  stats : list (string * Z);
  moves : list string;
  sprites : list (string * string);
  description : option string;
  evolution_chain : option (list json);
  location_areas : option (list string)
}.

Definition opt_json {A} (f : A -> json) (o : option A) : json :=
  match o with
  | Some a => f a
  | None => JNull
  end.

(** [model_dump()]. *)
Definition model_dump (p : t) : json :=
  JDict
    [ ("id", JInt (id p));
      ("name", JStr (name p));
      ("types", JList (map JStr (types p)));
      ("height", JFloat (height p));
      ("weight", JFloat (weight p));
      ("base_experience", JInt (base_experience p));
      ("abilities", JList (map JStr (abilities p)));
      ("stats", JDict (map (fun kv => (fst kv, JInt (snd kv))) (stats p)));
      ("moves", JList (map JStr (moves p)));
      ("sprites", JDict (map (fun kv => (fst kv, JStr (snd kv))) (sprites p)));
      ("description", opt_json JStr (description p));
      ("evolution_chain", opt_json JList (evolution_chain p));
      ("location_areas",
        opt_json (fun l => JList (map JStr l)) (location_areas p)) ].

Definition set_description (d : string) (p : t) : t :=
  mk (id p) (name p) (types p) (height p) (weight p) (base_experience p)
     (abilities p) (stats p) (moves p) (sprites p) (Some d)
     (evolution_chain p) (location_areas p).

Definition set_evolution_chain (c : list json) (p : t) : t :=
  mk (id p) (name p) (types p) (height p) (weight p) (base_experience p)
     (abilities p) (stats p) (moves p) (sprites p) (description p)
     (Some c) (location_areas p).
End PokemonData.

(** A value stored in [collected_data]: JSON-like data, a [PokemonData]
    object, or a list of such objects (what [get_pokemon_by_type] and
    [search_pokemon] return, stored as they are). *)
Inductive pyval : Type :=
| Json (j : json)
| Model (p : PokemonData.t)
| Models (l : list PokemonData.t).

Definition pydict : Type := list (string * pyval).

(** A dict decoded from JSON, as a dict of stored values. *)
Definition pydict_of_json (d : list (string * json)) : pydict :=
  map (fun kv => (fst kv, Json (snd kv))) d.

(** [ResearchStep].  The [timestamp] field (the wall clock) is left out. *)
Module ResearchStep.
Record t : Type := mk {
  step_type : ResearchStepType;
  description : string;
  input_data : option pydict;
  output_data : option pydict;
  sources : list string;
  success : bool;
  error_message : option string
}.
End ResearchStep.

(** [ResearchContext].  The annotations of [original_query] and
    [clarified_goals] are [str] and [List[str]], but assignments are not
    validated and the agent stores values taken from the model's JSON. *)
Module ResearchContext.
Record t : Type := mk {
  original_query : json;
  clarified_goals : json;
  research_steps : list ResearchStep.t;
  collected_data : pydict;
  current_focus : option string;
  user_feedback : option string
}.

(** [ResearchContext(original_query=query)]. *)
Definition init (query : string) : t :=
  mk (JStr query) (JList []) [] [] None None.
End ResearchContext.

(** [ResearchReport].  The [generated_at] field (the wall clock) is left
    out. *)
Module ResearchReport.
Record t : Type := mk {
  query : string;
  executive_summary : string;
  detailed_findings : pydict;
  recommendations : list string;
  sources : list string;
  research_steps : list ResearchStep.t;
  confidence_score : float;
  limitations : list string
}.
End ResearchReport.

(** ** The collaborators outside the repository *)

(** The Python libraries: [json.loads]; [str()] of the values whose text
    the model does not spell out (floats, lists, dicts); the iteration
    order of a [set] of strings, which is unspecified; the validation of
    untyped values by pydantic when a model is constructed ([None] is
    [ValidationError]; a string is a valid string). *)
Class PythonLib : Type := {
  json_loads : string -> result json;
  py_repr : json -> string;
  list_of_set : list string -> list string;
  list_of_set_NoDup : forall l, NoDup (list_of_set l);
  list_of_set_In : forall l x, In x (list_of_set l) <-> In x l;
  validate_int : json -> option Z;
  validate_str : json -> option string;
  validate_str_ok : forall s, validate_str (JStr s) = Some s;
  validate_str_list : json -> option (list string);
  validate_stats : list (json * json) -> option (list (string * Z));
  validate_sprites : list (string * json) -> option (list (string * string));
  validate_confidence : json -> option float
}.

(** What an HTTP GET does: the library raises (connection error, timeout),
    or there is a response with a status and a body; decoding the body
    with [.json()] may raise. *)
Inductive http_outcome : Type :=
| HttpRaises (e : exn)
| HttpResponse (status : Z) (body : result json).

(** The network, unchanged during a run: [session_get] is aiohttp's
    [session.get(url)], [requests_get] is [requests.get(url, params)]. *)
Class Network : Type := {
  session_get : string -> http_outcome;
  requests_get : string -> list (string * json) -> http_outcome
}.

(** The five kinds of requests that the agent sends to the language
    model. *)
Inductive call_kind : Type :=
| Clarify
| ToolCalls
| Synthesis
| Analyse
| Report.

Definition call_kind_eqb (a b : call_kind) : bool :=
  match a, b with
  | Clarify, Clarify | ToolCalls, ToolCalls | Synthesis, Synthesis
  | Analyse, Analyse | Report, Report => true
  | _, _ => false
  end.

Record tool_call : Type := mk_tool_call {
  function_name : string;
  function_arguments : option string
}.

(** [response.choices[0].message]. *)
Record message : Type := mk_message {
  content : option string;
  tool_calls : option (list tool_call)
}.

Inductive completion : Type :=
| ApiError (e : exn)
| Completion (m : message).

(** The language model: [chat_completion k n] is what
    [client.chat.completions.create] does at the [n]-th request of kind
    [k] of a run (counting from 0).  Any behaviour of the service during
    a run is such a family of answers. *)
Class LanguageModel : Type := {
  chat_completion : call_kind -> nat -> completion
}.

(** The methods of [WebSearcher] that the agent calls.  Their results come
    from scraped web pages. *)
Class WebSearcher : Type := {
  search_pokemon_info : json -> result json;
  search_training_tips : json -> result json;
  search_competitive_info : json -> result json;
  search_location_info : json -> result json
}.

(** ** The state monad with exceptions *)

(** A command reads and updates a state of type [S] and returns a value
    or raises an exception; the state it has reached is kept in both
    cases. *)
Definition M (S A : Type) : Type := S -> result A * S.

Definition ret {S A} (a : A) : M S A := fun s => (Ok a, s).

Definition bind {S A B} (m : M S A) (f : A -> M S B) : M S B :=
  fun s =>
    match m s with
    | (Ok a, s') => f a s'
    | (Raise e, s') => (Raise e, s')
    end.

Definition raise {S A} (e : exn) : M S A := fun s => (Raise e, s).

(** [try: m except Exception as e: h e]. *)
Definition try_except {S A} (m : M S A) (h : exn -> M S A) : M S A :=
  fun s =>
    match m s with
    | (Raise e, s') => h e s'
    | r => r
    end.

Definition lift {S A} (r : result A) : M S A := fun s => (r, s).

Definition gets {S A} (f : S -> A) : M S A := fun s => (Ok (f s), s).

Definition modify {S} (f : S -> S) : M S unit := fun s => (Ok tt, f s).

Declare Scope monad_scope.
Delimit Scope monad_scope with monad.
Notation "x <- m ;; k" := (bind m (fun x => k))
  (at level 61, m at next level, right associativity) : monad_scope.
Notation "m ;; k" := (bind m (fun _ => k))
  (at level 61, right associativity) : monad_scope.
Open Scope monad_scope.

(** [for a in l: body a]. *)
Fixpoint for_each {S A} (l : list A) (body : A -> M S unit) : M S unit :=
  match l with
  | [] => ret tt
  | a :: t => body a ;; for_each t body
  end.

(** A loop that appends to a list the results that are not [None]. *)
Fixpoint collect {S A B} (l : list A) (body : A -> M S (option B))
  : M S (list B) :=
  match l with
  | [] => ret []
  | a :: t =>
      r <- body a ;;
      rest <- collect t body ;;
      ret (match r with Some b => b :: rest | None => rest end)
  end.

(** ** Commands with a recursion budget *)

(** [_analyse_findings] calls itself.  Its model takes a budget (fuel) for
    the depth of these calls, and a command of type [F S A] gives [None]
    when the budget is exhausted, which no handler catches. *)
Definition F (S A : Type) : Type := S -> option (result A * S).

Definition fret {S A} (a : A) : F S A := fun s => Some (Ok a, s).

Definition fbind {S A B} (m : F S A) (f : A -> F S B) : F S B :=
  fun s =>
    match m s with
    | Some (Ok a, s') => f a s'
    | Some (Raise e, s') => Some (Raise e, s')
    | None => None
    end.

Definition ftry_except {S A} (m : F S A) (h : exn -> F S A) : F S A :=
  fun s =>
    match m s with
    | Some (Raise e, s') => h e s'
    | r => r
    end.

(** A command without recursion needs no fuel. *)
Definition run_m {S A} (m : M S A) : F S A := fun s => Some (m s).

Declare Scope fuel_scope.
Delimit Scope fuel_scope with fuel.
Notation "x <- m ;; k" := (fbind m (fun x => k))
  (at level 61, m at next level, right associativity) : fuel_scope.
Notation "m ;; k" := (fbind m (fun _ => k))
  (at level 61, right associativity) : fuel_scope.

(** ** pokeapi_tools.py *)

Definition POKEAPI_BASE_URL : string := "https://pokeapi.co/api/v2".

Inductive session_state : Type :=
| NoSession
| SessionOpen
| SessionClosed.

Inductive log_level : Type :=
| LogWarning
| LogError.

(** The state of the client: its aiohttp session, and the records that the
    module's logger has written. *)
Module PokeAPIClient.
Record t : Type := mk {
  session : session_state;
  log : list (log_level * string)
}.

(** [PokeAPIClient()]. *)
Definition init : t := mk NoSession [].

Definition set_session (v : session_state) (c : t) : t := mk v (log c).

Definition add_log (lvl : log_level) (msg : string) (c : t) : t :=
  mk (session c) (log c ++ [(lvl, msg)])%list.

(** [__aenter__]: a new session. *)
Definition aenter (c : t) : t := set_session SessionOpen c.

(** [__aexit__]: the session, when there is one, is closed, and the
    attribute keeps the closed session. *)
Definition aexit (c : t) : t :=
  match session c with
  | NoSession => c
  | _ => set_session SessionClosed c
  end.
End PokeAPIClient.

(** [str(v)], also what an f-string puts for [{v}]. *)
Definition py_str `{PythonLib} (v : json) : string :=
  match v with
  | JStr s => s
  | JInt n => str_of_int n
  | JBool true => "True"
  | JBool false => "False"
  | JNull => "None"
  | _ => py_repr v
  end.

(** Whether a value can be a dict key. *)
Definition hashable (v : json) : bool :=
  match v with
  | JList _ | JDict _ => false
  | _ => true
  end.

(** The line feed and form feed characters, the space and the slash. *)
Definition LF : ascii := ascii_of_nat 10.
Definition FF : ascii := ascii_of_nat 12.
Definition SP : ascii := ascii_of_nat 32.
Definition SLASH : ascii := ascii_of_nat 47.

Definition validated {A} (o : option A) : result A :=
  match o with
  | Some a => Ok a
  | None => Raise ValidationError
  end.

(** The body of [extract_evolutions] in [get_evolution_chain]: the species
    names of a chain, depth first.  The recursion of the source is bounded
    by the depth of the document; [fuel] bounds it here, and
    [get_evolution_chain] passes the size of the document. *)
Fixpoint extract_evolutions (fuel : nat) (chain_link : json)
  : result (list json) :=
  match fuel with
  | O => Raise RecursionError
  | S n =>
      (species <~ py_getitem chain_link "species" ;
       nm <~ py_getitem species "name" ;
       evolves_to <~ py_get chain_link "evolves_to" (JList []) ;
       links <~ py_iter evolves_to ;
       rest <~ rmap (extract_evolutions n) links ;
       Ok (nm :: List.concat rest))%result
  end.

(** The loop of [get_pokemon_description]: the text of the first entry
    whose language is English, or [None]. *)
Fixpoint first_english (entries : list json) : result json :=
  match entries with
  | [] => Ok JNull
  | entry :: rest =>
      (language <~ py_getitem entry "language" ;
       nm <~ py_getitem language "name" ;
       match nm with
       | JStr "en" =>
           text <~ py_getitem entry "flavor_text" ;
           match text with
           | JStr s => Ok (JStr (replace_char FF SP (replace_char LF SP s)))
           | _ => Raise AttributeError
           end
       | _ => first_english rest
       end)%result
  end.

(** [parts[-2]]. *)
Definition second_last (parts : list string) : result string :=
  match rev parts with
  | _ :: x :: _ => Ok x
  | _ => Raise IndexError
  end.

Section Adapter.
Context {net : Network} {py : PythonLib}.

(** [_make_request]: never raises; any failure is logged and gives
    [None]. *)
Definition _make_request (endpoint : string) : M PokeAPIClient.t json :=
  fun c0 =>
    let c :=
      match PokeAPIClient.session c0 with
      | NoSession => PokeAPIClient.set_session SessionOpen c0
      | _ => c0
      end in
    let url := POKEAPI_BASE_URL ++ "/" ++ endpoint in
    let failed (e : exn) :=
      (Ok JNull,
       PokeAPIClient.add_log LogError
         ("Error making PokeAPI request to " ++ url ++ ": " ++ str_exn e) c) in
    match PokeAPIClient.session c with
    | SessionClosed => failed (RuntimeError "Session is closed")
    | _ =>
        match session_get url with
        | HttpRaises e => failed e
        | HttpResponse status body =>
            if (status =? 200)%Z then
              match body with
              | Ok data => (Ok data, c)
              | Raise e => failed e
              end
            else
              (Ok JNull,
               PokeAPIClient.add_log LogWarning
                 ("PokeAPI request failed: " ++ str_of_int status
                  ++ " for " ++ url) c)
        end
    end.

(** The construction of the [PokemonData] of [get_pokemon_by_name] from the
    document [data]: the arguments in the order of the source, then the
    validation of the model. *)
Definition pokemon_of_json (data : json) : result PokemonData.t :=
  (id_ <~ py_getitem data "id" ;
   name_ <~ py_getitem data "name" ;
   types_ <~ (l <~ py_getitem data "types" ;
              items <~ py_iter l ;
              rmap (fun t => ty <~ py_getitem t "type" ; py_getitem ty "name")
                   items) ;
   height_ <~ (h <~ py_getitem data "height" ; py_div10 h) ;
   weight_ <~ (w <~ py_getitem data "weight" ; py_div10 w) ;
   base_experience_ <~ py_getitem data "base_experience" ;
   abilities_ <~ (l <~ py_getitem data "abilities" ;
                  items <~ py_iter l ;
                  rmap (fun a => ab <~ py_getitem a "ability" ;
                                 py_getitem ab "name") items) ;
   stats_ <~ (l <~ py_getitem data "stats" ;
              items <~ py_iter l ;
              rmap (fun s => st <~ py_getitem s "stat" ;
                             k <~ py_getitem st "name" ;
                             v <~ py_getitem s "base_stat" ;
                             if hashable k then Ok (k, v) else Raise TypeError)
                   items) ;
   moves_ <~ (l <~ py_getitem data "moves" ;
              first20 <~ py_slice_to 20 l ;
              items <~ py_iter first20 ;
              rmap (fun m => mv <~ py_getitem m "move" ; py_getitem mv "name")
                   items) ;
   sprites_ <~ (rmap (fun k => sp <~ py_getitem data "sprites" ;
                               v <~ py_getitem sp k ;
                               Ok (k, v))
                     ["front_default"; "back_default";
                      "front_shiny"; "back_shiny"]) ;
   id' <~ validated (validate_int id_) ;
   name' <~ validated (validate_str name_) ;
   types' <~ validated (validate_str_list (JList types_)) ;
   base_experience' <~ validated (validate_int base_experience_) ;
   abilities' <~ validated (validate_str_list (JList abilities_)) ;
   stats' <~ validated (validate_stats stats_) ;
   moves' <~ validated (validate_str_list (JList moves_)) ;
   sprites' <~ validated (validate_sprites sprites_) ;
   Ok (PokemonData.mk id' name' types' height_ weight_ base_experience'
         abilities' stats' moves' sprites' None None None))%result.

Definition get_pokemon_by_name (name : json)
  : M PokeAPIClient.t (option PokemonData.t) :=
  lowered <- lift (py_lower name) ;;
  data <- _make_request ("pokemon/" ++ lowered) ;;
  if negb (truthy data) then ret None
  else (p <- lift (pokemon_of_json data) ;; ret (Some p)).

Definition get_pokemon_by_id (pokemon_id : json)
  : M PokeAPIClient.t (option PokemonData.t) :=
  get_pokemon_by_name (JStr (py_str pokemon_id)).

Definition get_pokemon_by_type (pokemon_type : json)
  : M PokeAPIClient.t (list PokemonData.t) :=
  lowered <- lift (py_lower pokemon_type) ;;
  data <- _make_request ("type/" ++ lowered) ;;
  if negb (truthy data) then ret []
  else
    (members <- lift (l <~ py_getitem data "pokemon" ;
                      first50 <~ py_slice_to 50 l ;
                      py_iter first50)%result ;;
     collect members (fun pokemon_info =>
       pokemon_name <- lift (p <~ py_getitem pokemon_info "pokemon" ;
                             py_getitem p "name")%result ;;
       get_pokemon_by_name pokemon_name)).

Definition search_pokemon (query : json)
  : M PokeAPIClient.t (list PokemonData.t) :=
  data <- _make_request "pokemon?limit=1000" ;;
  if negb (truthy data) then ret []
  else
    (query_lower <- lift (py_lower query) ;;
     results <- lift (l <~ py_getitem data "results" ; py_iter l)%result ;;
     collect results (fun pokemon_info =>
       nm <- lift (py_getitem pokemon_info "name") ;;
       name_lower <- lift (py_lower nm) ;;
       if contains query_lower name_lower then
         (nm' <- lift (py_getitem pokemon_info "name") ;;
          get_pokemon_by_name nm')
       else ret None)).

Definition get_evolution_chain (pokemon_name : json)
  : M PokeAPIClient.t (list json) :=
  lowered <- lift (py_lower pokemon_name) ;;
  species_data <- _make_request ("pokemon-species/" ++ lowered) ;;
  if negb (truthy species_data) then ret []
  else
    (ec <- lift (py_get species_data "evolution_chain" JNull) ;;
     if negb (truthy ec) then ret []
     else
       (evolution_chain_url <-
          lift (e <~ py_getitem species_data "evolution_chain" ;
                py_getitem e "url")%result ;;
        chain_id <-
          lift (match evolution_chain_url with
                | JStr u => second_last (split SLASH u)
                | _ => Raise AttributeError
                end) ;;
        chain_data <- _make_request ("evolution-chain/" ++ chain_id) ;;
        if negb (truthy chain_data) then ret []
        else
          (chain <- lift (py_getitem chain_data "chain") ;;
           lift (extract_evolutions (json_size chain) chain)))).

Definition get_pokemon_description (pokemon_name : json)
  : M PokeAPIClient.t json :=
  lowered <- lift (py_lower pokemon_name) ;;
  species_data <- _make_request ("pokemon-species/" ++ lowered) ;;
  if negb (truthy species_data) then ret JNull
  else
    (fte <- lift (py_get species_data "flavor_text_entries" JNull) ;;
     if negb (truthy fte) then ret JNull
     else
       lift (l <~ py_getitem species_data "flavor_text_entries" ;
             entries <~ py_iter l ;
             first_english entries)%result).

Definition get_all_types : M PokeAPIClient.t (list json) :=
  data <- _make_request "type" ;;
  if negb (truthy data) then ret []
  else lift (l <~ py_getitem data "results" ;
             items <~ py_iter l ;
             rmap (fun t => py_getitem t "name") items)%result.

Definition get_generation_info (generation : json)
  : M PokeAPIClient.t json :=
  lowered <- lift (py_lower generation) ;;
  _make_request ("generation/" ++ lowered).

(** [response.raise_for_status()] followed by [response.json()]. *)
Definition raise_for_status_json (r : http_outcome) : result json :=
  match r with
  | HttpRaises e => Raise e
  | HttpResponse status body =>
      if andb (400 <=? status)%Z (status <? 600)%Z
      then Raise (HTTPError status)
      else body
  end.

(** The module-level [fetch_all_pokemon] and [fetch_pokemon_ability]: they
    use [requests] and catch nothing. *)
Definition fetch_all_pokemon (limit offset : json) : result json :=
  raise_for_status_json
    (requests_get (POKEAPI_BASE_URL ++ "/pokemon")
                  [("limit", limit); ("offset", offset)]).

Definition fetch_pokemon_ability (ability_name : json) : result json :=
  (lowered <~ py_lower ability_name ;
   raise_for_status_json
     (requests_get (POKEAPI_BASE_URL ++ "/ability/" ++ lowered) []))%result.

End Adapter.

(** ** llm_agent.py *)

(** [s.strip()]: the ASCII white space at both ends is removed. *)
Definition is_space (c : ascii) : bool :=
  let n := nat_of_ascii c in
  orb (andb (Nat.leb 9 n) (Nat.leb n 13))
      (andb (Nat.leb 28 n) (Nat.leb n 32)).

Fixpoint lstrip (s : string) : string :=
  match s with
  | String c t => if is_space c then lstrip t else s
  | EmptyString => EmptyString
  end.

Fixpoint string_rev (s : string) : string :=
  match s with
  | EmptyString => EmptyString
  | String c t => string_rev t ++ String c EmptyString
  end.

Definition strip (s : string) : string :=
  string_rev (lstrip (string_rev (lstrip s))).

(** [json.dumps(v, indent=2)]: a [PokemonData] object is not serializable.
    Only the failure is modelled, the text is not. *)
Definition json_dumps (v : pyval) : result unit :=
  match v with
  | Json _ => Ok tt
  | Model _ => Raise TypeError
  | Models [] => Ok tt
  | Models (_ :: _) => Raise TypeError
  end.

Definition json_dumps_dict (d : pydict) : result unit :=
  (_ <~ rmap (fun kv => json_dumps (snd kv)) d ; Ok tt)%result.

(** [sep.join(v)] for a stored value. *)
Definition pyval_join (sep : string) (v : pyval) : result string :=
  match v with
  | Json j => py_join sep j
  | Models [] => Ok EmptyString
  | _ => Raise TypeError
  end.

(** [v.get(k, default)] for a stored value. *)
Definition pyval_get (v : pyval) (k : string) (default : json) : result json :=
  match v with
  | Json j => py_get j k default
  | _ => Raise AttributeError
  end.

(** The state of a run: the [ResearchContext], the PokeAPI client of the
    agent, and the requests sent to the language model so far, each with
    the context from which its prompt was built. *)
Record world : Type := mk_world {
  context : ResearchContext.t;
  pokeapi_client : PokeAPIClient.t;
  requests : list (call_kind * ResearchContext.t)
}.

Definition with_context (f : ResearchContext.t -> ResearchContext.t)
  (w : world) : world :=
  mk_world (f (context w)) (pokeapi_client w) (requests w).

Definition read {A} (f : ResearchContext.t -> A) : M world A :=
  gets (fun w => f (context w)).

(** [context.collected_data[k] = v]. *)
Definition set_collected_data (k : string) (v : pyval) : M world unit :=
  modify (with_context (fun c =>
    ResearchContext.mk (ResearchContext.original_query c)
      (ResearchContext.clarified_goals c) (ResearchContext.research_steps c)
      (dict_set k v (ResearchContext.collected_data c))
      (ResearchContext.current_focus c) (ResearchContext.user_feedback c))).

(** [context.research_steps.append(step)]. *)
Definition append_step (step : ResearchStep.t) : M world unit :=
  modify (with_context (fun c =>
    ResearchContext.mk (ResearchContext.original_query c)
      (ResearchContext.clarified_goals c)
      (ResearchContext.research_steps c ++ [step])%list
      (ResearchContext.collected_data c)
      (ResearchContext.current_focus c) (ResearchContext.user_feedback c))).

(** [context.original_query = q]. *)
Definition set_original_query (q : json) : M world unit :=
  modify (with_context (fun c =>
    ResearchContext.mk q
      (ResearchContext.clarified_goals c) (ResearchContext.research_steps c)
      (ResearchContext.collected_data c)
      (ResearchContext.current_focus c) (ResearchContext.user_feedback c))).

(** [context.clarified_goals = g]. *)
Definition set_clarified_goals (g : json) : M world unit :=
  modify (with_context (fun c =>
    ResearchContext.mk (ResearchContext.original_query c) g
      (ResearchContext.research_steps c) (ResearchContext.collected_data c)
      (ResearchContext.current_focus c) (ResearchContext.user_feedback c))).

(** A call of a method of [self.pokeapi_client]. *)
Definition client_call {A} (m : M PokeAPIClient.t A) : M world A :=
  fun w =>
    let (r, c) := m (pokeapi_client w) in
    (r, mk_world (context w) c (requests w)).

(** A successful step and a failed step, as the agent constructs them. *)
Definition step_done (ty : ResearchStepType) (description : string)
  (output_data : option pydict) (sources : list string) : ResearchStep.t :=
  ResearchStep.mk ty description None output_data sources true None.

Definition step_failed (ty : ResearchStepType) (description : string)
  (e : exn) : ResearchStep.t :=
  ResearchStep.mk ty description None None [] false (Some (str_exn e)).

(** [try: x = m; k x  except Exception as e: h e], where the handler reads
    the variable [x]: it is bound only when [m] has returned. *)
Definition try_bind_except {S A B} (m : M S A) (k : A -> M S B)
  (h : option A -> exn -> M S B) : M S B :=
  fun s =>
    match m s with
    | (Ok a, s') => try_except (k a) (h (Some a)) s'
    | (Raise e, s') => h None e s'
    end.

(** [i + 1] in an f-string. *)
Definition str_succ (i : nat) : string := str_of_int (Z.of_nat (i + 1)).

Definition dict_get_default {V} (k : string) (default : V)
  (d : list (string * V)) : V :=
  match dict_get k d with
  | Some v => v
  | None => default
  end.

(** The number of workers of [_conducting_research]:
    [if not isinstance(num_subagents, int) or num_subagents < 1:
     num_subagents = 1], then [range(num_subagents)]. *)
Definition clamp_num_subagents (v : pyval) : nat :=
  match v with
  | Json num_subagents =>
      if orb (negb (is_int num_subagents)) (int_value num_subagents <? 1)%Z
      then 1
      else Z.to_nat (int_value num_subagents)
  | _ => 1
  end.

(** The instruction of worker [i]:
    [subagent_instructions[i] if i < len(subagent_instructions) else ""]. *)
Definition subagent_task (raw_instructions : pyval) (i : nat)
  : result pyval :=
  match raw_instructions with
  | Json raw =>
      let subagent_instructions :=
        match raw with
        | JDict d => JList (dict_values d)
        | _ => raw
        end in
      (n <~ py_len subagent_instructions ;
       if Nat.ltb i n
       then (x <~ py_index subagent_instructions i ; Ok (Json x))
       else Ok (Json (JStr "")))%result
  | Models l =>
      match nth_error l i with
      | Some p => Ok (Model p)
      | None => Ok (Json (JStr ""))
      end
  | Model _ => Raise TypeError
  end.

(** [a < 2] and [a + 1] for a stored value. *)
Definition pyval_lt_int (v : pyval) (n : Z) : result bool :=
  match v with
  | Json j => py_lt_int j n
  | _ => Raise TypeError
  end.

Definition pyval_succ (v : pyval) : result pyval :=
  match v with
  | Json j => (x <~ py_succ j ; Ok (Json x))%result
  | _ => Raise TypeError
  end.

Definition max_refinement_cycles : Z := 2.

Section Agent.
Context {py : PythonLib} {net : Network} {llm : LanguageModel}
        {web : WebSearcher}.

(** [self.client.chat.completions.create(...)] followed by
    [response.choices[0].message]: the request is recorded, and the answer
    is the one of the language model for this request. *)
Definition create (kind : call_kind) : M world message :=
  fun w =>
    let n := List.length
               (filter (fun r => call_kind_eqb (fst r) kind) (requests w)) in
    let w' := mk_world (context w) (pokeapi_client w)
                (requests w ++ [(kind, context w)])%list in
    match chat_completion kind n with
    | ApiError e => (Raise e, w')
    | Completion m => (Ok m, w')
    end.

(** [content = response.choices[0].message.content], and the
    [RuntimeError] raised when it is [None]. *)
Definition content_or_raise (response : message) (msg : string)
  : M world string :=
  match content response with
  | Some text => ret text
  | None => raise (RuntimeError msg)
  end.

(** The [except] block of [_clarify_goals].  Its third [print] reads the
    variable [response], which is unbound when the request itself raised. *)
Definition clarify_except (response : option message) (e : exn)
  : M world unit :=
  match response with
  | Some _ =>
      append_step (step_failed CLARIFICATION "Failed to clarify goals" e)
  | None => raise UnboundLocalError
  end.

Definition _clarify_goals : M world unit :=
  try_bind_except (create Clarify)
    (fun response =>
       text <- content_or_raise response
                 "LLM returned no clarification goal content" ;;
       clarification_data <- lift (json_loads (strip text)) ;;
       match clarification_data with
       | JDict d =>
           set_clarified_goals (dict_get_default "goals" (JList []) d) ;;
           set_collected_data "pokemon_to_research"
             (Json (dict_get_default "pokemon_to_research" (JList []) d)) ;;
           set_collected_data "research_focus"
             (Json (dict_get_default "research_focus" (JStr "") d)) ;;
           set_collected_data "constraints"
             (Json (dict_get_default "constraints" (JList []) d)) ;;
           set_collected_data "subagent_instructions"
             (Json (dict_get_default "subagent_instructions" (JList []) d)) ;;
           set_collected_data "num_subagents"
             (Json (dict_get_default "num_subagents" (JInt 1) d)) ;;
           append_step
             (step_done CLARIFICATION
                "Clarified research goals and identified key areas to investigate"
                (Some (pydict_of_json d)) [])
       | _ => raise AttributeError
       end)
    clarify_except.

(** *** The research helpers that the dispatcher can call *)

Definition _research_pokemon_api (pokemon_name : json) : M world unit :=
  try_except
    (pokemon_data <- client_call (get_pokemon_by_name pokemon_name) ;;
     match pokemon_data with
     | Some p =>
         description <- client_call (get_pokemon_description pokemon_name) ;;
         evolution_chain <- client_call (get_evolution_chain pokemon_name) ;;
         let p1 := match description with
                   | JStr d => if truthy description
                               then PokemonData.set_description d p else p
                   | _ => p
                   end in
         let p2 := match evolution_chain with
                   | [] => p1
                   | _ => PokemonData.set_evolution_chain evolution_chain p1
                   end in
         set_collected_data ("pokemon_" ++ py_str pokemon_name)
           (Json (PokemonData.model_dump p2)) ;;
         append_step
           (step_done POKEAPI_QUERY
              ("Retrieved comprehensive data for " ++ py_str pokemon_name
               ++ " from PokeAPI")
              (Some [("pokemon_data", Json (PokemonData.model_dump p2))])
              ["https://pokeapi.co/api/v2/pokemon/" ++ py_str pokemon_name])
     | None => ret tt
     end)
    (fun e =>
       append_step
         (step_failed POKEAPI_QUERY
            ("Failed to retrieve data for " ++ py_str pokemon_name) e)).

Definition _research_pokemon_web (pokemon_name : json) : M world unit :=
  try_except
    (web_results <- lift (search_pokemon_info pokemon_name) ;;
     training_tips <- lift (search_training_tips pokemon_name) ;;
     competitive_info <- lift (search_competitive_info pokemon_name) ;;
     location_info <- lift (search_location_info pokemon_name) ;;
     let web_data :=
       [ ("web_results", web_results); ("training_tips", training_tips);
         ("competitive_info", competitive_info);
         ("location_info", location_info) ] in
     set_collected_data ("web_data_" ++ py_str pokemon_name)
       (Json (JDict web_data)) ;;
     urls <- lift (items <~ py_iter web_results ;
                   rmap (fun r => py_getitem r "url") items)%result ;;
     sources <- lift (validated (validate_str_list (JList urls))) ;;
     append_step
       (step_done WEB_SEARCH
          ("Gathered additional information about " ++ py_str pokemon_name
           ++ " from web sources")
          (Some (pydict_of_json web_data)) sources))
    (fun e =>
       append_step
         (step_failed WEB_SEARCH
            ("Failed to gather web data for " ++ py_str pokemon_name) e)).

Definition early_pokemon : list string :=
  ["pikachu"; "charmander"; "bulbasaur"; "squirtle"; "pidgey"; "rattata"].

Definition _research_training_info : M world unit :=
  try_except
    (training_data <-
       client_call
         (collect early_pokemon (fun pokemon_name =>
            pokemon_data <- get_pokemon_by_name (JStr pokemon_name) ;;
            match pokemon_data with
            | Some p =>
                chain <- get_evolution_chain (JStr pokemon_name) ;;
                ret (Some
                  (pokemon_name,
                   JDict
                     [ ("base_exp", JInt (PokemonData.base_experience p));
                       ("evolution_chain", JList chain);
                       ("stats",
                         JDict (map (fun kv => (fst kv, JInt (snd kv)))
                                  (PokemonData.stats p))) ]))
            | None => ret None
            end)) ;;
     set_collected_data "training_research" (Json (JDict training_data)) ;;
     append_step
       (step_done ANALYSIS
          "Researched and analysed training information for early-game Pokemon"
          (Some (pydict_of_json training_data)) []))
    (fun _ => ret tt).

Definition unique_criteria : list string :=
  ["legendary"; "mythical"; "regional"; "fossil"; "water"; "ocean"].

Definition _research_unique_pokemon : M world unit :=
  try_except
    (unique_pokemon <-
       collect unique_criteria (fun criteria =>
         original_query <- read ResearchContext.original_query ;;
         query_lower <- lift (py_lower original_query) ;;
         if contains criteria query_lower then
           (search_results <- client_call (search_pokemon (JStr criteria)) ;;
            ret (Some
              (criteria,
               JList (map PokemonData.model_dump (firstn 10 search_results)))))
         else ret None) ;;
     set_collected_data "unique_pokemon" (Json (JDict unique_pokemon)) ;;
     append_step
       (step_done ANALYSIS
          "Researched and analysed unique Pokemon matching the query criteria"
          (Some (pydict_of_json unique_pokemon)) []))
    (fun _ => ret tt).

(** *** The function dispatcher *)

(** [pokemon_data.model_dump()], where [pokemon_data] may be [None]. *)
Definition model_dump_or_raise (o : option PokemonData.t) : M world json :=
  match o with
  | Some p => ret (PokemonData.model_dump p)
  | None => raise AttributeError
  end.

(** The branches of [_execute_function_calls] on [function_name], for the
    decoded arguments [function_args]. *)
Definition dispatch (function_name : string) (function_args : json)
  : M world unit :=
  if function_name =? "get_pokemon_by_name" then
    pokemon_name <- lift (py_get function_args "name" JNull) ;;
    if truthy pokemon_name then
      pokemon_data <- client_call (get_pokemon_by_name pokemon_name) ;;
      dumped <- model_dump_or_raise pokemon_data ;;
      set_collected_data ("pokemon_" ++ py_str pokemon_name) (Json dumped)
    else ret tt
  else if function_name =? "get_pokemon_by_id" then
    pokemon_id <- lift (py_get function_args "pokemon_id" JNull) ;;
    if truthy pokemon_id then
      pokemon_data <- client_call (get_pokemon_by_id pokemon_id) ;;
      dumped <- model_dump_or_raise pokemon_data ;;
      set_collected_data ("pokemon_id_" ++ py_str pokemon_id) (Json dumped)
    else ret tt
  else if function_name =? "get_pokemon_by_type" then
    pokemon_type <- lift (py_get function_args "pokemon_type" JNull) ;;
    if truthy pokemon_type then
      pokemon_list <- client_call (get_pokemon_by_type pokemon_type) ;;
      set_collected_data ("pokemon_type_" ++ py_str pokemon_type)
        (Models pokemon_list)
    else ret tt
  else if function_name =? "search_pokemon" then
    query <- lift (py_get function_args "query" JNull) ;;
    if truthy query then
      results <- client_call (search_pokemon query) ;;
      set_collected_data ("search_" ++ py_str query) (Models results)
    else ret tt
  else if function_name =? "get_evolution_chain" then
    pokemon_name <- lift (py_get function_args "pokemon_name" JNull) ;;
    if truthy pokemon_name then
      chain <- client_call (get_evolution_chain pokemon_name) ;;
      set_collected_data ("evolution_chain_" ++ py_str pokemon_name)
        (Json (JList chain))
    else ret tt
  else if function_name =? "get_pokemon_description" then
    pokemon_name <- lift (py_get function_args "pokemon_name" JNull) ;;
    if truthy pokemon_name then
      description <- client_call (get_pokemon_description pokemon_name) ;;
      set_collected_data ("description_" ++ py_str pokemon_name)
        (Json description)
    else ret tt
  else if function_name =? "get_all_types" then
    types <- client_call get_all_types ;;
    set_collected_data "all_types" (Json (JList types))
  else if function_name =? "get_generation_info" then
    generation <- lift (py_get function_args "generation" JNull) ;;
    if truthy generation then
      gen_info <- client_call (get_generation_info generation) ;;
      set_collected_data ("generation_" ++ py_str generation) (Json gen_info)
    else ret tt
  else if function_name =? "fetch_all_pokemon" then
    limit <- lift (py_get function_args "limit" (JInt 100)) ;;
    offset <- lift (py_get function_args "offset" (JInt 0)) ;;
    pokemon_list <- lift (fetch_all_pokemon limit offset) ;;
    items <- lift (py_iter pokemon_list) ;;
    set_collected_data
      ("all_pokemon_" ++ py_str offset ++ "_" ++ py_str limit)
      (Json (JList items))
  else if function_name =? "fetch_pokemon_ability" then
    ability_name <- lift (py_get function_args "ability_name" JNull) ;;
    if truthy ability_name then
      ability_data <- lift (fetch_pokemon_ability ability_name) ;;
      set_collected_data ("ability_" ++ py_str ability_name)
        (Json ability_data)
    else ret tt
  else if function_name =? "_research_pokemon_api" then
    pokemon_name <- lift (py_get function_args "pokemon_name" JNull) ;;
    if truthy pokemon_name then _research_pokemon_api pokemon_name
    else ret tt
  else if function_name =? "_research_pokemon_web" then
    pokemon_name <- lift (py_get function_args "pokemon_name" JNull) ;;
    if truthy pokemon_name then _research_pokemon_web pokemon_name
    else ret tt
  else if function_name =? "_research_training_info" then
    _research_training_info
  else if function_name =? "_research_unique_pokemon" then
    _research_unique_pokemon
  else ret tt.

(** [function_call.function.arguments or "{}"]. *)
Definition function_args_raw (function_call : tool_call) : string :=
  match function_arguments function_call with
  | Some EmptyString | None => "{}"
  | Some s => s
  end.

(** The [try] block of the loop of [_execute_function_calls]: the
    arguments are decoded, then the call is dispatched. *)
Definition decode_and_dispatch (function_call : tool_call) : M world unit :=
  function_args <- lift (json_loads (function_args_raw function_call)) ;;
  dispatch (function_name function_call) function_args.

(** One iteration of the loop of [_execute_function_calls]: the [try]
    block and its [except] block, which records a failed step. *)
Definition execute_function_call (i : nat) (function_call : tool_call)
  : M world unit :=
  try_except (decode_and_dispatch function_call)
    (fun e =>
       append_step
         (step_failed SYNTHESIS
            ("Failed research subagent " ++ str_succ i
             ++ " in executing function " ++ function_name function_call)
            e)).

(** [_execute_function_calls]: the loop over
    [getattr(response.choices[0].message, "tool_calls", [])].  The
    attribute always exists; iterating over [None] raises. *)
Definition _execute_function_calls (response : message) (i : nat)
  : M world unit :=
  match tool_calls response with
  | Some calls => for_each calls (execute_function_call i)
  | None => raise TypeError
  end.

(** *** The research phase *)

(** The body of the loop of [_conducting_research] for worker [i];
    [raw_instructions] is read before the loop. *)
Definition research_subagent (raw_instructions : pyval) (i : nat)
  : M world unit :=
  collected_data <- read ResearchContext.collected_data ;;
  (* the worker's prompt *)
  task <- lift (subagent_task raw_instructions i) ;;
  lift (pyval_join ", "
          (dict_get_default "constraints" (Json (JList [])) collected_data)) ;;
  lift (pyval_join ", "
          (dict_get_default "pokemon_to_research" (Json (JList []))
             collected_data)) ;;
  try_except
    ((* step 1: function call generation *)
     response <- create ToolCalls ;;
     match tool_calls response with
     | Some (c :: calls) =>
         for_each (c :: calls) (fun _ => _execute_function_calls response i)
     | _ => ret tt
     end ;;
     collected_data <- read ResearchContext.collected_data ;;
     match collected_data with
     | [] =>
         content_or_raise response
           ("subagent " ++ str_succ i ++ " returned no content") ;;
         ret tt
     | _ => ret tt
     end ;;
     collected_data <- read ResearchContext.collected_data ;;
     append_step
       (step_done SYNTHESIS ("Completed research subagent " ++ str_succ i)
          (Some collected_data) []) ;;
     _execute_function_calls response i ;;
     try_except
       ((* step 2: synthesis *)
        collected_data <- read ResearchContext.collected_data ;;
        lift (json_dumps
                (dict_get_default ("subagent_" ++ str_succ i) (Json (JDict []))
                   collected_data)) ;;
        response <- create Synthesis ;;
        text <- content_or_raise response
                  ("subagent " ++ str_succ i ++ " returned no content") ;;
        set_collected_data ("subagent_" ++ str_succ i ++ "_synthesis")
          (Json (JStr text)) ;;
        append_step
          (step_done SYNTHESIS
             ("Completed synthesis for research subagent " ++ str_succ i)
             (Some [("subagent_" ++ str_succ i ++ "synthesis",
                     Json (JStr text))]) []))
       (fun e =>
          append_step
            (step_failed SYNTHESIS
               ("Failed research subagent " ++ str_succ i ++ " in step 2") e)))
    (fun e =>
       append_step
         (step_failed SYNTHESIS
            ("Failed research subagent " ++ str_succ i ++ " in step 1 ") e)).

Definition _conducting_research : M world unit :=
  collected_data <- read ResearchContext.collected_data ;;
  let num_subagents :=
    clamp_num_subagents
      (dict_get_default "num_subagents" (Json (JInt 1)) collected_data) in
  let raw_instructions :=
    dict_get_default "subagent_instructions" (Json (JDict [])) collected_data in
  for_each (seq 0 num_subagents) (research_subagent raw_instructions).

(** *** The analysis phase and the refinement loop *)

(** The user prompt of [_analyse_findings], built before its [try]. *)
Definition analyse_prompt : M world unit :=
  clarified_goals <- read ResearchContext.clarified_goals ;;
  lift (py_join "; " clarified_goals) ;;
  collected_data <- read ResearchContext.collected_data ;;
  lift (json_dumps_dict collected_data).

(** The beginning of the [try] block: the request, the decoded analysis
    stored under ["analysis"], and the test of the refinement rule.  The
    result is [analysis_data], [refinement_count] and the value of the
    test. *)
Definition analyse_request : M world (json * pyval * bool) :=
  response <- create Analyse ;;
  text <- content_or_raise response "LLM returned no analysis content" ;;
  analysis_data <- lift (json_loads (strip text)) ;;
  set_collected_data "analysis" (Json analysis_data) ;;
  collected_data <- read ResearchContext.collected_data ;;
  let refinement_count :=
    dict_get_default "refinement_count" (Json (JInt 0)) collected_data in
  further <- lift (py_get analysis_data "further_research_needed"
                     (JBool false)) ;;
  refine <- (if truthy further
             then lift (pyval_lt_int refinement_count max_refinement_cycles)
             else ret false) ;;
  ret (analysis_data, refinement_count, refine).

(** The assignments of the refinement rule, before the three phases are
    run again. *)
Definition refine_query (analysis_data : json) (refinement_count : pyval)
  : M world unit :=
  original_query <- read ResearchContext.original_query ;;
  refined_query <- lift (py_get analysis_data "refined_query"
                           original_query) ;;
  set_original_query refined_query ;;
  set_collected_data "refined_query" (Json refined_query) ;;
  next_count <- lift (pyval_succ refinement_count) ;;
  set_collected_data "refinement_count" next_count.

(** The analysis step recorded at the end of the [try] block. *)
Definition analysis_step (analysis_data : json) : M world unit :=
  match analysis_data with
  | JDict d =>
      append_step
        (step_done ANALYSIS
           "Analysed all research findings, ran multiple research cycles if needed and generated insights"
           (Some (pydict_of_json d)) [])
  | _ => raise AttributeError
  end.

Fixpoint _analyse_findings (fuel : nat) : F world unit :=
  match fuel with
  | O => fun _ => None
  | S fuel' =>
      (run_m analyse_prompt ;;
       ftry_except
         (decision <- run_m analyse_request ;;
          let '(analysis_data, refinement_count, refine) := decision in
          (if refine : bool then
             run_m (refine_query analysis_data refinement_count ;;
                    _clarify_goals ;;
                    _conducting_research)%monad ;;
             _analyse_findings fuel'
           else fret tt) ;;
          run_m (analysis_step analysis_data))
         (fun _ => fret tt))%fuel
  end.

(** *** The report *)

(** The [try] block of [_generate_final_report]. *)
Definition generate_report : M world ResearchReport.t :=
  response <- create Report ;;
  text <- content_or_raise response "LLM returned no report content" ;;
  let report_content := strip text in
  research_steps <- read ResearchContext.research_steps ;;
  let all_sources :=
    list_of_set (flat_map ResearchStep.sources research_steps) in
  collected_data <- read ResearchContext.collected_data ;;
  let analysis_data :=
    dict_get_default "analysis" (Json (JDict [])) collected_data in
  original_query <- read ResearchContext.original_query ;;
  recommendations <- lift (pyval_get analysis_data "recommendations"
                             (JList [])) ;;
  confidence_score <- lift (pyval_get analysis_data "confidence_score"
                              (JFloat 0.7%float)) ;;
  limitations <- lift (pyval_get analysis_data "limitations" (JList [])) ;;
  query' <- lift (validated (validate_str original_query)) ;;
  recommendations' <- lift (validated (validate_str_list recommendations)) ;;
  confidence_score' <- lift (validated (validate_confidence confidence_score)) ;;
  limitations' <- lift (validated (validate_str_list limitations)) ;;
  ret (ResearchReport.mk query' report_content collected_data
         recommendations' all_sources research_steps confidence_score'
         limitations').

(** The [except] block of [_generate_final_report]: the degraded report. *)
Definition error_report : M world ResearchReport.t :=
  original_query <- read ResearchContext.original_query ;;
  collected_data <- read ResearchContext.collected_data ;;
  research_steps <- read ResearchContext.research_steps ;;
  query' <- lift (validated (validate_str original_query)) ;;
  ret (ResearchReport.mk query' "Error generating report" collected_data
         [] [] research_steps 0%float
         ["Failed to generate complete report"]).

Definition _generate_final_report : M world ResearchReport.t :=
  (* the user prompt *)
  collected_data <- read ResearchContext.collected_data ;;
  lift (json_dumps
          (dict_get_default "analysis" (Json (JDict [])) collected_data)) ;;
  try_except generate_report (fun _ => error_report).

(** *** The entry point *)

(** The four phases of [run], on the context of the run. *)
Definition pipeline (fuel : nat) : F world ResearchReport.t :=
  (run_m _clarify_goals ;;
   run_m _conducting_research ;;
   _analyse_findings fuel ;;
   run_m _generate_final_report)%fuel.

(** The state in which the phases start: the client's session is entered
    and a new context is made for the query. *)
Definition start (query : string) (client : PokeAPIClient.t) : world :=
  mk_world (ResearchContext.init query) (PokeAPIClient.aenter client) [].

(** Leaving the [async with] block: the session is left whatever the
    outcome. *)
Definition leave (w : world) : world :=
  mk_world (context w) (PokeAPIClient.aexit (pokeapi_client w)) (requests w).

(** [run(query)] on an agent whose client is [client]. *)
Definition run (fuel : nat) (query : string) (client : PokeAPIClient.t)
  : option (result ResearchReport.t * world) :=
  match pipeline fuel (start query client) with
  | Some (r, w) => Some (r, leave w)
  | None => None
  end.

End Agent.

(** * Specifications *)

(** A command preserves a relation [R] between the state before and the
    state after, whatever its result. *)
Definition preserves {S A} (R : S -> S -> Prop) (m : M S A) : Prop :=
  forall s, R s (snd (m s)).

(** The same for a command with fuel, when it has a result. *)
Definition fpreserves {S A} (R : S -> S -> Prop) (m : F S A) : Prop :=
  forall s, match m s with
            | Some (_, s') => R s s'
            | None => True
            end.

(** The step ledger of a run, and its collected data. *)
Definition ledger (w : world) : list ResearchStep.t :=
  ResearchContext.research_steps (context w).

Definition collected (w : world) : pydict :=
  ResearchContext.collected_data (context w).

(** The invariant of a ledger entry: a failed step has an error message. *)
Definition step_wf (st : ResearchStep.t) : Prop :=
  ResearchStep.success st = false -> ResearchStep.error_message st <> None.

Definition ledger_wf (steps : list ResearchStep.t) : Prop :=
  Forall step_wf steps.

(** The ledger after is the ledger before, followed by new well-formed
    entries. *)
Definition ledger_extends (w w' : world) : Prop :=
  exists added, ledger w' = (ledger w ++ added)%list /\ ledger_wf added.

(** The contexts of the analysis requests sent so far, in order. *)
Definition analyse_requests (w : world) : list ResearchContext.t :=
  map snd (filter (fun r => call_kind_eqb (fst r) Analyse) (requests w)).

(** [collected_data.get("refinement_count", 0)]. *)
Definition refinement_count_of (c : ResearchContext.t) : pyval :=
  dict_get_default "refinement_count" (Json (JInt 0))
    (ResearchContext.collected_data c).

(** The refinement counter and the analysis requests are untouched. *)
Definition refinement_frame (w w' : world) : Prop :=
  dict_get "refinement_count" (collected w')
  = dict_get "refinement_count" (collected w)
  /\ analyse_requests w' = analyse_requests w.

(** No key of the collected data is removed. *)
Definition keys_kept (w w' : world) : Prop :=
  forall k, dict_get k (collected w) <> None ->
            dict_get k (collected w') <> None.

(** The context of a run is untouched (the client may have changed). *)
Definition same_context (w w' : world) : Prop :=
  context w' = context w /\ requests w' = requests w.

(** [counts_from n l]: the contexts of [l] carry the refinement counters
    [n], [n + 1], [n + 2], ... in this order. *)
Fixpoint counts_from (n : Z) (l : list ResearchContext.t) : Prop :=
  match l with
  | [] => True
  | c :: t => refinement_count_of c = Json (JInt n) /\ counts_from (n + 1) t
  end.

(** [m2] has every result that [m1] has (with more fuel, say). *)
Definition fle {S A} (m1 m2 : F S A) : Prop :=
  forall s x, m1 s = Some x -> m2 s = Some x.

Section Operations.
Context {py : PythonLib} {net : Network} {llm : LanguageModel}
        {web : WebSearcher}.

(** The operations of the agent on the state of a run. *)
Inductive operation : Type :=
| OpClarifyGoals
| OpConductingResearch
| OpExecuteFunctionCalls (response : message) (i : nat)
| OpResearchPokemonApi (pokemon_name : json)
| OpResearchPokemonWeb (pokemon_name : json)
| OpResearchTrainingInfo
| OpResearchUniquePokemon
| OpAnalyseFindings (fuel : nat)
| OpGenerateFinalReport.

Definition perform (op : operation) : F world unit :=
  match op with
  | OpClarifyGoals => run_m _clarify_goals
  | OpConductingResearch => run_m _conducting_research
  | OpExecuteFunctionCalls response i =>
      run_m (_execute_function_calls response i)
  | OpResearchPokemonApi pokemon_name =>
      run_m (_research_pokemon_api pokemon_name)
  | OpResearchPokemonWeb pokemon_name =>
      run_m (_research_pokemon_web pokemon_name)
  | OpResearchTrainingInfo => run_m _research_training_info
  | OpResearchUniquePokemon => run_m _research_unique_pokemon
  | OpAnalyseFindings fuel => _analyse_findings fuel
  | OpGenerateFinalReport => run_m (_generate_final_report ;; ret tt)
  end.

(** The states that a run can reach: the state in which it starts, and
    the states after an operation that has ended (with a value or with an
    exception). *)
Inductive reachable : world -> Prop :=
| reachable_start query client : reachable (start query client)
| reachable_step w op r w' :
    reachable w -> perform op w = Some (r, w') -> reachable w'.

End Operations.

(** A command never raises. *)
Definition never_raises {S A} (m : M S A) : Prop :=
  forall s, exists a, fst (m s) = Ok a.

(** A command that raises leaves the context of the run as it was. *)
Definition raises_cleanly {A} (m : M world A) : Prop :=
  forall w, match fst (m w) with
            | Ok _ => True
            | Raise _ => same_context w (snd (m w))
            end.

(** [len(subagent_instructions)] in [_conducting_research]: the number of
    instructions that the clarification supplied. *)
Definition supplied_instructions (raw_instructions : pyval) : result nat :=
  match raw_instructions with
  | Json (JDict d) => Ok (List.length d)
  | Json raw => py_len raw
  | Models l => Ok (List.length l)
  | Model _ => Raise TypeError
  end.

Section AdapterOperations.
Context {net : Network} {py : PythonLib}.

(** The methods of [PokeAPIClient], with arguments of the annotated
    types. *)
Inductive client_method : Type :=
| GetPokemonByName (name : string)
| GetPokemonById (pokemon_id : Z)
| GetPokemonByType (pokemon_type : string)
| SearchPokemon (query : string)
| GetEvolutionChain (pokemon_name : string)
| GetPokemonDescription (pokemon_name : string)
| GetAllTypes
| GetGenerationInfo (generation : string).

(** The operations of the module: the methods of the client and the two
    module-level functions. *)
Inductive adapter_operation : Type :=
| Method (m : client_method)
| FetchAllPokemon (limit offset : Z)
| FetchPokemonAbility (ability_name : string).

Inductive adapter_result : Type :=
| Pokemon (o : option PokemonData.t)
| PokemonList (l : list PokemonData.t)
| Values (l : list json)
| Value (v : json).

Definition call_method (m : client_method)
  : M PokeAPIClient.t adapter_result :=
  match m with
  | GetPokemonByName name =>
      o <- get_pokemon_by_name (JStr name) ;; ret (Pokemon o)
  | GetPokemonById pokemon_id =>
      o <- get_pokemon_by_id (JInt pokemon_id) ;; ret (Pokemon o)
  | GetPokemonByType pokemon_type =>
      l <- get_pokemon_by_type (JStr pokemon_type) ;; ret (PokemonList l)
  | SearchPokemon query =>
      l <- search_pokemon (JStr query) ;; ret (PokemonList l)
  | GetEvolutionChain pokemon_name =>
      l <- get_evolution_chain (JStr pokemon_name) ;; ret (Values l)
  | GetPokemonDescription pokemon_name =>
      v <- get_pokemon_description (JStr pokemon_name) ;; ret (Value v)
  | GetAllTypes => l <- get_all_types ;; ret (Values l)
  | GetGenerationInfo generation =>
      v <- get_generation_info (JStr generation) ;; ret (Value v)
  end.

Definition call (op : adapter_operation) : M PokeAPIClient.t adapter_result :=
  match op with
  | Method m => call_method m
  | FetchAllPokemon limit offset =>
      lift (v <~ fetch_all_pokemon (JInt limit) (JInt offset) ;
            Ok (Value v))%result
  | FetchPokemonAbility ability_name =>
      lift (v <~ fetch_pokemon_ability (JStr ability_name) ;
            Ok (Value v))%result
  end.

(** The "not found" result of a method: [None] or the empty list. *)
Definition not_found (m : client_method) : adapter_result :=
  match m with
  | GetPokemonByName _ | GetPokemonById _ => Pokemon None
  | GetPokemonByType _ | SearchPokemon _ => PokemonList []
  | GetEvolutionChain _ | GetAllTypes => Values []
  | GetPokemonDescription _ | GetGenerationInfo _ => Value JNull
  end.

Definition is_not_found (r : adapter_result) : bool :=
  match r with
  | Pokemon None | PokemonList [] | Values [] | Value JNull => true
  | _ => false
  end.

(** The endpoint of the first request of a method. *)
Definition first_endpoint (m : client_method) : string :=
  match m with
  | GetPokemonByName name => "pokemon/" ++ lower name
  | GetPokemonById pokemon_id => "pokemon/" ++ lower (str_of_int pokemon_id)
  | GetPokemonByType pokemon_type => "type/" ++ lower pokemon_type
  | SearchPokemon _ => "pokemon?limit=1000"
  | GetEvolutionChain pokemon_name | GetPokemonDescription pokemon_name =>
      "pokemon-species/" ++ lower pokemon_name
  | GetAllTypes => "type"
  | GetGenerationInfo generation => "generation/" ++ lower generation
  end.

(** What the network does with the (first) request of an operation. *)
Definition upstream (op : adapter_operation) : http_outcome :=
  match op with
  | Method m => session_get (POKEAPI_BASE_URL ++ "/" ++ first_endpoint m)
  | FetchAllPokemon limit offset =>
      requests_get (POKEAPI_BASE_URL ++ "/pokemon")
        [("limit", JInt limit); ("offset", JInt offset)]
  | FetchPokemonAbility ability_name =>
      requests_get (POKEAPI_BASE_URL ++ "/ability/" ++ lower ability_name) []
  end.

(** A network failure (a connection error, a timeout: the library raises)
    or a response whose status is not 200. *)
Definition failed_request (r : http_outcome) : bool :=
  match r with
  | HttpRaises _ => true
  | HttpResponse status _ => negb (status =? 200)%Z
  end.

(** The failures on which [raise_for_status] or the library raises. *)
Definition error_of_request (r : http_outcome) : option exn :=
  match r with
  | HttpRaises e => Some e
  | HttpResponse status _ =>
      if andb (400 <=? status)%Z (status <? 600)%Z
      then Some (HTTPError status) else None
  end.

(** The level of the record that [_make_request] logs for a failure. *)
Definition failure_level (c : PokeAPIClient.t) (r : http_outcome)
  : log_level :=
  match PokeAPIClient.session c, r with
  | SessionClosed, _ => LogError
  | _, HttpRaises _ => LogError
  | _, HttpResponse _ _ => LogWarning
  end.

(** The client after [_make_request] has made sure that it has a
    session. *)
Definition with_session (c : PokeAPIClient.t) : PokeAPIClient.t :=
  match PokeAPIClient.session c with
  | NoSession => PokeAPIClient.set_session SessionOpen c
  | _ => c
  end.

(** The lookup by id as its specification states it: the lookup by name
    applied to the decimal numeral of the id. *)
Definition id_lookup_spec (pokemon_id : Z)
  : M PokeAPIClient.t (option PokemonData.t) :=
  get_pokemon_by_name (JStr (str_of_int pokemon_id)).

End AdapterOperations.

(** ** The normalisation of the units, and what a tool call stores *)

(** The normalisation of a raw height or weight as its specification
    states it: the raw number, as a float, divided by the float 10.0. *)
Definition raw_over_ten (raw : json) (x : float) : Prop :=
  match raw with
  | JInt n =>
      exists r, float_of_int n = Ok r /\ x = PrimFloat.div r 10%float
  | JBool b =>
      exists r, float_of_int (int_of_bool b) = Ok r
                /\ x = PrimFloat.div r 10%float
  | JFloat r => x = PrimFloat.div r 10%float
  | _ => False
  end.

(** [pokemon_data.model_dump()] as a stored value; [None] has no such
    method. *)
Definition dumped (o : option PokemonData.t) : result pyval :=
  match o with
  | Some p => Ok (Json (PokemonData.model_dump p))
  | None => Raise AttributeError
  end.

Section ToolCalls.
Context {py : PythonLib} {net : Network} {web : WebSearcher}.

(** The result of a tool call as the dispatcher is to merge it: for the
    ten tools that query the PokeAPI and the decoded arguments [d], the
    key of the collected data and the request to the adapter whose answer
    is stored under this key.  [None] when nothing is asked: the tool is
    another one, or its argument is missing or false. *)
Definition tool_request (function_name : string) (d : list (string * json))
  : option (string * M PokeAPIClient.t pyval) :=
  let arg k := dict_get_default k JNull d in
  let asked k (key : string) (request : M PokeAPIClient.t pyval) :=
    if truthy (arg k) then Some (key ++ py_str (arg k), request) else None in
  if function_name =? "get_pokemon_by_name" then
    asked "name" "pokemon_"
      (o <- get_pokemon_by_name (arg "name") ;; lift (dumped o))
  else if function_name =? "get_pokemon_by_id" then
    asked "pokemon_id" "pokemon_id_"
      (o <- get_pokemon_by_id (arg "pokemon_id") ;; lift (dumped o))
  else if function_name =? "get_pokemon_by_type" then
    asked "pokemon_type" "pokemon_type_"
      (l <- get_pokemon_by_type (arg "pokemon_type") ;; ret (Models l))
  else if function_name =? "search_pokemon" then
    asked "query" "search_"
      (l <- search_pokemon (arg "query") ;; ret (Models l))
  else if function_name =? "get_evolution_chain" then
    asked "pokemon_name" "evolution_chain_"
      (l <- get_evolution_chain (arg "pokemon_name") ;; ret (Json (JList l)))
  else if function_name =? "get_pokemon_description" then
    asked "pokemon_name" "description_"
      (v <- get_pokemon_description (arg "pokemon_name") ;; ret (Json v))
  else if function_name =? "get_all_types" then
    Some ("all_types", l <- get_all_types ;; ret (Json (JList l)))
  else if function_name =? "get_generation_info" then
    asked "generation" "generation_"
      (v <- get_generation_info (arg "generation") ;; ret (Json v))
  else if function_name =? "fetch_all_pokemon" then
    let limit := dict_get_default "limit" (JInt 100) d in
    let offset := dict_get_default "offset" (JInt 0) d in
    Some ("all_pokemon_" ++ py_str offset ++ "_" ++ py_str limit,
          lift (pokemon_list <~ fetch_all_pokemon limit offset ;
                items <~ py_iter pokemon_list ;
                Ok (Json (JList items)))%result)
  else if function_name =? "fetch_pokemon_ability" then
    asked "ability_name" "ability_"
      (lift (v <~ fetch_pokemon_ability (arg "ability_name") ;
             Ok (Json v))%result)
  else None.

(** The research helper that a tool call runs, for the four tools that
    are helpers of the agent; the helpers store their results themselves.
    [None] for the other tools and for a missing or false argument. *)
Definition tool_helper (function_name : string) (d : list (string * json))
  : option (M world unit) :=
  let arg k := dict_get_default k JNull d in
  if function_name =? "_research_pokemon_api" then
    if truthy (arg "pokemon_name")
    then Some (_research_pokemon_api (arg "pokemon_name")) else None
  else if function_name =? "_research_pokemon_web" then
    if truthy (arg "pokemon_name")
    then Some (_research_pokemon_web (arg "pokemon_name")) else None
  else if function_name =? "_research_training_info" then
    Some _research_training_info
  else if function_name =? "_research_unique_pokemon" then
    Some _research_unique_pokemon
  else None.

End ToolCalls.

(** * Further parts of the program, and their specifications *)

(** ** The states of a client and of a run *)

(** Whether a character occurs in a string. *)
Fixpoint has_char (c : ascii) (s : string) : bool :=
  match s with
  | EmptyString => false
  | String c' t => orb (Ascii.eqb c' c) (has_char c t)
  end.

(** The client after is the client before with records added to its log;
    a session is opened when there was none, and no session is closed. *)
Definition client_extends (c c' : PokeAPIClient.t) : Prop :=
  (exists added,
     PokeAPIClient.log c' = (PokeAPIClient.log c ++ added)%list)
  /\ (PokeAPIClient.session c' = PokeAPIClient.session c
      \/ (PokeAPIClient.session c = NoSession
          /\ PokeAPIClient.session c' = SessionOpen)).

(** ** function_definitions.py *)

(** An entry of the catalogue of tools offered to the language model: the
    name of the function, its parameters with their JSON types, and the
    parameters that are required.  The descriptions are left out, and so
    are the flags [strict] and [additionalProperties], which are the same
    in every entry. *)
Record function_definition : Type := mk_function_definition {
  fd_name : string;
  fd_properties : list (string * string);
  fd_required : list string
}.

Definition POKEAPI_FUNCTION_DEFINITIONS : list function_definition :=
  [ mk_function_definition "_research_unique_pokemon"
      [("criteria", "string")] ["criteria"];
    mk_function_definition "_research_training_info" [] [];
    mk_function_definition "_research_pokemon_web"
      [("pokemon_name", "string")] ["pokemon_name"];
    mk_function_definition "_research_pokemon_api"
      [("pokemon_name", "string")] ["pokemon_name"];
    mk_function_definition "get_pokemon_by_name"
      [("name", "string")] ["name"];
    mk_function_definition "get_pokemon_by_id"
      [("pokemon_id", "integer")] ["pokemon_id"];
    mk_function_definition "get_pokemon_by_type"
      [("pokemon_type", "string")] ["pokemon_type"];
    mk_function_definition "search_pokemon"
      [("query", "string")] ["query"];
    mk_function_definition "get_evolution_chain"
      [("pokemon_name", "string")] ["pokemon_name"];
    mk_function_definition "get_pokemon_description"
      [("pokemon_name", "string")] ["pokemon_name"];
    mk_function_definition "get_all_types" [] [];
    mk_function_definition "get_generation_info"
      [("generation", "string")] ["generation"];
    mk_function_definition "fetch_all_pokemon"
      [("limit", "integer"); ("offset", "integer")] ["limit"; "offset"];
    mk_function_definition "fetch_pokemon_ability"
      [("ability_name", "string")] ["ability_name"] ].

(** Whether the catalogue offers a function of this name. *)
Definition offered (function_name : string) : bool :=
  existsb (fun fd => String.eqb function_name (fd_name fd))
          POKEAPI_FUNCTION_DEFINITIONS.

(** The context of a run after a step has been appended to its ledger,
    and after a value has been stored in its collected data. *)
Definition with_step (st : ResearchStep.t) (w : world) : world :=
  snd (append_step st w).

Definition with_data (k : string) (v : pyval) (w : world) : world :=
  snd (set_collected_data k v w).

(** The state of a run after its goals have been set. *)
Definition with_goals (g : json) (w : world) : world :=
  snd (set_clarified_goals g w).

(** The state of a run after its client has become [c]. *)
Definition with_client (c : PokeAPIClient.t) (w : world) : world :=
  mk_world (context w) c (requests w).

(** The state of a run after a request of kind [kind] has been sent to
    the language model, and the number of the next request of this kind
    (the argument that [create] gives to [chat_completion]). *)
Definition with_request (kind : call_kind) (w : world) : world :=
  mk_world (context w) (pokeapi_client w)
    (requests w ++ [(kind, context w)])%list.

Definition request_number (kind : call_kind) (w : world) : nat :=
  List.length (filter (fun r => call_kind_eqb (fst r) kind) (requests w)).

(** [client_extends] for the client of a run. *)
Definition client_kept (w w' : world) : Prop :=
  client_extends (pokeapi_client w) (pokeapi_client w').

(** ** config.py *)

(** The settings that the web searcher reads; the other settings are left
    out. *)
Module Settings.
Record t : Type := mk {
  max_web_results : Z;
  request_timeout : Z;
  web_scraping_enabled : bool
}.

(** The defaults of the class [Settings]. *)
Definition default : t := mk 5 15 false.
End Settings.

(** ** web_searcher.py *)

(** [str.upper()] and [str.title()] on ASCII text: in a title, a letter
    that follows a letter is in lower case, every other letter is in upper
    case. *)
Definition upper_ascii (c : ascii) : ascii :=
  let n := nat_of_ascii c in
  if andb (Nat.leb 97 n) (Nat.leb n 122) then ascii_of_nat (n - 32) else c.

Definition is_cased (c : ascii) : bool :=
  let n := nat_of_ascii c in
  orb (andb (Nat.leb 65 n) (Nat.leb n 90))
      (andb (Nat.leb 97 n) (Nat.leb n 122)).

Fixpoint title_from (after_cased : bool) (s : string) : string :=
  match s with
  | EmptyString => EmptyString
  | String c t =>
      String (if after_cased then lower_ascii c else upper_ascii c)
             (title_from (is_cased c) t)
  end.

Definition title (s : string) : string := title_from false s.

(** [v.title()]: only a string has the method. *)
Definition py_title (v : json) : result string :=
  match v with
  | JStr s => Ok (title s)
  | _ => Raise AttributeError
  end.

(** [s.replace(old, "")] for a one-character [old]. *)
Fixpoint remove_char (old : ascii) (s : string) : string :=
  match s with
  | EmptyString => EmptyString
  | String c t =>
      if Ascii.eqb c old then remove_char old t
      else String c (remove_char old t)
  end.

(** [s.split("  ")]: the pieces between the occurrences of two spaces,
    read from the left (the first component is the piece being read). *)
Fixpoint split_two_spaces (s : string) : string * list string :=
  match s with
  | EmptyString => (EmptyString, [])
  | String c t =>
      match t with
      | String c' t' =>
          if andb (Ascii.eqb c SP) (Ascii.eqb c' SP)
          then let (piece, pieces) := split_two_spaces t' in
               (EmptyString, piece :: pieces)
          else let (piece, pieces) := split_two_spaces t in
               (String c piece, pieces)
      | EmptyString => (String c EmptyString, [])
      end
  end.

Definition split_spaces (s : string) : list string :=
  let (piece, pieces) := split_two_spaces s in piece :: pieces.

(** [re.split(r"[.!?]+", s)]: the pieces between the runs of full stops,
    exclamation marks and question marks. *)
Definition ends_sentence (c : ascii) : bool :=
  orb (Ascii.eqb c ".") (orb (Ascii.eqb c "!") (Ascii.eqb c "?")).

Fixpoint split_runs (s : string) : string * list string :=
  match s with
  | EmptyString => (EmptyString, [])
  | String c t =>
      let (piece, pieces) := split_runs t in
      if ends_sentence c then
        match t with
        | String c' _ =>
            if ends_sentence c' then (piece, pieces)
            else (EmptyString, piece :: pieces)
        | EmptyString => (EmptyString, piece :: pieces)
        end
      else (String c piece, pieces)
  end.

Definition split_sentences (s : string) : list string :=
  let (piece, pieces) := split_runs s in piece :: pieces.

(** [l[:n]] for an int [n]: a negative [n] counts from the end. *)
Definition list_slice_to {A} (n : Z) (l : list A) : list A :=
  if (0 <=? n)%Z then firstn (Z.to_nat n) l
  else firstn (List.length l - Z.to_nat (- n)) l.

(** What [self.session.get(url, timeout=...)] of [requests] does: it
    raises [Timeout], [ConnectionError] or another exception, or there is
    a response with a status code and a content. *)
Inductive web_outcome : Type :=
| WebTimeout
| WebConnectionError
| WebRaises (e : exn)
| WebResponse (status_code : Z) (content : string).

(** The collaborators of the web searcher: the settings, the web, the
    HTML parser ([soup_get_text content] is the text of the page
    [BeautifulSoup(content, "html.parser")] once its [script] and [style]
    elements are removed, as [get_text()] gives it), and [str.splitlines]. *)
Class Web : Type := {
  settings : Settings.t;
  web_get : string -> web_outcome;
  soup_get_text : string -> result string;
  splitlines : string -> list string
}.

(** [try: r except Exception: h]. *)
Definition rtry {A} (r : result A) (h : exn -> result A) : result A :=
  match r with
  | Ok a => Ok a
  | Raise e => h e
  end.

Definition training_keywords : list string :=
  ["train"; "evolve"; "level"; "move"; "ability"; "stats"].

Definition competitive_moves : list string :=
  ["thunderbolt"; "flamethrower"; "earthquake"; "psychic"].

Definition location_keywords : list string :=
  ["route"; "cave"; "forest"; "mountain"; "ocean"; "sea"; "lake"; "river"].

(** [any(keyword in s for keyword in keywords)]. *)
Definition any_in (keywords : list string) (s : string) : bool :=
  existsb (fun keyword => contains keyword s) keywords.

Section WebSearcherModel.
Context {py : PythonLib} {pages : Web}.

(** The clean-up of [_extract_text_content], on the text of the page. *)
Definition clean_text (text : string) : string :=
  let lines := map strip (splitlines text) in
  let chunks :=
    flat_map (fun line => map strip (split_spaces line)) lines in
  join " " (filter (fun chunk => negb (String.eqb chunk "")) chunks).

Definition _extract_text_content (page_content : string) : result string :=
  (text <~ soup_get_text page_content ; Ok (clean_text text))%result.

(** The body shared by [_search_bulbapedia], [_search_serebii] and
    [_search_pokemon_database] once the URL is built: the request and the
    result made from the page. *)
Definition page_result (query : json) (url source : string)
  : result (list json) :=
  match web_get url with
  | WebTimeout => Ok []
  | WebConnectionError => Ok []
  | WebRaises e => Raise e
  | WebResponse status_code page_content =>
      if (status_code =? 200)%Z then
        (text <~ _extract_text_content page_content ;
         query_title <~ py_title query ;
         Ok [JDict [ ("title", JStr (query_title ++ " - " ++ source));
                     ("url", JStr url);
                     ("source", JStr source);
                     ("content", JStr (string_firstn 1000 text)) ]])%result
      else Ok []
  end.

Definition _search_bulbapedia (query : json) : result (list json) :=
  rtry
    (lowered <~ py_lower query ;
     let pokemon_name := replace_char SP "_" lowered in
     let direct_url :=
       "https://bulbapedia.bulbagarden.net/wiki/" ++ title pokemon_name in
     page_result query direct_url "Bulbapedia")%result
    (fun _ => Ok []).

Definition _search_serebii (query : json) : result (list json) :=
  rtry
    (lowered <~ py_lower query ;
     let pokemon_name := remove_char SP lowered in
     let serebii_url :=
       "https://www.serebii.net/pokedex/" ++ pokemon_name ++ ".shtml" in
     page_result query serebii_url "Serebii")%result
    (fun _ => Ok []).

Definition _search_pokemon_database (query : json) : result (list json) :=
  rtry
    (lowered <~ py_lower query ;
     let pokemon_name := replace_char SP "-" lowered in
     let pokedb_url := "https://pokemondb.net/pokedex/" ++ pokemon_name in
     page_result query pokedb_url "Pokemon Database")%result
    (fun _ => Ok []).

(** [results.extend(...)] in a [try] whose handler only logs. *)
Definition extend_with (found : result (list json)) (results : list json)
  : list json :=
  match found with
  | Ok l => (results ++ l)%list
  | Raise _ => results
  end.

(** [search_pokemon_info]: the list that it returns. *)
Definition search_results (query : json) : result (list json) :=
  if negb (Settings.web_scraping_enabled settings) then Ok []
  else
    let results := [] in
    let results := extend_with (_search_bulbapedia query) results in
    let results := extend_with (_search_serebii query) results in
    let results := extend_with (_search_pokemon_database query) results in
    Ok (list_slice_to (Settings.max_web_results settings) results).

(** [result.get("content", "")] followed by [re.split], which needs a
    string. *)
Definition sentences_of (result_ : json) : result (list string) :=
  (content <~ py_get result_ "content" (JStr "") ;
   match content with
   | JStr s => Ok (split_sentences s)
   | _ => Raise TypeError
   end)%result.

(** The test on a sentence in [search_training_tips] and
    [search_location_info]. *)
Definition kept (keywords : list string) (low high : nat) (sentence : string)
  : bool :=
  andb (any_in keywords (lower sentence))
       (andb (Nat.ltb low (String.length sentence))
             (Nat.ltb (String.length sentence) high)).

Definition tips_list (pokemon_name : json) : result (list string) :=
  (let query := py_str pokemon_name ++ " training tips pokemon" in
   results <~ search_results (JStr query) ;
   tips <~ rmap (fun result_ =>
                   sentences <~ sentences_of result_ ;
                   Ok (filter (kept training_keywords 20 200)
                              (map strip sentences)))
                results ;
   Ok (firstn 5 (List.concat tips)))%result.

Definition locations_list (pokemon_name : json) : result (list string) :=
  (let query := py_str pokemon_name ++ " location catch pokemon" in
   results <~ search_results (JStr query) ;
   locations <~ rmap (fun result_ =>
                        sentences <~ sentences_of result_ ;
                        Ok (filter (kept location_keywords 10 150)
                                   (map strip sentences)))
                     results ;
   Ok (firstn 3 (List.concat locations)))%result.

(** The sentences that one result adds to the movesets and to the
    strategies of [search_competitive_info]. *)
Definition competitive_of (result_ : json)
  : result (list string * list string) :=
  (content <~ py_get result_ "content" (JStr "") ;
   content <~ py_lower content ;
   let movesets :=
     if orb (contains "moveset" content) (contains "moves" content)
     then map strip (filter (any_in competitive_moves)
                            (split_sentences content))
     else [] in
   let strategies :=
     if orb (contains "strategy" content) (contains "tactic" content)
     then map strip
            (filter (fun sentence => orb (contains "strategy" sentence)
                                         (contains "tactic" sentence))
                    (split_sentences content))
     else [] in
   Ok (movesets, strategies))%result.

Definition competitive_info (pokemon_name : json) : result json :=
  (let query := py_str pokemon_name ++ " competitive pokemon battle" in
   results <~ search_results (JStr query) ;
   found <~ rmap competitive_of results ;
   Ok (JDict
         [ ("movesets", JList (map JStr (flat_map fst found)));
           ("strategies", JList (map JStr (flat_map snd found)));
           ("counters", JList []);
           ("teammates", JList []) ]))%result.

(** The four methods of [WebSearcher] that the agent calls. *)
Definition web_researcher : WebSearcher :=
  {| search_pokemon_info := fun query =>
       (results <~ search_results query ; Ok (JList results))%result;
     search_training_tips := fun pokemon_name =>
       (tips <~ tips_list pokemon_name ; Ok (JList (map JStr tips)))%result;
     search_competitive_info := competitive_info;
     search_location_info := fun pokemon_name =>
       (locations <~ locations_list pokemon_name ;
        Ok (JList (map JStr locations)))%result |}.

(** [_extract_content_from_url]. *)
Definition _extract_content_from_url (url : string) : string :=
  match web_get url with
  | WebTimeout => "Content from " ++ url ++ " (timeout occurred)"
  | WebConnectionError => "Content from " ++ url ++ " (connection failed)"
  | WebRaises _ => ""
  | WebResponse status_code page_content =>
      if andb (400 <=? status_code)%Z (status_code <? 600)%Z then ""
      else match _extract_text_content page_content with
           | Ok text => text
           | Raise _ => ""
           end
  end.

End WebSearcherModel.

(** The sites that [search_pokemon_info] visits, and the form of a result:
    a title, a URL, one of these sites and a content of at most 1000
    characters. *)
Definition web_sources : list string :=
  ["Bulbapedia"; "Serebii"; "Pokemon Database"].

Definition site_result (r : json) : Prop :=
  exists page_title url source content_,
    r = JDict [ ("title", JStr page_title); ("url", JStr url);
                ("source", JStr source); ("content", JStr content_) ]
    /\ In source web_sources
    /\ String.length content_ <= 1000.

(** The dict that [_research_pokemon_web] stores when nothing is found. *)
Definition empty_web_data : list (string * json) :=
  [ ("web_results", JList []); ("training_tips", JList []);
    ("competitive_info",
      JDict [ ("movesets", JList []); ("strategies", JList []);
              ("counters", JList []); ("teammates", JList []) ]);
    ("location_info", JList []) ].

(** The entries of the collected data that steer a run: what the
    clarification asked of the workers, the analysis, and the refinement
    counter.  [control_kept] holds when these entries, the query and the
    goals are as before. *)
Definition control_keys : list string :=
  [ "research_focus"; "constraints"; "subagent_instructions";
    "num_subagents"; "analysis"; "refined_query"; "refinement_count" ].

Definition control_kept (w w' : world) : Prop :=
  ResearchContext.original_query (context w')
  = ResearchContext.original_query (context w)
  /\ ResearchContext.clarified_goals (context w')
     = ResearchContext.clarified_goals (context w)
  /\ forall k, In k control_keys ->
               dict_get k (collected w') = dict_get k (collected w).


(** * Concrete environments *)

(** The examples below run the model in small environments. *)

(** The double quote, and a string between double quotes. *)
Definition QUOTE : ascii := ascii_of_nat 34.

Definition quoted (s : string) : string :=
  String QUOTE s ++ String QUOTE EmptyString.

(** The text of an analysis that asks for further research, and the text
    of the arguments of a lookup by type. *)
Definition further_research_text : string :=
  "{" ++ quoted "further_research_needed" ++ ": true}".

Definition electric_type_text : string :=
  "{" ++ quoted "pokemon_type" ++ ": " ++ quoted "electric" ++ "}".

(** A decoder that knows five documents and rejects every other text; the
    examples apply it to these documents and to ill-formed texts only. *)
Definition demo_json_loads (s : string) : result json :=
  if s =? "{}" then Ok (JDict [])
  else if s =? "[]" then Ok (JList [])
  else if s =? "null" then Ok JNull
  else if s =? further_research_text
  then Ok (JDict [("further_research_needed", JBool true)])
  else if s =? electric_type_text
  then Ok (JDict [("pokemon_type", JStr "electric")])
  else Raise JSONDecodeError.

(** Validation without coercion: a value is accepted when it has the type
    of the field. *)
Definition strict_int (v : json) : option Z :=
  match v with
  | JInt n => Some n
  | _ => None
  end.

Definition strict_str (v : json) : option string :=
  match v with
  | JStr s => Some s
  | _ => None
  end.

Fixpoint strict_all {A B} (f : A -> option B) (l : list A) : option (list B) :=
  match l with
  | [] => Some []
  | a :: t =>
      match f a, strict_all f t with
      | Some b, Some bs => Some (b :: bs)
      | _, _ => None
      end
  end.

Definition strict_str_list (v : json) : option (list string) :=
  match v with
  | JList l => strict_all strict_str l
  | _ => None
  end.

Definition strict_stats (l : list (json * json)) : option (list (string * Z)) :=
  strict_all (fun kv => match strict_str (fst kv), strict_int (snd kv) with
                        | Some k, Some v => Some (k, v)
                        | _, _ => None
                        end) l.

Definition strict_sprites (l : list (string * json))
  : option (list (string * string)) :=
  strict_all (fun kv => match strict_str (snd kv) with
                        | Some v => Some (fst kv, v)
                        | None => None
                        end) l.

Definition strict_confidence (v : json) : option float :=
  match v with
  | JFloat x =>
      if andb (PrimFloat.leb 0%float x) (PrimFloat.leb x 1%float)
      then Some x else None
  | _ => None
  end.

Definition demo_python : PythonLib :=
  Build_PythonLib demo_json_loads (fun _ => "<object>")
    (nodup string_dec) (NoDup_nodup string_dec)
    (fun l x => nodup_In string_dec l x)
    strict_int strict_str (fun s => eq_refl) strict_str_list strict_stats
    strict_sprites strict_confidence.

(** A network on which every request fails. *)
Definition net_down : Network :=
  {| session_get := fun _ => HttpRaises (LibraryError "Cannot connect to host");
     requests_get := fun _ _ => HttpRaises (LibraryError "Connection refused") |}.

(** The document of a pokemon, with the raw height 4 and weight 60. *)
Definition pikachu_document : json :=
  JDict
    [ ("id", JInt 25);
      ("name", JStr "pikachu");
      ("types", JList [JDict [("type", JDict [("name", JStr "electric")])]]);
      ("height", JInt 4);
      ("weight", JInt 60);
      ("base_experience", JInt 112);
      ("abilities",
        JList [JDict [("ability", JDict [("name", JStr "static")])]]);
      ("stats",
        JList [JDict [("stat", JDict [("name", JStr "speed")]);
                      ("base_stat", JInt 90)]]);
      ("moves",
        JList [JDict [("move", JDict [("name", JStr "thunder-shock")])]]);
      ("sprites",
        JDict [ ("front_default", JStr "front.png");
                ("back_default", JStr "back.png");
                ("front_shiny", JStr "front-shiny.png");
                ("back_shiny", JStr "back-shiny.png") ]) ].

(** A network that serves this document, the list of types and the
    members of the electric type, answers 404 to the other requests of the
    client, and on which [requests] cannot connect. *)
Definition net_demo : Network :=
  {| session_get := fun url =>
       if url =? POKEAPI_BASE_URL ++ "/pokemon/pikachu"
       then HttpResponse 200 (Ok pikachu_document)
       else if url =? POKEAPI_BASE_URL ++ "/type"
       then HttpResponse 200
              (Ok (JDict [("results", JList [JDict [("name", JStr "electric")]])]))
       else if url =? POKEAPI_BASE_URL ++ "/type/electric"
       then HttpResponse 200
              (Ok (JDict
                     [("pokemon",
                       JList [JDict [("pokemon",
                                      JDict [("name", JStr "pikachu")])]])]))
       else HttpResponse 404 (Raise JSONDecodeError);
     requests_get := fun _ _ => HttpRaises (LibraryError "Connection refused") |}.

(** A language model that cannot be reached, and one that answers every
    request with the same text and no tool call. *)
Definition llm_unreachable : LanguageModel :=
  {| chat_completion := fun _ _ => ApiError (LibraryError "Connection error.") |}.

Definition llm_text : LanguageModel :=
  {| chat_completion := fun _ _ =>
       Completion (mk_message (Some "A report.") None) |}.

(** The web searcher when [web_scraping_enabled] is off (the default). *)
Definition web_disabled : WebSearcher :=
  {| search_pokemon_info := fun _ => Ok (JList []);
     search_training_tips := fun _ => Ok (JList []);
     search_competitive_info := fun _ =>
       Ok (JDict [ ("movesets", JList []); ("strategies", JList []);
                   ("counters", JList []); ("teammates", JList []) ]);
     search_location_info := fun _ => Ok (JList []) |}.

(** A language model whose every answer is the analysis that asks for
    further research, and one that asks each worker for the pokemon of the
    electric type. *)
Definition llm_refining : LanguageModel :=
  {| chat_completion := fun _ _ =>
       Completion (mk_message (Some further_research_text) None) |}.

Definition llm_type_lookup : LanguageModel :=
  {| chat_completion := fun kind _ =>
       match kind with
       | ToolCalls =>
           Completion
             (mk_message None
                (Some [mk_tool_call "get_pokemon_by_type"
                         (Some electric_type_text)]))
       | _ => Completion (mk_message (Some "{}") None)
       end |}.

(** The state in which the examples of the dispatcher start. *)
Definition demo_world : world :=
  start "best bug-type team" PokeAPIClient.init.

(** Three tool calls: the second one raises on [net_demo]. *)
Definition first_call : tool_call := mk_tool_call "get_all_types" (Some "{}").
Definition second_call : tool_call := mk_tool_call "fetch_all_pokemon" None.
Definition third_call : tool_call :=
  mk_tool_call "_research_training_info" (Some "").

(** A lookup of the pokemon of the electric type. *)
Definition type_call : tool_call :=
  mk_tool_call "get_pokemon_by_type" (Some electric_type_text).

(** A tool call whose arguments are not JSON. *)
Definition malformed_call : tool_call :=
  mk_tool_call "get_all_types" (Some "{").

(** A context whose ledger has the sources A, A, B across two steps. *)
Definition sourced_world : world :=
  mk_world
    (ResearchContext.mk (JStr "best bug-type team") (JList [])
       [ step_done WEB_SEARCH "first" None ["A"; "A"];
         step_done POKEAPI_QUERY "second" None ["B"] ]
       [] None None)
    PokeAPIClient.init [].

(** A context after a clarification that asked for 0 workers and supplied
    one instruction. *)
Definition clarified_world : world :=
  mk_world
    (ResearchContext.mk (JStr "best bug-type team") (JList [])
       []
       [ ("subagent_instructions", Json (JList [JStr "find bug types"]));
         ("num_subagents", Json (JInt 0)) ]
       None None)
    PokeAPIClient.init [].


(** A chain of three species, the document of a species that points to
    the chain and has a French and an English description, and a network
    that serves both documents. *)
Definition chain_link_of (name : string) (evolves_to : list json) : json :=
  JDict [("species", JDict [("name", JStr name)]);
         ("evolves_to", JList evolves_to)].

Definition bulbasaur_chain : json :=
  chain_link_of "bulbasaur"
    [chain_link_of "ivysaur" [chain_link_of "venusaur" []]].

Definition flavor_text_entry (language text : string) : json :=
  JDict [("flavor_text", JStr text);
         ("language", JDict [("name", JStr language)])].

Definition bulbasaur_species : json :=
  JDict
    [ ("evolution_chain",
        JDict [("url", JStr "https://pokeapi.co/api/v2/evolution-chain/1/")]);
      ("flavor_text_entries",
        JList
          [ flavor_text_entry "fr" "Une graine sur son dos.";
            flavor_text_entry "en"
              ("A strange seed was" ++ String LF "planted on its"
               ++ String FF "back at birth.") ]) ].

Definition net_evolution : Network :=
  {| session_get := fun url =>
       if url =? POKEAPI_BASE_URL ++ "/pokemon-species/bulbasaur"
       then HttpResponse 200 (Ok bulbasaur_species)
       else if url =? POKEAPI_BASE_URL ++ "/evolution-chain/1"
       then HttpResponse 200 (Ok (JDict [("chain", bulbasaur_chain)]))
       else HttpResponse 404 (Raise JSONDecodeError);
     requests_get := fun _ _ => HttpRaises (LibraryError "Connection refused") |}.

(** The text of the arguments of a lookup by name, and a decoder that
    also knows two such texts. *)
Definition name_text (name : string) : string :=
  "{" ++ quoted "name" ++ ": " ++ quoted name ++ "}".

Definition lookup_json_loads (s : string) : result json :=
  if s =? name_text "MissingNo" then Ok (JDict [("name", JStr "MissingNo")])
  else if s =? name_text "Pikachu" then Ok (JDict [("name", JStr "Pikachu")])
  else demo_json_loads s.

Definition lookup_python : PythonLib :=
  Build_PythonLib lookup_json_loads (fun _ => "<object>")
    (nodup string_dec) (NoDup_nodup string_dec)
    (fun l x => nodup_In string_dec l x)
    strict_int strict_str (fun s => eq_refl) strict_str_list strict_stats
    strict_sprites strict_confidence.

(** A page of the list of pokemon, and a network on which [requests]
    gets this page. *)
Definition pokemon_listing : list (string * json) :=
  [ ("count", JInt 1302);
    ("next", JStr "https://pokeapi.co/api/v2/pokemon?offset=100&limit=100");
    ("previous", JNull);
    ("results",
      JList [JDict [("name", JStr "bulbasaur");
                    ("url", JStr "https://pokeapi.co/api/v2/pokemon/1/")]]) ].

Definition net_listing : Network :=
  {| session_get := fun _ => HttpResponse 404 (Raise JSONDecodeError);
     requests_get := fun url _ =>
       if url =? POKEAPI_BASE_URL ++ "/pokemon"
       then HttpResponse 200 (Ok (JDict pokemon_listing))
       else HttpResponse 404 (Raise JSONDecodeError) |}.

(** A context whose constraints are a number, and one whose collected
    data hold the objects of a lookup by type. *)
Definition malformed_world : world :=
  mk_world
    (ResearchContext.mk (JStr "best bug-type team") (JList []) []
       [("constraints", Json (JInt 3))] None None)
    PokeAPIClient.init [].

Definition objects_world : world :=
  mk_world
    (ResearchContext.mk (JStr "best electric team") (JList []) []
       [("pokemon_type_electric",
         Models [PokemonData.mk 25 "pikachu" ["electric"] 0.4%float 6%float
                   112 ["static"] [("speed", 90%Z)] ["thunder-shock"] []
                   None None None])]
       None None)
    PokeAPIClient.init [].

(** A language model that answers every request with an empty JSON object
    and no tool call. *)
Definition llm_empty_object : LanguageModel :=
  {| chat_completion := fun _ _ => Completion (mk_message (Some "{}") None) |}.

(** The web with the default settings, on which no page can be reached,
    and the web with scraping enabled, on which Bulbapedia has a page for
    one query.  Their parser returns the content as it is, and their lines
    end at line feeds. *)
Definition web_default : Web :=
  {| settings := Settings.default;
     web_get := fun _ => WebConnectionError;
     soup_get_text := fun page_content => Ok page_content;
     splitlines := split LF |}.

Definition pikachu_page : string :=
  "Pikachu is an Electric type.  It can evolve into Raichu with a stone!"
  ++ String LF "Train it well"
  ++ String LF "   It lives in the forest near the power plant.   ".

Definition web_enabled : Web :=
  {| settings := Settings.mk 5 15 true;
     web_get := fun url =>
       if url =? "https://bulbapedia.bulbagarden.net/wiki/Pikachu_Training_Tips_Pokemon"
       then WebResponse 200 pikachu_page
       else if url =? "https://bulbapedia.bulbagarden.net/wiki/Pikachu_Location_Catch_Pokemon"
       then WebResponse 200 pikachu_page
       else if url =? "https://www.serebii.net/pokedex/pikachutrainingtipspokemon.shtml"
       then WebTimeout
       else WebResponse 404 "";
     soup_get_text := fun page_content => Ok page_content;
     splitlines := split LF |}.


(** * Properties *)

(** ** Dictionaries *)

Lemma dict_get_set_same (V : Type) (k : string) (v : V) d :
  dict_get k (dict_set k v d) = Some v.
Proof.
  induction d as [|[k' v'] t IH]; simpl.
  - now rewrite String.eqb_refl.
  - destruct (String.eqb k k') eqn:E; simpl; rewrite E; auto.
Qed.

Lemma dict_get_set_other (V : Type) (k k' : string) (v : V) d :
  String.eqb k' k = false ->
  dict_get k (dict_set k' v d) = dict_get k d.
Proof.
  intros Hk. induction d as [|[k0 v0] t IH]; simpl.
  - rewrite String.eqb_sym, Hk. reflexivity.
  - destruct (String.eqb k' k0) eqn:E; simpl.
    + apply String.eqb_eq in E. subst k0.
      rewrite String.eqb_sym, Hk. reflexivity.
    + destruct (String.eqb k k0); auto.
Qed.

Lemma dict_set_keeps (V : Type) (k k' : string) (v : V) d :
  dict_get k d <> None -> dict_get k (dict_set k' v d) <> None.
Proof.
  intros H. destruct (String.eqb k' k) eqn:E.
  - apply String.eqb_eq in E. subst. rewrite dict_get_set_same. discriminate.
  - rewrite dict_get_set_other; auto.
Qed.

(** ** Commands that preserve a relation *)

Section Preserves.
Variable S : Type.
Variable R : S -> S -> Prop.
Hypothesis R_refl : forall s, R s s.
Hypothesis R_trans : forall a b c, R a b -> R b c -> R a c.

Lemma preserves_ret A (a : A) : preserves R (ret a).
Proof. intro s. apply R_refl. Qed.

Lemma preserves_raise A (e : exn) : preserves R (@raise S A e).
Proof. intro s. apply R_refl. Qed.

Lemma preserves_lift A (r : result A) : preserves R (lift r).
Proof. intro s. apply R_refl. Qed.

Lemma preserves_gets A (f : S -> A) : preserves R (gets f).
Proof. intro s. apply R_refl. Qed.

Lemma preserves_modify (f : S -> S) :
  (forall s, R s (f s)) -> preserves R (modify f).
Proof. intros H s. apply H. Qed.

Lemma preserves_bind A B (m : M S A) (f : A -> M S B) :
  preserves R m -> (forall a, preserves R (f a)) -> preserves R (bind m f).
Proof.
  intros Hm Hf s. unfold bind. specialize (Hm s).
  destruct (m s) as [[a|e] s']; simpl in *; auto.
  eapply R_trans; [exact Hm | apply Hf].
Qed.

Lemma preserves_try_except A (m : M S A) (h : exn -> M S A) :
  preserves R m -> (forall e, preserves R (h e)) ->
  preserves R (try_except m h).
Proof.
  intros Hm Hh s. unfold try_except. specialize (Hm s).
  destruct (m s) as [[a|e] s']; simpl in *; auto.
  eapply R_trans; [exact Hm | apply Hh].
Qed.

Lemma preserves_try_bind_except A B (m : M S A) (k : A -> M S B) h :
  preserves R m -> (forall a, preserves R (k a)) ->
  (forall o e, preserves R (h o e)) ->
  preserves R (try_bind_except m k h).
Proof.
  intros Hm Hk Hh s. unfold try_bind_except. specialize (Hm s).
  destruct (m s) as [[a|e] s']; simpl in *.
  - eapply R_trans; [exact Hm | apply preserves_try_except; auto].
  - eapply R_trans; [exact Hm | apply Hh].
Qed.

Lemma preserves_for_each A (l : list A) (body : A -> M S unit) :
  (forall a, preserves R (body a)) -> preserves R (for_each l body).
Proof.
  intros Hb. induction l as [|a t IH]; simpl.
  - apply preserves_ret.
  - apply preserves_bind; auto.
Qed.

Lemma preserves_collect A B (l : list A) (body : A -> M S (option B)) :
  (forall a, preserves R (body a)) -> preserves R (collect l body).
Proof.
  intros Hb. induction l as [|a t IH]; simpl.
  - apply preserves_ret.
  - apply preserves_bind; [apply Hb | intros r].
    apply preserves_bind; [exact IH | intros rest; apply preserves_ret].
Qed.

Lemma fpreserves_fret A (a : A) : fpreserves R (fret a).
Proof. intro s. apply R_refl. Qed.

Lemma fpreserves_run_m A (m : M S A) : preserves R m -> fpreserves R (run_m m).
Proof. intros H s. unfold run_m. specialize (H s). now destruct (m s). Qed.

Lemma fpreserves_fbind A B (m : F S A) (f : A -> F S B) :
  fpreserves R m -> (forall a, fpreserves R (f a)) -> fpreserves R (fbind m f).
Proof.
  intros Hm Hf s. unfold fbind. specialize (Hm s).
  destruct (m s) as [[[a|e] s']|]; auto.
  specialize (Hf a s'). destruct (f a s') as [[r s'']|]; auto.
  eapply R_trans; eauto.
Qed.

Lemma fpreserves_ftry_except A (m : F S A) (h : exn -> F S A) :
  fpreserves R m -> (forall e, fpreserves R (h e)) ->
  fpreserves R (ftry_except m h).
Proof.
  intros Hm Hh s. unfold ftry_except. specialize (Hm s).
  destruct (m s) as [[[a|e] s']|]; auto.
  specialize (Hh e s'). destruct (h e s') as [[r s'']|]; auto.
  eapply R_trans; eauto.
Qed.

End Preserves.

(** ** The phases preserve every relation that their primitives preserve *)

Lemma step_done_wf ty d o s : step_wf (step_done ty d o s).
Proof. unfold step_wf. simpl. discriminate. Qed.

Lemma step_failed_wf ty d e : step_wf (step_failed ty d e).
Proof. unfold step_wf. simpl. discriminate. Qed.

Section PreservesWorld.
Context {py : PythonLib} {net : Network} {llm : LanguageModel}
        {web : WebSearcher}.
Variable R : world -> world -> Prop.
Hypothesis R_refl : forall w, R w w.
Hypothesis R_trans : forall a b c, R a b -> R b c -> R a c.
Hypothesis R_client :
  forall w c, R w (mk_world (context w) c (requests w)).
Hypothesis R_step :
  forall w st, step_wf st -> R w (snd (append_step st w)).
Hypothesis R_query : forall w q, R w (snd (set_original_query q w)).
Hypothesis R_goals : forall w g, R w (snd (set_clarified_goals g w)).
Hypothesis R_set :
  forall w k v, String.eqb k "refinement_count" = false ->
                R w (snd (set_collected_data k v w)).
Hypothesis R_create :
  forall w kind, call_kind_eqb kind Analyse = false ->
    R w (mk_world (context w) (pokeapi_client w)
           (requests w ++ [(kind, context w)])%list).

Lemma preserves_read A (f : ResearchContext.t -> A) : preserves R (read f).
Proof. intro w. apply R_refl. Qed.

Lemma preserves_client_call A (m : M PokeAPIClient.t A) :
  preserves R (client_call m).
Proof.
  intro w. unfold client_call. destruct (m (pokeapi_client w)) as [r c].
  apply R_client.
Qed.

Lemma preserves_append_step st : step_wf st -> preserves R (append_step st).
Proof. intros H w. now apply R_step. Qed.

Lemma preserves_set k v :
  String.eqb k "refinement_count" = false ->
  preserves R (set_collected_data k v).
Proof. intros H w. now apply R_set. Qed.

Lemma preserves_create kind :
  call_kind_eqb kind Analyse = false -> preserves R (create kind).
Proof.
  intros H w. unfold create.
  destruct (chat_completion kind _); simpl; now apply R_create.
Qed.

Lemma preserves_content_or_raise response msg :
  preserves R (content_or_raise response msg).
Proof.
  unfold content_or_raise. destruct (content response).
  - now apply preserves_ret.
  - now apply preserves_raise.
Qed.

Lemma preserves_model_dump_or_raise o : preserves R (model_dump_or_raise o).
Proof.
  destruct o; simpl.
  - now apply preserves_ret.
  - now apply preserves_raise.
Qed.

(** One step of the proof that a command preserves [R]: the command is
    decomposed along its structure. *)
Ltac preserves_step :=
  match goal with
  | |- preserves _ (bind _ _) => apply preserves_bind; try assumption; intros
  | |- preserves _ (try_except _ _) =>
      apply preserves_try_except; try assumption; intros
  | |- preserves _ (ret _) => apply preserves_ret; assumption
  | |- preserves _ (raise _) => apply preserves_raise; assumption
  | |- preserves _ (lift _) => apply preserves_lift; assumption
  | |- preserves _ (read _) => apply preserves_read
  | |- preserves _ (client_call _) => apply preserves_client_call
  | |- preserves _ (content_or_raise _ _) => apply preserves_content_or_raise
  | |- preserves _ (model_dump_or_raise _) =>
      apply preserves_model_dump_or_raise
  | |- preserves _ (set_collected_data _ _) => apply preserves_set; reflexivity
  | |- preserves _ (set_original_query _) => intro; apply R_query
  | |- preserves _ (set_clarified_goals _) => intro; apply R_goals
  | |- preserves _ (append_step (step_done _ _ _ _)) =>
      apply preserves_append_step, step_done_wf
  | |- preserves _ (append_step (step_failed _ _ _)) =>
      apply preserves_append_step, step_failed_wf
  | |- preserves _ (create _) => apply preserves_create; reflexivity
  | |- preserves _ (for_each _ _) =>
      apply preserves_for_each; try assumption; intros
  | |- preserves _ (collect _ _) =>
      apply preserves_collect; try assumption; intros
  | |- preserves _ (if ?b then _ else _) => destruct b
  | |- preserves _ (match ?x with _ => _ end) => destruct x
  end.

Lemma preserves_research_pokemon_api name :
  preserves R (_research_pokemon_api name).
Proof. unfold _research_pokemon_api. repeat preserves_step. Qed.

Lemma preserves_research_pokemon_web name :
  preserves R (_research_pokemon_web name).
Proof. unfold _research_pokemon_web. repeat preserves_step. Qed.

Lemma preserves_research_training_info :
  preserves R _research_training_info.
Proof. unfold _research_training_info. repeat preserves_step. Qed.

Lemma preserves_research_unique_pokemon :
  preserves R _research_unique_pokemon.
Proof. unfold _research_unique_pokemon. repeat preserves_step. Qed.

Lemma preserves_dispatch function_name function_args :
  preserves R (dispatch function_name function_args).
Proof.
  unfold dispatch.
  repeat first
    [ apply preserves_research_pokemon_api
    | apply preserves_research_pokemon_web
    | apply preserves_research_training_info
    | apply preserves_research_unique_pokemon
    | preserves_step ].
Qed.

Lemma preserves_execute_function_call i function_call :
  preserves R (execute_function_call i function_call).
Proof.
  unfold execute_function_call, decode_and_dispatch.
  repeat first [apply preserves_dispatch | preserves_step].
Qed.

Lemma preserves_execute_function_calls response i :
  preserves R (_execute_function_calls response i).
Proof.
  unfold _execute_function_calls.
  repeat first [apply preserves_execute_function_call | preserves_step].
Qed.

Lemma preserves_research_subagent raw i :
  preserves R (research_subagent raw i).
Proof.
  unfold research_subagent.
  repeat first [apply preserves_execute_function_calls | preserves_step].
Qed.

Lemma preserves_conducting_research : preserves R _conducting_research.
Proof.
  unfold _conducting_research.
  repeat first [apply preserves_research_subagent | preserves_step].
Qed.

Lemma preserves_clarify_goals : preserves R _clarify_goals.
Proof.
  unfold _clarify_goals.
  apply preserves_try_bind_except; auto.
  - apply preserves_create; reflexivity.
  - intros response. repeat preserves_step.
  - intros o e. unfold clarify_except. repeat preserves_step.
Qed.

Lemma preserves_generate_final_report : preserves R _generate_final_report.
Proof.
  unfold _generate_final_report, generate_report, error_report.
  repeat preserves_step.
Qed.

End PreservesWorld.

(** The analysis and report phases write the refinement counter and send
    the analysis request: they preserve the relations that every update of
    the collected data and every request preserve. *)
Section PreservesRun.
Context {py : PythonLib} {net : Network} {llm : LanguageModel}
        {web : WebSearcher}.
Variable R : world -> world -> Prop.
Hypothesis R_refl : forall w, R w w.
Hypothesis R_trans : forall a b c, R a b -> R b c -> R a c.
Hypothesis R_client :
  forall w c, R w (mk_world (context w) c (requests w)).
Hypothesis R_step :
  forall w st, step_wf st -> R w (snd (append_step st w)).
Hypothesis R_query : forall w q, R w (snd (set_original_query q w)).
Hypothesis R_goals : forall w g, R w (snd (set_clarified_goals g w)).
Hypothesis R_set : forall w k v, R w (snd (set_collected_data k v w)).
Hypothesis R_create :
  forall w kind,
    R w (mk_world (context w) (pokeapi_client w)
           (requests w ++ [(kind, context w)])%list).

Ltac run_step :=
  match goal with
  | |- preserves _ (bind _ _) => apply preserves_bind; try assumption; intros
  | |- preserves _ (try_except _ _) =>
      apply preserves_try_except; try assumption; intros
  | |- preserves _ (ret _) => apply preserves_ret; assumption
  | |- preserves _ (raise _) => apply preserves_raise; assumption
  | |- preserves _ (lift _) => apply preserves_lift; assumption
  | |- preserves _ (read _) => apply preserves_read; assumption
  | |- preserves _ (content_or_raise _ _) =>
      apply preserves_content_or_raise; assumption
  | |- preserves _ (set_collected_data _ _) => intro; apply R_set
  | |- preserves _ (set_original_query _) => intro; apply R_query
  | |- preserves _ (append_step (step_done _ _ _ _)) =>
      intro; apply R_step, step_done_wf
  | |- preserves _ (create _) =>
      let w := fresh "w" in
      intro w; unfold create; destruct (chat_completion _ _); apply R_create
  | |- preserves _ _clarify_goals => apply preserves_clarify_goals; auto
  | |- preserves _ _conducting_research =>
      apply preserves_conducting_research; auto
  | |- preserves _ (if ?b then _ else _) => destruct b
  | |- preserves _ (match ?x with _ => _ end) => destruct x
  end.

Lemma preserves_analyse_prompt : preserves R analyse_prompt.
Proof. unfold analyse_prompt. repeat run_step. Qed.

Lemma preserves_analyse_request : preserves R analyse_request.
Proof. unfold analyse_request. repeat run_step. Qed.

Lemma preserves_refine_query a c : preserves R (refine_query a c).
Proof. unfold refine_query. repeat run_step. Qed.

Lemma preserves_analysis_step a : preserves R (analysis_step a).
Proof. unfold analysis_step. repeat run_step. Qed.

Lemma fpreserves_analyse_findings fuel :
  fpreserves R (_analyse_findings fuel).
Proof.
  induction fuel as [|fuel IH]; simpl.
  - intro w. exact I.
  - apply fpreserves_fbind; [exact R_trans | | intros _].
    { apply fpreserves_run_m, preserves_analyse_prompt. }
    apply fpreserves_ftry_except; [exact R_trans | | intros e].
    2:{ now apply fpreserves_fret. }
    apply fpreserves_fbind; [exact R_trans | | ].
    { apply fpreserves_run_m, preserves_analyse_request. }
    intros [[analysis_data refinement_count] refine].
    apply fpreserves_fbind; [exact R_trans | | intros _].
    2:{ apply fpreserves_run_m, preserves_analysis_step. }
    destruct refine.
    + apply fpreserves_fbind; [exact R_trans | | intros _; exact IH].
      apply fpreserves_run_m.
      apply preserves_bind; [exact R_trans | | intros _].
      { apply preserves_refine_query. }
      repeat run_step.
    + now apply fpreserves_fret.
Qed.

Lemma fpreserves_pipeline fuel : fpreserves R (pipeline fuel).
Proof.
  unfold pipeline.
  apply fpreserves_fbind; [exact R_trans | | intros _].
  { apply fpreserves_run_m. apply preserves_clarify_goals; auto. }
  apply fpreserves_fbind; [exact R_trans | | intros _].
  { apply fpreserves_run_m. apply preserves_conducting_research; auto. }
  apply fpreserves_fbind; [exact R_trans | | intros _].
  { apply fpreserves_analyse_findings. }
  apply fpreserves_run_m. apply preserves_generate_final_report; auto.
Qed.

End PreservesRun.

(** ** The three relations *)

Create HintDb ledger.
Create HintDb frame.
Create HintDb keys.

Lemma ledger_extends_same w w' : ledger w' = ledger w -> ledger_extends w w'.
Proof.
  intros E. exists []. split; [now rewrite app_nil_r | constructor].
Qed.

Lemma ledger_extends_refl w : ledger_extends w w.
Proof. now apply ledger_extends_same. Qed.

Lemma ledger_extends_trans a b c :
  ledger_extends a b -> ledger_extends b c -> ledger_extends a c.
Proof.
  intros [l1 [E1 W1]] [l2 [E2 W2]]. exists (l1 ++ l2)%list. split.
  - now rewrite E2, E1, app_assoc.
  - now apply Forall_app.
Qed.

Lemma ledger_extends_client w c :
  ledger_extends w (mk_world (context w) c (requests w)).
Proof. now apply ledger_extends_same. Qed.

Lemma ledger_extends_step w st :
  step_wf st -> ledger_extends w (snd (append_step st w)).
Proof.
  intros H. exists [st]. split; [reflexivity | now repeat constructor].
Qed.

Lemma ledger_extends_query w q :
  ledger_extends w (snd (set_original_query q w)).
Proof. now apply ledger_extends_same. Qed.

Lemma ledger_extends_goals w g :
  ledger_extends w (snd (set_clarified_goals g w)).
Proof. now apply ledger_extends_same. Qed.

Lemma ledger_extends_set w k v :
  ledger_extends w (snd (set_collected_data k v w)).
Proof. now apply ledger_extends_same. Qed.

Lemma ledger_extends_create w kind :
  ledger_extends w
    (mk_world (context w) (pokeapi_client w)
       (requests w ++ [(kind, context w)])%list).
Proof. now apply ledger_extends_same. Qed.

#[global] Hint Resolve ledger_extends_refl ledger_extends_trans ledger_extends_client
  ledger_extends_step ledger_extends_query ledger_extends_goals
  ledger_extends_set ledger_extends_create : ledger.

Lemma ledger_extends_wf w w' :
  ledger_extends w w' -> ledger_wf (ledger w) -> ledger_wf (ledger w').
Proof. intros [l [E W]] H. rewrite E. now apply Forall_app. Qed.

Lemma frame_refl w : refinement_frame w w.
Proof. now split. Qed.

Lemma frame_trans a b c :
  refinement_frame a b -> refinement_frame b c -> refinement_frame a c.
Proof. intros [E1 F1] [E2 F2]. split; congruence. Qed.

Lemma frame_client w c :
  refinement_frame w (mk_world (context w) c (requests w)).
Proof. now split. Qed.

Lemma frame_step w st :
  step_wf st -> refinement_frame w (snd (append_step st w)).
Proof. now split. Qed.

Lemma frame_query w q : refinement_frame w (snd (set_original_query q w)).
Proof. now split. Qed.

Lemma frame_goals w g : refinement_frame w (snd (set_clarified_goals g w)).
Proof. now split. Qed.

Lemma frame_set w k v :
  String.eqb k "refinement_count" = false ->
  refinement_frame w (snd (set_collected_data k v w)).
Proof.
  intros H. split; [|reflexivity].
  unfold collected. simpl. now apply dict_get_set_other.
Qed.

Lemma analyse_requests_app w kind c :
  analyse_requests
    (mk_world (context w) (pokeapi_client w) (requests w ++ [(kind, c)])%list)
  = (analyse_requests w
     ++ (if call_kind_eqb kind Analyse then [c] else []))%list.
Proof.
  unfold analyse_requests. simpl. rewrite filter_app, map_app. simpl.
  now destruct (call_kind_eqb kind Analyse).
Qed.

Lemma frame_create w kind :
  call_kind_eqb kind Analyse = false ->
  refinement_frame w
    (mk_world (context w) (pokeapi_client w)
       (requests w ++ [(kind, context w)])%list).
Proof.
  intros H. split; [reflexivity|].
  rewrite analyse_requests_app, H. apply app_nil_r.
Qed.

#[global] Hint Resolve frame_refl frame_trans frame_client frame_step frame_query
  frame_goals frame_set frame_create : frame.

Lemma keys_kept_refl w : keys_kept w w.
Proof. now intros k H. Qed.

Lemma keys_kept_trans a b c :
  keys_kept a b -> keys_kept b c -> keys_kept a c.
Proof. intros H1 H2 k H. now apply H2, H1. Qed.

Lemma keys_kept_client w c :
  keys_kept w (mk_world (context w) c (requests w)).
Proof. now intros k H. Qed.

Lemma keys_kept_step w st :
  step_wf st -> keys_kept w (snd (append_step st w)).
Proof. now intros _ k H. Qed.

Lemma keys_kept_query w q : keys_kept w (snd (set_original_query q w)).
Proof. now intros k H. Qed.

Lemma keys_kept_goals w g : keys_kept w (snd (set_clarified_goals g w)).
Proof. now intros k H. Qed.

Lemma keys_kept_set w k v :
  String.eqb k "refinement_count" = false ->
  keys_kept w (snd (set_collected_data k v w)).
Proof. intros _ k' H. unfold collected. simpl. now apply dict_set_keeps. Qed.

Lemma keys_kept_create w kind :
  call_kind_eqb kind Analyse = false ->
  keys_kept w
    (mk_world (context w) (pokeapi_client w)
       (requests w ++ [(kind, context w)])%list).
Proof. now intros _ k H. Qed.

#[global] Hint Resolve keys_kept_refl keys_kept_trans keys_kept_client keys_kept_step
  keys_kept_query keys_kept_goals keys_kept_set keys_kept_create : keys.

Section Relations.
Context {py : PythonLib} {net : Network} {llm : LanguageModel}
        {web : WebSearcher}.

(** The operations extend the ledger. *)
Lemma perform_ledger_extends op : fpreserves ledger_extends (perform op).
Proof.
  destruct op; simpl;
    try (apply fpreserves_run_m; auto with ledger).
  - apply preserves_clarify_goals; eauto with ledger.
  - apply preserves_conducting_research; eauto with ledger.
  - apply preserves_execute_function_calls; eauto with ledger.
  - apply preserves_research_pokemon_api; eauto with ledger.
  - apply preserves_research_pokemon_web; eauto with ledger.
  - apply preserves_research_training_info; eauto with ledger.
  - apply preserves_research_unique_pokemon; eauto with ledger.
  - apply fpreserves_analyse_findings; eauto with ledger.
  - apply preserves_bind; eauto with ledger.
    + apply preserves_generate_final_report; eauto with ledger.
    + intros a. apply preserves_ret; eauto with ledger.
Qed.

(** ** The ledger invariant *)

Lemma reachable_ledger_wf w : reachable w -> ledger_wf (ledger w).
Proof.
  induction 1 as [query client | w op r w' Hw IH Hop].
  - constructor.
  - pose proof (perform_ledger_extends op w) as H. rewrite Hop in H.
    eapply ledger_extends_wf; eauto.
Qed.

(** C9: in every reachable state of a run each ledger entry with
    [success = false] has an error message, and every operation of the
    agent only appends entries: the ledger after the operation is the
    ledger before it followed by new entries, and it satisfies the
    invariant again. *)
Theorem ledger_append_only (w : world) (op : operation) :
  reachable w ->
  ledger_wf (ledger w) /\
  match perform op w with
  | Some (_, w') =>
      (exists added, ledger w' = (ledger w ++ added)%list)
      /\ ledger_wf (ledger w')
  | None => True
  end.
Proof.
  intros Hw. pose proof (reachable_ledger_wf Hw) as Hwf. split; auto.
  pose proof (perform_ledger_extends op w) as H.
  destruct (perform op w) as [[r w']|]; auto. split.
  - destruct H as [added [E _]]. now exists added.
  - eapply ledger_extends_wf; eauto.
Qed.

End Relations.

(** ** The refinement loop *)

Lemma fle_refl S A (m : F S A) : fle m m.
Proof. now intros s x H. Qed.

Lemma fle_fbind S A B (m1 m2 : F S A) (f1 f2 : A -> F S B) :
  fle m1 m2 -> (forall a, fle (f1 a) (f2 a)) -> fle (fbind m1 f1) (fbind m2 f2).
Proof.
  intros Hm Hf s x. unfold fbind.
  destruct (m1 s) as [[[a|e] s']|] eqn:E; try discriminate;
    rewrite (Hm _ _ E); auto. apply Hf.
Qed.

Lemma fle_ftry_except S A (m1 m2 : F S A) (h1 h2 : exn -> F S A) :
  fle m1 m2 -> (forall e, fle (h1 e) (h2 e)) ->
  fle (ftry_except m1 h1) (ftry_except m2 h2).
Proof.
  intros Hm Hh s x. unfold ftry_except.
  destruct (m1 s) as [[[a|e] s']|] eqn:E; try discriminate;
    rewrite (Hm _ _ E); auto. apply Hh.
Qed.

Section Refinement.
Context {py : PythonLib} {net : Network} {llm : LanguageModel}
        {web : WebSearcher}.

(** More fuel does not change a result. *)
Lemma analyse_findings_fuel_mono fuel :
  forall fuel', fuel <= fuel' ->
  fle (_analyse_findings fuel) (_analyse_findings fuel').
Proof.
  induction fuel as [|fuel IH]; intros fuel' Hle.
  - intros w x H. discriminate.
  - destruct fuel' as [|fuel']; [lia|]. simpl.
    apply fle_fbind; [apply fle_refl | intros _].
    apply fle_ftry_except; [|intros e; apply fle_refl].
    apply fle_fbind; [apply fle_refl|].
    intros [[analysis_data refinement_count] refine].
    apply fle_fbind; [|intros _; apply fle_refl].
    destruct refine; [|apply fle_refl].
    apply fle_fbind; [apply fle_refl | intros _].
    apply IH. lia.
Qed.

Lemma analyse_prompt_state w : snd (analyse_prompt w) = w.
Proof.
  unfold analyse_prompt, bind, read, gets, lift. simpl.
  destruct (py_join _ _); simpl; auto;
    destruct (json_dumps_dict _); reflexivity.
Qed.

Lemma analyse_request_spec w :
  analyse_requests (snd (analyse_request w))
  = (analyse_requests w ++ [context w])%list
  /\ dict_get "refinement_count" (collected (snd (analyse_request w)))
     = dict_get "refinement_count" (collected w)
  /\ match fst (analyse_request w) with
     | Ok (_, c, refine) =>
         c = refinement_count_of (context w)
         /\ (if refine : bool
             then pyval_lt_int c max_refinement_cycles = Ok true
             else True)
     | Raise _ => True
     end.
Proof.
  unfold analyse_request, create, bind. simpl.
  pose proof (analyse_requests_app w Analyse (context w)) as Hreq.
  simpl in Hreq.
  destruct (chat_completion Analyse _) as [e|response]; simpl; auto.
  unfold content_or_raise.
  destruct (content response) as [text|]; simpl; auto.
  unfold lift at 1.
  destruct (json_loads (strip text)) as [analysis_data|e]; simpl; auto.
  unfold lift at 1.
  destruct (py_get analysis_data _ _) as [further|e]; simpl; auto.
  - assert (Hc : dict_get_default "refinement_count" (Json (JInt 0))
                   (dict_set "analysis" (Json analysis_data)
                      (ResearchContext.collected_data (context w)))
                 = refinement_count_of (context w)).
    { unfold refinement_count_of, dict_get_default.
      now rewrite dict_get_set_other. }
    assert (Hd : dict_get "refinement_count"
                   (dict_set "analysis" (Json analysis_data)
                      (ResearchContext.collected_data (context w)))
                 = dict_get "refinement_count" (collected w)).
    { now rewrite dict_get_set_other. }
    destruct (truthy further); simpl.
    + unfold lift. rewrite Hc.
      destruct (pyval_lt_int _ _) as [[|]|e] eqn:E; simpl; auto.
    + rewrite Hc. auto.
  - split; auto. split; auto. unfold collected. simpl.
    now rewrite dict_get_set_other.
Qed.

Lemma refine_query_spec a n w :
  analyse_requests (snd (refine_query a (Json (JInt n)) w))
  = analyse_requests w
  /\ match fst (refine_query a (Json (JInt n)) w) with
     | Ok _ =>
         refinement_count_of
           (context (snd (refine_query a (Json (JInt n)) w)))
         = Json (JInt (n + 1))
     | Raise _ => True
     end.
Proof.
  unfold refine_query, bind, read, gets, lift. simpl.
  destruct (py_get a _ _); simpl; auto. split; auto.
  unfold refinement_count_of, dict_get_default. simpl.
  now rewrite dict_get_set_same.
Qed.

Lemma frame_refinement_count w w' :
  refinement_frame w w' ->
  refinement_count_of (context w') = refinement_count_of (context w).
Proof.
  intros [E _]. unfold refinement_count_of, dict_get_default.
  unfold collected in E. now rewrite E.
Qed.

Lemma frame_clarify_goals : preserves refinement_frame _clarify_goals.
Proof. apply preserves_clarify_goals; eauto with frame. Qed.

Lemma frame_conducting_research :
  preserves refinement_frame _conducting_research.
Proof. apply preserves_conducting_research; eauto with frame. Qed.

Lemma frame_generate_final_report :
  preserves refinement_frame _generate_final_report.
Proof. apply preserves_generate_final_report; eauto with frame. Qed.

(** The refinement rule followed by the two phases that are run again. *)
Lemma rerun_spec a n w :
  let m := (refine_query a (Json (JInt n)) ;;
            _clarify_goals ;;
            _conducting_research) in
  analyse_requests (snd (m w)) = analyse_requests w
  /\ match fst (m w) with
     | Ok _ => refinement_count_of (context (snd (m w))) = Json (JInt (n + 1))
     | Raise _ => True
     end.
Proof.
  simpl. unfold bind.
  destruct (refine_query_spec a n w) as [Hq Hc].
  destruct (refine_query a (Json (JInt n)) w) as [[[]|e] w1]; simpl in *; auto.
  pose proof (frame_clarify_goals w1) as H1.
  destruct (_clarify_goals w1) as [[[]|e] w2]; simpl in *.
  - pose proof (frame_conducting_research w2) as H2.
    pose proof (frame_trans H1 H2) as H.
    destruct (_conducting_research w2) as [[[]|e] w3]; simpl in *.
    + split; [destruct H; congruence|].
      now rewrite (frame_refinement_count H).
    + split; auto. destruct H; congruence.
  - split; auto. destruct H1; congruence.
Qed.

Lemma analysis_step_requests a w :
  analyse_requests (snd (analysis_step a w)) = analyse_requests w.
Proof. destruct a; reflexivity. Qed.

Lemma analyse_findings_bounded fuel : forall w n,
  (0 <= n <= 2)%Z ->
  refinement_count_of (context w) = Json (JInt n) ->
  (3 <= Z.of_nat fuel + n)%Z ->
  match _analyse_findings fuel w with
  | None => False
  | Some (_, w') =>
      exists added,
        analyse_requests w' = (analyse_requests w ++ added)%list
        /\ (Z.of_nat (List.length added) + n <= 3)%Z
        /\ counts_from n added
  end.
Proof.
  induction fuel as [|fuel IH]; intros w n Hn Hc Hfuel; [lia|].
  cbn [_analyse_findings]. unfold fbind at 1, run_m at 1.
  pose proof (analyse_prompt_state w) as Hp.
  destruct (analyse_prompt w) as [[[]|e] w0]; cbn [snd] in Hp; subst w0.
  2:{ exists []. rewrite app_nil_r. cbn [counts_from List.length]. repeat split; auto; lia. }
  unfold ftry_except, fbind at 1, run_m at 1.
  destruct (analyse_request_spec w) as [Hreq [Hrc Hres]].
  destruct (analyse_request w) as [[[[a c] refine]|e] w1]; cbn [fst snd] in *.
  2:{ exists [context w]. cbn [counts_from List.length]. repeat split; auto; lia. }
  destruct Hres as [Hcount Hlt]. rewrite Hc in Hcount. subst c.
  destruct refine.
  - unfold fbind at 1. unfold fbind at 1, run_m at 1.
    pose proof (rerun_spec a n w1) as Hrerun. cbv zeta in Hrerun.
    destruct Hrerun as [Hreq2 Hrc2].
    destruct ((refine_query a (Json (JInt n)) ;;
               _clarify_goals ;; _conducting_research) w1)
      as [[[]|e] w2]; cbn [fst snd] in *.
    2:{ exists [context w]. cbn [fret counts_from List.length].
        rewrite Hreq2. repeat split; auto; lia. }
    assert (Hn' : (n < 2)%Z).
    { unfold max_refinement_cycles in Hlt. cbn in Hlt.
      injection Hlt as Hlt. now apply Z.ltb_lt. }
    specialize (IH w2 (n + 1)%Z ltac:(lia) Hrc2 ltac:(lia)).
    destruct (_analyse_findings fuel w2) as [[[[]|e] w3]|]; [| |contradiction].
    + destruct IH as [added [E [Hlen Hcf]]].
      unfold run_m.
      pose proof (analysis_step_requests a w3) as Hs.
      destruct (analysis_step a w3) as [[[]|e] w4]; cbn [fst snd] in *;
        exists (context w :: added); cbn [fret];
        rewrite Hs, E, Hreq2, Hreq, <- app_assoc;
        cbn [counts_from List.length app]; repeat split; auto; lia.
    + destruct IH as [added [E [Hlen Hcf]]].
      exists (context w :: added). cbn [fret].
      rewrite E, Hreq2, Hreq, <- app_assoc.
      cbn [counts_from List.length app]. repeat split; auto; lia.
  - unfold fbind, fret, run_m.
    pose proof (analysis_step_requests a w1) as Hs.
    destruct (analysis_step a w1) as [[[]|e] w4]; cbn [fst snd] in *;
      exists [context w]; rewrite Hs;
      cbn [counts_from List.length]; repeat split; auto; lia.
Qed.

Lemma analyse_requests_leave w : analyse_requests (leave w) = analyse_requests w.
Proof. reflexivity. Qed.

(** C2: a run sends at most 3 analysis requests (1 initial + 2
    refinements) whatever the language model answers, in particular when
    every analysis asks for further research; the recursion of
    [_analyse_findings] never goes deeper than 3 calls (the run has a
    result with fuel 3, and the same one with more); and the analysis
    request number [k] (from 0) is built from collected data whose
    [refinement_count] is [k]: the counter persisted in the collected data
    goes up by exactly 1 at each refinement cycle. *)
Theorem refinement_bounded (fuel : nat) (query : string)
  (client : PokeAPIClient.t) :
  match run (3 + fuel) query client with
  | None => False
  | Some (r, w) =>
      run 3 query client = Some (r, w)
      /\ List.length (analyse_requests w) <= 3
      /\ counts_from 0 (analyse_requests w)
  end.
Proof.
  unfold run, pipeline, fbind, run_m.
  set (w0 := start query client).
  assert (H0 : analyse_requests w0 = []) by reflexivity.
  assert (C0 : refinement_count_of (context w0) = Json (JInt 0)) by reflexivity.
  pose proof (frame_clarify_goals w0) as H1.
  destruct (_clarify_goals w0) as [[[]|e] w1]; cbn [snd] in H1.
  2:{ rewrite analyse_requests_leave. destruct H1 as [_ H1].
      rewrite H1, H0. cbn. repeat split; auto; lia. }
  pose proof (frame_conducting_research w1) as H2.
  pose proof (frame_trans H1 H2) as H12.
  destruct (_conducting_research w1) as [[[]|e] w2]; cbn [snd] in H2, H12.
  2:{ rewrite analyse_requests_leave. destruct H12 as [_ H12].
      rewrite H12, H0. cbn. repeat split; auto; lia. }
  assert (C2 : refinement_count_of (context w2) = Json (JInt 0)).
  { now rewrite (frame_refinement_count H12). }
  pose proof (@analyse_findings_bounded 3 w2 0%Z ltac:(lia) C2 ltac:(lia)) as B.
  destruct (_analyse_findings 3 w2) as [[r3 w3]|] eqn:E3; [|contradiction].
  rewrite (@analyse_findings_fuel_mono 3 (3 + fuel) ltac:(lia) _ _ E3).
  destruct B as [added [E [Hlen Hcf]]].
  destruct H12 as [_ H12]. rewrite H12, H0 in E. cbn [app] in E.
  destruct r3 as [[]|e].
  - pose proof (frame_generate_final_report w3) as [_ H4].
    destruct (_generate_final_report w3) as [r4 w4]; cbn [snd] in H4.
    rewrite analyse_requests_leave, H4, E.
    split; [reflexivity|]. split; [lia | exact Hcf].
  - rewrite analyse_requests_leave, E.
    split; [reflexivity|]. split; [lia | exact Hcf].
Qed.

End Refinement.

(** ** The entry point when the clarification request fails *)

Section Run.
Context {py : PythonLib} {net : Network} {llm : LanguageModel}
        {web : WebSearcher}.

(** C1 (the code does not meet the claim): when the first request to the
    language model, the clarification request, raises (a connection
    error, say), the [except] block of [_clarify_goals] raises
    [UnboundLocalError], nothing catches it, and [run] raises it to its
    caller instead of returning a report. *)
Theorem run_raises_when_clarification_request_fails
  (fuel : nat) (query : string) (client : PokeAPIClient.t) (e : exn) :
  chat_completion Clarify 0 = ApiError e ->
  run fuel query client
  = Some (Raise UnboundLocalError,
          mk_world (ResearchContext.init query)
            (PokeAPIClient.aexit (PokeAPIClient.aenter client))
            [(Clarify, ResearchContext.init query)]).
Proof.
  intros H. unfold run, pipeline, fbind, run_m.
  unfold _clarify_goals, try_bind_except, create. cbn.
  rewrite H. reflexivity.
Qed.

End Run.

(** ** The data fetch adapter *)

Section AdapterProperties.
Context {net : Network} {py : PythonLib}.

Lemma make_request_never_raises endpoint : never_raises (_make_request endpoint).
Proof.
  intros [sess lg]. unfold _make_request.
  destruct sess; cbn;
    try (eexists; reflexivity);
    destruct (session_get _) as [e|status [data|e]];
    try destruct (status =? 200)%Z; eexists; reflexivity.
Qed.

Lemma make_request_failed endpoint c :
  failed_request (session_get (POKEAPI_BASE_URL ++ "/" ++ endpoint)) = true ->
  exists msg,
    _make_request endpoint c
    = (Ok JNull,
       PokeAPIClient.add_log
         (failure_level c (session_get (POKEAPI_BASE_URL ++ "/" ++ endpoint)))
         msg (with_session c)).
Proof.
  unfold _make_request, failure_level, with_session. intros H.
  destruct c as [sess lg].
  destruct sess; cbn [PokeAPIClient.session PokeAPIClient.set_session];
    try (eexists; reflexivity);
    destruct (session_get _) as [e|status body]; cbn in H;
    try (eexists; reflexivity);
    destruct (status =? 200)%Z; try discriminate; eexists; reflexivity.
Qed.

(** The result of a request does not depend on what the client did
    before. *)
Lemma make_request_again endpoint c :
  fst (_make_request endpoint (snd (_make_request endpoint c)))
  = fst (_make_request endpoint c).
Proof.
  unfold _make_request. destruct c as [sess lg].
  destruct sess; cbn [PokeAPIClient.session PokeAPIClient.set_session];
    try reflexivity;
    destruct (session_get _) as [e|status [data|e]]; try reflexivity;
    destruct (status =? 200)%Z; reflexivity.
Qed.

(** C3 (amended): when the first request of a method of [PokeAPIClient]
    meets a network failure, a timeout or a response whose status is not
    200, the method returns its "not found" result ([None] or the empty
    list), no exception escapes, and one record is logged: a warning for a
    status other than 200, an error for an exception of the network
    library.  The module-level functions [fetch_all_pokemon] and
    [fetch_pokemon_ability] catch nothing: a network failure and a status
    from 400 to 599 raise to their caller. *)
Theorem adapter_failure (op : adapter_operation) (c : PokeAPIClient.t) :
  failed_request (upstream op) = true ->
  match op with
  | Method m =>
      exists msg,
        call op c
        = (Ok (not_found m),
           PokeAPIClient.add_log (failure_level c (upstream op)) msg
             (with_session c))
  | _ =>
      match error_of_request (upstream op) with
      | Some e => call op c = (Raise e, c)
      | None => True
      end
  end.
Proof.
  intros H. destruct op as [m|limit offset|ability_name].
  - destruct (make_request_failed (first_endpoint m) c H) as [msg E].
    exists msg. unfold upstream.
    destruct m; cbn [call call_method first_endpoint] in *;
      unfold get_pokemon_by_id, get_pokemon_by_name, get_pokemon_by_type,
        search_pokemon, get_evolution_chain, get_pokemon_description,
        get_all_types, get_generation_info, bind, lift, py_lower, py_str;
      rewrite E; reflexivity.
  - cbn [call upstream] in *. unfold fetch_all_pokemon, lift.
    destruct (requests_get _ _) as [e|status body]; cbn; auto.
    destruct (andb _ _); cbn; auto.
  - cbn [call upstream] in *. unfold fetch_pokemon_ability, lift.
    cbn [py_lower rbind].
    destruct (requests_get _ _) as [e|status body]; cbn; auto.
    destruct (andb _ _); cbn; auto.
Qed.

(** The record built from a document has the raw height and weight of the
    document divided by 10.0. *)
Lemma pokemon_of_json_units data p :
  pokemon_of_json data = Ok p ->
  exists h w,
    py_getitem data "height" = Ok h /\ py_div10 h = Ok (PokemonData.height p)
    /\ py_getitem data "weight" = Ok w
    /\ py_div10 w = Ok (PokemonData.weight p).
Proof.
  unfold pokemon_of_json, rbind, validated. intros H.
  repeat match type of H with
         | match ?x with _ => _ end = _ =>
             let E := fresh "E" in destruct x eqn:E; try discriminate
         end.
  injection H as <-.
  destruct (py_getitem data "height") as [h|] eqn:Eh; [|discriminate].
  destruct (py_getitem data "weight") as [w|] eqn:Ew; [|discriminate].
  exists h, w. cbn. auto.
Qed.

(** A returned record comes from a 200 response, and its height and weight
    are the raw ones divided by 10.0. *)
Lemma name_lookup_units (name : json) (c : PokeAPIClient.t) :
  match fst (get_pokemon_by_name name c) with
  | Ok (Some p) =>
      exists lowered data h w,
        py_lower name = Ok lowered
        /\ session_get (POKEAPI_BASE_URL ++ "/pokemon/" ++ lowered)
           = HttpResponse 200 (Ok data)
        /\ py_getitem data "height" = Ok h
        /\ py_div10 h = Ok (PokemonData.height p)
        /\ py_getitem data "weight" = Ok w
        /\ py_div10 w = Ok (PokemonData.weight p)
  | _ => True
  end.
Proof.
  unfold get_pokemon_by_name, bind, lift, ret.
  destruct (py_lower name) as [lowered|e]; [|exact I].
  assert (Hdata : forall data,
    fst (_make_request ("pokemon/" ++ lowered) c) = Ok data ->
    truthy data = true ->
    session_get (POKEAPI_BASE_URL ++ "/pokemon/" ++ lowered)
    = HttpResponse 200 (Ok data)).
  { unfold _make_request. destruct c as [sess lg].
    change (POKEAPI_BASE_URL ++ "/" ++ "pokemon/" ++ lowered)
      with (POKEAPI_BASE_URL ++ "/pokemon/" ++ lowered).
    destruct sess; cbn [PokeAPIClient.session PokeAPIClient.set_session];
      destruct (session_get _) as [e|status [data'|e]];
      try destruct (status =? 200)%Z eqn:Es; cbn; intros data E T;
      injection E as <-; try discriminate;
      apply Z.eqb_eq in Es; now subst. }
  destruct (_make_request ("pokemon/" ++ lowered) c) as [[data|e] c1];
    cbn [fst snd] in *; [|exact I].
  destruct (truthy data) eqn:T; cbn [negb]; [|exact I].
  destruct (pokemon_of_json data) as [p|e] eqn:Ep; cbn [fst snd]; [|exact I].
  destruct (pokemon_of_json_units data Ep) as [h [w [H1 [H2 [H3 H4]]]]].
  exists lowered, data, h, w. repeat split; auto.
Qed.

(** The quotient that [py_div10] returns is the raw number, as a float,
    divided by the float 10.0. *)
Lemma py_div10_over_ten (raw : json) (x : float) :
  py_div10 raw = Ok x -> raw_over_ten raw x.
Proof.
  destruct raw as [|b|n|r| | |]; cbn [py_div10 raw_over_ten];
    try discriminate.
  - unfold rbind. destruct (float_of_int (int_of_bool b)) as [r|e];
      [|discriminate].
    intros H. injection H as <-. exists r. auto.
  - unfold rbind. destruct (float_of_int n) as [r|e]; [|discriminate].
    intros H. injection H as <-. exists r. auto.
  - intros H. injection H as <-. reflexivity.
Qed.


(** C10: the lookup by id of an integer is the lookup by name of its
    decimal numeral, on every client: the same result and the same state
    of the client.  So the lookup by id has the behaviour of the lookup by
    name: [None] when the request for the numeral fails, and a record
    whose height and weight are the raw ones divided by 10.0. *)
Theorem id_lookup_is_name_lookup (pokemon_id : Z) (c : PokeAPIClient.t) :
  get_pokemon_by_id (JInt pokemon_id) c = id_lookup_spec pokemon_id c
  /\ (if failed_request (upstream (Method (GetPokemonById pokemon_id)))
      then fst (get_pokemon_by_id (JInt pokemon_id) c) = Ok None
      else True)
  /\ match fst (get_pokemon_by_id (JInt pokemon_id) c) with
     | Ok (Some p) =>
         exists data h w,
           session_get
             (POKEAPI_BASE_URL ++ "/pokemon/" ++ lower (str_of_int pokemon_id))
           = HttpResponse 200 (Ok data)
           /\ py_getitem data "height" = Ok h
           /\ py_div10 h = Ok (PokemonData.height p)
           /\ py_getitem data "weight" = Ok w
           /\ py_div10 w = Ok (PokemonData.weight p)
     | _ => True
     end.
Proof.
  split; [reflexivity|]. split.
  - destruct (failed_request _) eqn:F; [|exact I].
    destruct (make_request_failed
                (first_endpoint (GetPokemonById pokemon_id)) c F) as [msg E].
    unfold get_pokemon_by_id, get_pokemon_by_name, bind, lift, py_lower, py_str.
    cbn [first_endpoint] in E. now rewrite E.
  - pose proof (name_lookup_units (JStr (str_of_int pokemon_id)) c) as H.
    change (get_pokemon_by_id (JInt pokemon_id) c)
      with (get_pokemon_by_name (JStr (str_of_int pokemon_id)) c).
    destruct (fst (get_pokemon_by_name (JStr (str_of_int pokemon_id)) c))
      as [[p|]|e]; auto.
    destruct H as (lowered & data & h & w & H0 & H1 & H2 & H3 & H4 & H5).
    cbn in H0. injection H0 as <-. exists data, h, w. auto.
Qed.

End AdapterProperties.

(** ** The fan-out of the research phase *)

Section Research.
Context {py : PythonLib} {net : Network} {llm : LanguageModel}
        {web : WebSearcher}.

Lemma bind_ret_unit S (m : M S unit) s : (m ;; ret tt) s = m s.
Proof. unfold bind, ret. now destruct (m s) as [[[]|e] s']. Qed.


End Research.

(** ** The sources of the report *)

Section ReportSources.
Context {py : PythonLib} {llm : LanguageModel}.

(** C7 (amended): when the [try] block of [_generate_final_report]
    succeeds, the source list of the report is the flattening of the
    source lists of the ledger entries without duplicates, in an
    unspecified order: each source of the ledger occurs exactly once.
    When the block raises, the report is the degraded one, whose source
    list is empty. *)
Theorem report_sources (w : world) :
  let all := flat_map ResearchStep.sources (ledger w) in
  match fst (_generate_final_report w), fst (generate_report w) with
  | Ok report, Ok _ =>
      ResearchReport.sources report = list_of_set all
      /\ NoDup (ResearchReport.sources report)
      /\ (forall x, In x (ResearchReport.sources report) <-> In x all)
      /\ (forall x, In x all ->
            count_occ string_dec (ResearchReport.sources report) x = 1)
  | Ok report, Raise _ => ResearchReport.sources report = []
  | Raise _, _ => True
  end.
Proof.
  cbv zeta. unfold _generate_final_report, bind, read, gets, lift, try_except.
  cbn [fst snd].
  destruct (json_dumps _); [|exact I].
  assert (Hsrc : match fst (generate_report w) with
                 | Ok report =>
                     ResearchReport.sources report
                     = list_of_set (flat_map ResearchStep.sources (ledger w))
                 | Raise _ => True
                 end).
  { unfold generate_report, bind, read, gets, lift, create, content_or_raise,
      ret, raise, validated. cbn [fst snd].
    destruct (chat_completion Report _) as [e|response]; [exact I|].
    destruct (content response); [|exact I]. cbn [fst snd context].
    repeat match goal with
           | |- match fst (match ?x with _ => _ end) with _ => _ end =>
               destruct x; try exact I
           | |- match fst (let (_, _) := match ?x with _ => _ end in _)
                with _ => _ end =>
               destruct x; try exact I
           end.
    reflexivity. }
  destruct (generate_report w) as [[report|e] w1]; cbn [fst snd] in *.
  - rewrite Hsrc. split; [reflexivity|].
    split; [apply list_of_set_NoDup|].
    split; [intros x; apply list_of_set_In|].
    intros x Hx.
    apply NoDup_count_occ'; [apply list_of_set_NoDup|].
    now apply list_of_set_In.
  - unfold error_report, bind, read, gets, lift, ret, validated.
    cbn [fst snd]. destruct (validate_str _); cbn; auto.
Qed.

(** When the [try] block of [_generate_final_report] raises and the query
    is a string, the result is the degraded report: confidence 0.0 and
    the limitation that notes the failure. *)
Lemma report_failure_degrades (w : world) (q : string) (e : exn) :
  ResearchContext.original_query (context w) = JStr q ->
  json_dumps (dict_get_default "analysis" (Json (JDict [])) (collected w))
  = Ok tt ->
  fst (generate_report w) = Raise e ->
  fst (_generate_final_report w)
  = Ok (ResearchReport.mk q "Error generating report"
          (collected (snd (generate_report w))) [] []
          (ledger (snd (generate_report w))) 0%float
          ["Failed to generate complete report"]).
Proof.
  intros Hq Hd Hg.
  assert (Hctx : context (snd (generate_report w)) = context w).
  { unfold generate_report, bind, read, gets, lift, create, content_or_raise,
      ret, raise, validated. cbn [fst snd].
    destruct (chat_completion Report _) as [e'|response]; [reflexivity|].
    destruct (content response); [|reflexivity]. cbn [fst snd context].
    repeat match goal with
           | |- context [match ?x with _ => _ end] => destruct x
           end; reflexivity. }
  unfold _generate_final_report, bind, read, gets, lift, try_except.
  cbn [fst snd]. unfold collected in Hd. rewrite Hd.
  destruct (generate_report w) as [[report|e'] w1]; cbn [fst snd] in *;
    [discriminate|].
  unfold error_report, bind, read, gets, lift, ret, validated, collected,
    ledger. cbn [fst snd]. rewrite Hctx, Hq, validate_str_ok. reflexivity.
Qed.

End ReportSources.

(** ** The function dispatcher *)

Lemma same_context_refl w : same_context w w.
Proof. now split. Qed.

Lemma same_context_trans a b c :
  same_context a b -> same_context b c -> same_context a c.
Proof. intros [E1 F1] [E2 F2]. split; congruence. Qed.

Lemma never_raises_try_except S A (m : M S A) (h : exn -> M S A) :
  (forall e, never_raises (h e)) -> never_raises (try_except m h).
Proof.
  intros H s. unfold try_except.
  destruct (m s) as [[a|e] s']; [now exists a | apply H].
Qed.

Lemma never_raises_append_step st : never_raises (append_step st).
Proof. intros w. now exists tt. Qed.

Lemma never_raises_set k v : never_raises (set_collected_data k v).
Proof. intros w. now exists tt. Qed.

Lemma never_raises_ret S A (a : A) : never_raises (@ret S A a).
Proof. intros s. now exists a. Qed.

Lemma never_raises_for_each S A (l : list A) (body : A -> M S unit) :
  (forall a, never_raises (body a)) -> never_raises (for_each l body).
Proof.
  intros H. induction l as [|a t IH]; cbn [for_each].
  - apply never_raises_ret.
  - intros s. unfold bind. destruct (H a s) as [[] E].
    destruct (body a s) as [r s']. cbn in E. subst r. apply IH.
Qed.

Lemma for_each_app S A (l1 l2 : list A) (body : A -> M S unit) s :
  (forall a, never_raises (body a)) ->
  for_each (l1 ++ l2) body s = for_each l2 body (snd (for_each l1 body s)).
Proof.
  intros H. revert s. induction l1 as [|a t IH]; intros s; cbn; auto.
  unfold bind. destruct (H a s) as [[] E].
  destruct (body a s) as [r s']. cbn in E. subst r. apply IH.
Qed.

Lemma raises_cleanly_never A (m : M world A) :
  never_raises m -> raises_cleanly m.
Proof. intros H w. destruct (H w) as [a E]. now rewrite E. Qed.

Lemma raises_cleanly_ret A (a : A) : raises_cleanly (ret a).
Proof. intros w. exact I. Qed.

Lemma raises_cleanly_raise A e : raises_cleanly (@raise world A e).
Proof. intros w. apply same_context_refl. Qed.

Lemma raises_cleanly_lift A (r : result A) : raises_cleanly (lift r).
Proof. intros w. cbn. destruct r; auto using same_context_refl. Qed.

Lemma raises_cleanly_bind A B (m : M world A) (f : A -> M world B) :
  preserves same_context m -> (forall a, raises_cleanly (f a)) ->
  raises_cleanly (bind m f).
Proof.
  intros Hm Hf w. unfold bind. specialize (Hm w).
  destruct (m w) as [[a|e] w1]; cbn [fst snd] in *; auto.
  specialize (Hf a w1). destruct (f a w1) as [[b|e] w2]; cbn [fst snd] in *.
  - exact I.
  - eapply same_context_trans; eauto.
Qed.

Lemma same_context_client_call A (m : M PokeAPIClient.t A) :
  preserves same_context (client_call m).
Proof.
  intros w. unfold client_call. destruct (m (pokeapi_client w)). now split.
Qed.

Lemma bind_unfold S A B (m : M S A) (f : A -> M S B) s :
  bind m f s
  = match m s with
    | (Ok a, s') => f a s'
    | (Raise e, s') => (Raise e, s')
    end.
Proof. reflexivity. Qed.

Section Dispatcher.
Context {py : PythonLib} {net : Network} {llm : LanguageModel}
        {web : WebSearcher}.

Lemma never_raises_research_pokemon_api name :
  never_raises (_research_pokemon_api name).
Proof.
  apply never_raises_try_except. intros e. apply never_raises_append_step.
Qed.

Lemma never_raises_research_pokemon_web name :
  never_raises (_research_pokemon_web name).
Proof.
  apply never_raises_try_except. intros e. apply never_raises_append_step.
Qed.

Lemma never_raises_research_training_info :
  never_raises _research_training_info.
Proof.
  apply never_raises_try_except. intros e. apply never_raises_ret.
Qed.

Lemma never_raises_research_unique_pokemon :
  never_raises _research_unique_pokemon.
Proof.
  apply never_raises_try_except. intros e. apply never_raises_ret.
Qed.

Ltac cleanly_step :=
  match goal with
  | |- raises_cleanly (bind _ _) => apply raises_cleanly_bind; [|intros]
  | |- raises_cleanly (if ?b then _ else _) => destruct b
  | |- raises_cleanly (ret _) => apply raises_cleanly_ret
  | |- raises_cleanly (set_collected_data _ _) =>
      apply raises_cleanly_never, never_raises_set
  | |- raises_cleanly (_research_pokemon_api _) =>
      apply raises_cleanly_never, never_raises_research_pokemon_api
  | |- raises_cleanly (_research_pokemon_web _) =>
      apply raises_cleanly_never, never_raises_research_pokemon_web
  | |- raises_cleanly _research_training_info =>
      apply raises_cleanly_never, never_raises_research_training_info
  | |- raises_cleanly _research_unique_pokemon =>
      apply raises_cleanly_never, never_raises_research_unique_pokemon
  | |- preserves same_context (lift _) =>
      apply preserves_lift, same_context_refl
  | |- preserves same_context (client_call _) =>
      apply same_context_client_call
  | |- preserves same_context (model_dump_or_raise _) =>
      apply preserves_model_dump_or_raise, same_context_refl
  end.

(** A call that raises has changed nothing in the context of the run. *)
Lemma raises_cleanly_dispatch function_name function_args :
  raises_cleanly (dispatch function_name function_args).
Proof. unfold dispatch. repeat cleanly_step. Qed.

Lemma raises_cleanly_decode_and_dispatch function_call :
  raises_cleanly (decode_and_dispatch function_call).
Proof.
  unfold decode_and_dispatch. apply raises_cleanly_bind.
  - apply preserves_lift, same_context_refl.
  - intros a. apply raises_cleanly_dispatch.
Qed.

Lemma never_raises_execute_function_call i function_call :
  never_raises (execute_function_call i function_call).
Proof.
  apply never_raises_try_except. intros e. apply never_raises_append_step.
Qed.

Lemma keys_kept_execute_function_calls response i :
  preserves keys_kept (_execute_function_calls response i).
Proof. apply preserves_execute_function_calls; eauto with keys. Qed.

(** The failed step that the dispatcher records for a call. *)
Lemma execute_function_call_raise i function_call e w :
  fst (decode_and_dispatch function_call w) = Raise e ->
  execute_function_call i function_call w
  = append_step
      (step_failed SYNTHESIS
         ("Failed research subagent " ++ str_succ i
          ++ " in executing function " ++ function_name function_call) e)
      (snd (decode_and_dispatch function_call w)).
Proof.
  intros H. unfold execute_function_call, try_except.
  destruct (decode_and_dispatch function_call w) as [r w'].
  cbn in H. now subst r.
Qed.

(** The dispatcher asks the adapter what [tool_request] says and stores
    the answer under its key. *)
Lemma dispatch_tool_request function_name d k request w :
  tool_request function_name d = Some (k, request) ->
  dispatch function_name (JDict d) w
  = (v <- client_call request ;; set_collected_data k v) w.
Proof.
  unfold tool_request, dispatch, dict_get_default. destruct w as [ctx c reqs].
  repeat match goal with
         | |- context [if String.eqb function_name ?n then _ else _] =>
             destruct (String.eqb function_name n)
         end;
    try discriminate;
    unfold bind, lift; cbn [py_get];
    try (match goal with
         | |- context [truthy ?v] => destruct (truthy v)
         end; try discriminate);
    intros H; injection H as <- <-;
    unfold bind, lift, ret, raise, client_call, get_pokemon_by_id,
      model_dump_or_raise, dumped, rbind;
    cbn [pokeapi_client context requests];
    repeat match goal with
           | |- context [get_pokemon_by_name ?a c] =>
               destruct (get_pokemon_by_name a c) as [[[?|]|?] ?]
           | |- context [get_pokemon_by_type ?a c] =>
               destruct (get_pokemon_by_type a c) as [[?|?] ?]
           | |- context [search_pokemon ?a c] =>
               destruct (search_pokemon a c) as [[?|?] ?]
           | |- context [get_evolution_chain ?a c] =>
               destruct (get_evolution_chain a c) as [[?|?] ?]
           | |- context [get_pokemon_description ?a c] =>
               destruct (get_pokemon_description a c) as [[?|?] ?]
           | |- context [get_all_types c] =>
               destruct (get_all_types c) as [[?|?] ?]
           | |- context [get_generation_info ?a c] =>
               destruct (get_generation_info a c) as [[?|?] ?]
           | |- context [fetch_all_pokemon ?a ?b] =>
               destruct (fetch_all_pokemon a b) as [?|?]
           | |- context [fetch_pokemon_ability ?a] =>
               destruct (fetch_pokemon_ability a) as [?|?]
           | |- context [py_iter ?a] => destruct (py_iter a) as [?|?]
           end;
    reflexivity.
Qed.

(** The dispatcher runs the helper that [tool_helper] says. *)
Lemma dispatch_tool_helper function_name d helper w :
  tool_helper function_name d = Some helper ->
  dispatch function_name (JDict d) w = helper w.
Proof.
  unfold tool_helper, dispatch, dict_get_default.
  repeat match goal with
         | |- context [if String.eqb function_name ?n then _ else _] =>
             let E := fresh "E" in
             destruct (String.eqb function_name n) eqn:E;
             [apply String.eqb_eq in E; subst function_name;
              cbn [String.eqb Ascii.eqb Bool.eqb]|]
         end;
    try discriminate;
    unfold bind, lift; cbn [py_get];
    try (match goal with
         | |- context [truthy ?v] => destruct (truthy v)
         end; try discriminate);
    intros H; injection H as <-; reflexivity.
Qed.



End Dispatcher.

(** * Examples *)

(** ** The operations of the interpreter *)

Example lower_example : lower "Pikachu-GMAX" = "pikachu-gmax".
Proof. reflexivity. Qed.

Example strip_example : strip ("  {} " ++ String LF EmptyString) = "{}".
Proof. reflexivity. Qed.

Example str_of_int_examples :
  str_of_int 25 = "25" /\ str_of_int (-3) = "-3" /\ str_of_int 0 = "0".
Proof. repeat split; reflexivity. Qed.

Example chain_id_example :
  second_last (split SLASH "https://pokeapi.co/api/v2/evolution-chain/10/")
  = Ok "10".
Proof. reflexivity. Qed.

Example py_div10_examples :
  py_div10 (JInt 4) = Ok 0.4%float
  /\ py_div10 (JInt 60) = Ok 6%float
  /\ py_div10 (JFloat 2.5%float) = Ok 0.25%float
  /\ py_div10 (JStr "4") = Raise TypeError
  /\ py_div10 JNull = Raise TypeError.
Proof. repeat split; reflexivity. Qed.

Example float_of_int_examples :
  float_of_int (2 ^ 53 + 1) = Ok 9007199254740992%float
  /\ float_of_int (2 ^ 1024) = Raise OverflowError.
Proof. split; vm_compute; reflexivity. Qed.

Example extract_evolutions_example :
  let venusaur :=
    JDict [("species", JDict [("name", JStr "venusaur")]);
           ("evolves_to", JList [])] in
  let ivysaur :=
    JDict [("species", JDict [("name", JStr "ivysaur")]);
           ("evolves_to", JList [venusaur])] in
  let bulbasaur :=
    JDict [("species", JDict [("name", JStr "bulbasaur")]);
           ("evolves_to", JList [ivysaur])] in
  extract_evolutions (json_size bulbasaur) bulbasaur
  = Ok [JStr "bulbasaur"; JStr "ivysaur"; JStr "venusaur"].
Proof. reflexivity. Qed.

Example dict_set_examples :
  dict_set "a" 2 [("a", 1); ("b", 1)] = [("a", 2); ("b", 1)]
  /\ dict_set "c" 2 [("a", 1); ("b", 1)] = [("a", 1); ("b", 1); ("c", 2)].
Proof. split; reflexivity. Qed.

(** ** C1 *)

Lemma run_raises_when_clarification_request_fails_witness :
  @chat_completion llm_unreachable Clarify 0
  = ApiError (LibraryError "Connection error.")
  /\ @run demo_python net_demo llm_unreachable web_disabled 3
       "best bug-type team" PokeAPIClient.init
     = Some (Raise UnboundLocalError,
             mk_world (ResearchContext.init "best bug-type team")
               (PokeAPIClient.aexit (PokeAPIClient.aenter PokeAPIClient.init))
               [(Clarify, ResearchContext.init "best bug-type team")]).
Proof.
  split; [reflexivity|].
  apply (@run_raises_when_clarification_request_fails
           demo_python net_demo llm_unreachable web_disabled 3
           "best bug-type team" PokeAPIClient.init
           (LibraryError "Connection error.")).
  reflexivity.
Defined.

(** Another run that raises to its caller: a worker looks up the pokemon
    of a type, the dispatcher stores the [PokemonData] objects in the
    collected data, and building the analysis prompt with [json.dumps]
    raises [TypeError] outside any [try]. *)
Lemma run_raises_on_pokemon_objects :
  match @run demo_python net_demo llm_type_lookup web_disabled 3
          "best electric team" PokeAPIClient.init with
  | Some (r, w) =>
      r = Raise TypeError
      /\ map fst (requests w) = [Clarify; ToolCalls; Synthesis]
      /\ exists l, dict_get "pokemon_type_electric" (collected w)
                   = Some (Models l) /\ List.length l = 1
  | None => False
  end.
Proof. vm_compute. repeat split. eexists. split; reflexivity. Qed.

(** ** C2 *)

(** The bound is reached: when every analysis asks for further research,
    the run sends 3 analysis requests, built with the counters 0, 1
    and 2, and ends with the counter 2. *)
Lemma refinement_bound_reached :
  match @run demo_python net_demo llm_refining web_disabled 3
          "best bug-type team" PokeAPIClient.init with
  | Some (_, w) =>
      map refinement_count_of (analyse_requests w)
      = [Json (JInt 0); Json (JInt 1); Json (JInt 2)]
      /\ dict_get "refinement_count" (collected w) = Some (Json (JInt 2))
      /\ map fst (requests w)
         = [Clarify; ToolCalls; Analyse; Clarify; ToolCalls; Analyse;
            Clarify; ToolCalls; Analyse; Report]
  | None => False
  end.
Proof. vm_compute. repeat split. Qed.

(** ** C3 *)

(** C3 as stated fails: on a network that is down, [fetch_pokemon_ability]
    raises the error of the network library to its caller, it does not
    return a "not found" result. *)
Lemma fetch_pokemon_ability_raises :
  @call net_down demo_python (FetchPokemonAbility "static") PokeAPIClient.init
  = (Raise (LibraryError "Connection refused"), PokeAPIClient.init)
  /\ ~ (forall (op : adapter_operation) (c : PokeAPIClient.t),
          failed_request (@upstream net_down op) = true ->
          exists r c', @call net_down demo_python op c = (Ok r, c')
                       /\ is_not_found r = true).
Proof.
  split; [reflexivity|]. intros H.
  destruct (H (FetchPokemonAbility "static") PokeAPIClient.init eq_refl)
    as [r [c' [E _]]].
  discriminate E.
Qed.

Lemma adapter_failure_witness :
  failed_request (@upstream net_demo (Method (GetPokemonByName "MissingNo")))
  = true
  /\ exists msg,
       @call net_demo demo_python (Method (GetPokemonByName "MissingNo"))
         PokeAPIClient.init
       = (Ok (Pokemon None),
          PokeAPIClient.add_log LogWarning msg
            (PokeAPIClient.set_session SessionOpen PokeAPIClient.init)).
Proof.
  split; [reflexivity|].
  exact (@adapter_failure net_demo demo_python
           (Method (GetPokemonByName "MissingNo")) PokeAPIClient.init eq_refl).
Defined.

(** ** C4 *)



(** ** C5 *)


(** The batch of 3 calls whose 2nd call raises: the results of the 1st and
    of the 3rd call are in the collected data, and one failed step is
    recorded, for the 2nd call. *)
Lemma three_calls_second_raises :
  let w :=
    snd (@_execute_function_calls demo_python net_demo web_disabled
           (mk_message None (Some [first_call; second_call; third_call])) 0
           demo_world) in
  map fst (collected w) = ["all_types"; "training_research"]
  /\ filter (fun st => negb (ResearchStep.success st)) (ledger w)
     = [step_failed SYNTHESIS
          "Failed research subagent 1 in executing function fetch_all_pokemon"
          (LibraryError "Connection refused")].
Proof. vm_compute. split; reflexivity. Qed.

(** ** C6 *)


(** The worker count for some values of [num_subagents]. *)
Lemma clamp_num_subagents_examples :
  clamp_num_subagents (Json (JInt 0)) = 1
  /\ clamp_num_subagents (Json (JInt (-1))) = 1
  /\ clamp_num_subagents (Json (JFloat 2.5%float)) = 1
  /\ clamp_num_subagents (Json (JStr "3")) = 1
  /\ clamp_num_subagents (Json JNull) = 1
  /\ clamp_num_subagents (Json (JBool true)) = 1
  /\ clamp_num_subagents (Json (JInt 1)) = 1
  /\ clamp_num_subagents (Json (JInt 3)) = 3.
Proof. repeat split; reflexivity. Qed.

(** ** C7 *)

(** C7 as stated fails: when the report request raises, the report is the
    degraded one, and its source list is empty although the ledger has
    the sources A and B. *)
Lemma degraded_report_drops_sources :
  flat_map ResearchStep.sources (ledger sourced_world) = ["A"; "A"; "B"]
  /\ exists report,
       fst (@_generate_final_report demo_python llm_unreachable sourced_world)
       = Ok report
       /\ ResearchReport.sources report = []
       /\ count_occ string_dec (ResearchReport.sources report) "A" = 0.
Proof. split; [reflexivity|]. eexists. repeat split. Qed.

(** The ledger with the sources A, A, B when the report is generated: one
    A and one B. *)
Lemma report_sources_witness :
  exists report,
    fst (@_generate_final_report demo_python llm_text sourced_world)
    = Ok report
    /\ fst (@generate_report demo_python llm_text sourced_world) = Ok report
    /\ count_occ string_dec (ResearchReport.sources report) "A" = 1
    /\ count_occ string_dec (ResearchReport.sources report) "B" = 1
    /\ List.length (ResearchReport.sources report) = 2.
Proof.
  pose proof (@report_sources demo_python llm_text sourced_world) as H.
  cbv zeta in H.
  destruct (fst (@_generate_final_report demo_python llm_text sourced_world))
    as [report|e] eqn:E1; [|discriminate E1].
  destruct (fst (@generate_report demo_python llm_text sourced_world))
    as [report'|e] eqn:E2; [|discriminate E2].
  exists report. destruct H as (Hs & _ & _ & Hc).
  split; [reflexivity|]. split.
  - vm_compute in E1, E2. congruence.
  - split; [apply Hc; cbn; auto|]. split; [apply Hc; cbn; auto|].
    rewrite Hs. reflexivity.
Defined.

(** ** C8 *)

(** The raw height 4 and weight 60 of the document give 0.4 and 6.0;
    the name is put in lower case for the request. *)
Lemma name_lookup_example :
  match fst (@get_pokemon_by_name net_demo demo_python (JStr "Pikachu")
               PokeAPIClient.init) with
  | Ok (Some p) =>
      PokemonData.height p = 0.4%float /\ PokemonData.weight p = 6%float
      /\ PokemonData.name p = "pikachu"
  | _ => False
  end.
Proof. vm_compute. repeat split. Qed.

(** ** C9 *)

Lemma ledger_append_only_witness :
  @reachable demo_python net_demo llm_text web_disabled demo_world
  /\ (ledger_wf (ledger demo_world)
      /\ match @perform demo_python net_demo llm_text web_disabled
                 OpClarifyGoals demo_world with
         | Some (_, w') =>
             (exists added, ledger w' = (ledger demo_world ++ added)%list)
             /\ ledger_wf (ledger w')
         | None => True
         end).
Proof.
  split; [apply reachable_start|].
  apply (@ledger_append_only demo_python net_demo llm_text web_disabled
           demo_world OpClarifyGoals).
  apply reachable_start.
Defined.

(** The run in which every phase fails softly: its ledger has failed
    steps, each with its error message. *)
Lemma failed_steps_have_messages :
  match @run demo_python net_demo llm_text web_disabled 3
          "best bug-type team" PokeAPIClient.init with
  | Some (Ok report, _) =>
      map (fun st => (ResearchStep.success st, ResearchStep.error_message st))
          (ResearchReport.research_steps report)
      = [ (false, Some "JSONDecodeError"); (true, None);
          (false, Some "TypeError") ]
  | _ => False
  end.
Proof. vm_compute. reflexivity. Qed.

(** * Further properties *)

(** ** Strings *)

Lemma lower_ascii_idempotent c : lower_ascii (lower_ascii c) = lower_ascii c.
Proof. destruct c as [[] [] [] [] [] [] [] []]; reflexivity. Qed.

Lemma lower_idempotent s : lower (lower s) = lower s.
Proof.
  induction s as [|c t IH]; cbn; [reflexivity|].
  now rewrite lower_ascii_idempotent, IH.
Qed.

Lemma split_on_app sep a b :
  split sep (a ++ String sep b) = (split sep a ++ split sep b)%list.
Proof.
  unfold split. induction a as [|c t IH]; cbn.
  - destruct (split_on sep b) as [piece pieces]. now rewrite Ascii.eqb_refl.
  - destruct (split_on sep (t ++ String sep b)) as [piece pieces].
    destruct (split_on sep t) as [piece' pieces'].
    destruct (split_on sep b) as [piece'' pieces''].
    destruct (Ascii.eqb c sep); cbn in *; congruence.
Qed.

Lemma split_without_separator sep s :
  has_char sep s = false -> split sep s = [s].
Proof.
  unfold split. induction s as [|c t IH]; cbn; [reflexivity|].
  intros H. apply orb_false_iff in H. destruct H as [Hc Ht].
  specialize (IH Ht). destruct (split_on sep t) as [piece pieces].
  rewrite Hc. congruence.
Qed.

Lemma replace_char_removes old new s :
  Ascii.eqb new old = false -> has_char old (replace_char old new s) = false.
Proof.
  intros H. induction s as [|c t IH]; cbn; [reflexivity|].
  rewrite IH, orb_false_r.
  destruct (Ascii.eqb c old) eqn:E; [exact H | exact E].
Qed.

Lemma replace_char_keeps_absent old new c s :
  Ascii.eqb new c = false -> has_char c s = false ->
  has_char c (replace_char old new s) = false.
Proof.
  intros H. induction s as [|c' t IH]; cbn; [reflexivity|].
  intros Hs. apply orb_false_iff in Hs. destruct Hs as [Hc Ht].
  rewrite (IH Ht), orb_false_r.
  destruct (Ascii.eqb c' old); auto.
Qed.

(** ** Loops that build lists *)

Lemma rmap_length A B (f : A -> result B) l r :
  rmap f l = Ok r -> List.length r = List.length l.
Proof.
  revert r. induction l as [|a t IH]; cbn; intros r H.
  - now injection H as <-.
  - destruct (f a) as [b|e]; [|discriminate].
    destruct (rmap f t) as [bs|e]; [|discriminate].
    injection H as <-. cbn. now rewrite (IH bs).
Qed.

Lemma rmap_ext_in A B (f g : A -> result B) l :
  (forall x, In x l -> f x = g x) -> rmap f l = rmap g l.
Proof.
  induction l as [|a t IH]; cbn; intros H; [reflexivity|].
  rewrite (H a) by now left. rewrite IH; [reflexivity|].
  intros x Hx. apply H. now right.
Qed.

Lemma rmap_raise A B (f : A -> result B) l e :
  rmap f l = Raise e -> exists x, In x l /\ f x = Raise e.
Proof.
  induction l as [|a t IH]; cbn; intros H; [discriminate|].
  destruct (f a) as [b|e'] eqn:Ea.
  - destruct (rmap f t) as [bs|e'']; [discriminate|].
    injection H as ->. destruct (IH eq_refl) as [x [Hx Ex]].
    exists x. auto.
  - injection H as ->. exists a. auto.
Qed.

Lemma collect_length S A B (l : list A) (body : A -> M S (option B)) :
  forall s r s',
    collect l body s = (Ok r, s') -> List.length r <= List.length l.
Proof.
  induction l as [|a t IH]; cbn; intros s r s' H.
  - injection H as <- _. cbn. lia.
  - unfold bind, ret in H.
    destruct (body a s) as [[o|e] s1]; [|discriminate].
    destruct (collect t body s1) as [[rest|e] s2] eqn:E; [|discriminate].
    injection H as <- _. specialize (IH _ _ _ E).
    destruct o; cbn; lia.
Qed.

Lemma chars_string_firstn n s : List.length (chars (string_firstn n s)) <= n.
Proof.
  revert s. induction n as [|n IH]; intros [|c t]; cbn; try lia.
  specialize (IH t). lia.
Qed.

Lemma validated_ok A (o : option A) a : validated o = Ok a -> o = Some a.
Proof. destruct o; cbn; congruence. Qed.

(** A loop over [v[:n]] has at most [n] iterations. *)
Lemma py_slice_to_length n v first items :
  py_slice_to n v = Ok first -> py_iter first = Ok items ->
  List.length items <= n.
Proof.
  destruct v; unfold py_slice_to; intros Es; try discriminate;
    injection Es as <-; unfold py_iter; intros Ei; injection Ei as <-.
  - rewrite length_map. apply chars_string_firstn.
  - apply firstn_le_length.
Qed.

(** ** The size of a document bounds the traversal of a chain *)

Lemma json_size_pos v : 1 <= json_size v.
Proof. destruct v; cbn; lia. Qed.

Lemma json_size_dict_get k d x :
  dict_get k d = Some x -> json_size x < json_size (JDict d).
Proof.
  cbn [json_size]. induction d as [|[k' v] t IH]; cbn; [discriminate|].
  destruct (String.eqb k k'); intros H.
  - injection H as ->. lia.
  - specialize (IH H). lia.
Qed.

Lemma json_size_In x l : In x l -> json_size x < json_size (JList l).
Proof.
  cbn [json_size]. induction l as [|a t IH]; cbn; [tauto|].
  intros [->|H]; [lia|]. specialize (IH H). lia.
Qed.

Lemma json_size_py_iter v items x :
  py_iter v = Ok items -> In x items -> json_size x <= json_size v.
Proof.
  destruct v; cbn; intros H Hx; try discriminate; injection H as <-.
  - apply in_map_iff in Hx. destruct Hx as [c [<- _]]. cbn. lia.
  - apply json_size_In in Hx. cbn [json_size] in Hx. lia.
  - apply in_map_iff in Hx. destruct Hx as [c [<- _]]. cbn. lia.
Qed.

Lemma evolves_to_smaller chain_link evolves_to links x :
  py_get chain_link "evolves_to" (JList []) = Ok evolves_to ->
  py_iter evolves_to = Ok links -> In x links ->
  json_size x < json_size chain_link.
Proof.
  destruct chain_link; cbn [py_get]; try discriminate.
  intros H Hi Hx. injection H as H.
  destruct (dict_get "evolves_to" d) as [v|] eqn:E.
  - subst v. apply json_size_dict_get in E.
    pose proof (@json_size_py_iter _ _ _ Hi Hx) as Hle. lia.
  - subst evolves_to. cbn in Hi. injection Hi as <-. destruct Hx.
Qed.

Lemma extract_evolutions_fuel : forall fuel fuel' chain_link,
  json_size chain_link <= fuel -> json_size chain_link <= fuel' ->
  extract_evolutions fuel chain_link = extract_evolutions fuel' chain_link.
Proof.
  induction fuel as [|n IH]; intros [|m] v Hn Hm;
    try (pose proof (json_size_pos v); lia).
  cbn [extract_evolutions]. unfold rbind.
  destruct (py_getitem v "species") as [species|e]; [|reflexivity].
  destruct (py_getitem species "name") as [nm|e]; [|reflexivity].
  destruct (py_get v "evolves_to" (JList [])) as [evolves_to|e] eqn:Eg;
    [|reflexivity].
  destruct (py_iter evolves_to) as [links|e] eqn:Ei; [|reflexivity].
  rewrite (rmap_ext_in (extract_evolutions n) (extract_evolutions m));
    [reflexivity|].
  intros x Hx. pose proof (@evolves_to_smaller _ _ _ _ Eg Ei Hx).
  apply IH; lia.
Qed.

Lemma py_getitem_error v k e :
  py_getitem v k = Raise e -> e = TypeError \/ e = KeyError k.
Proof.
  destruct v; cbn; intros H; try (injection H as <-; auto); try discriminate.
  destruct (dict_get k d); [discriminate|]. injection H as <-. auto.
Qed.

Lemma extract_evolutions_terminates : forall fuel chain_link,
  json_size chain_link <= fuel ->
  extract_evolutions fuel chain_link <> Raise RecursionError.
Proof.
  induction fuel as [|n IH]; intros v Hn;
    [pose proof (json_size_pos v); lia|].
  cbn [extract_evolutions]. unfold rbind.
  destruct (py_getitem v "species") as [species|e] eqn:E1.
  2:{ apply py_getitem_error in E1. destruct E1; subst; discriminate. }
  destruct (py_getitem species "name") as [nm|e] eqn:E2.
  2:{ apply py_getitem_error in E2. destruct E2; subst; discriminate. }
  destruct (py_get v "evolves_to" (JList [])) as [evolves_to|e] eqn:Eg.
  2:{ destruct v; cbn in Eg; congruence. }
  destruct (py_iter evolves_to) as [links|e] eqn:Ei.
  2:{ destruct evolves_to; cbn in Ei; congruence. }
  destruct (rmap (extract_evolutions n) links) as [rest|e] eqn:Er;
    [discriminate|].
  destruct (@rmap_raise _ _ _ _ _ Er) as [x [Hx Ex]].
  pose proof (@evolves_to_smaller _ _ _ _ Eg Ei Hx) as Hlt.
  intros Heq. injection Heq as ->. apply (IH x); [lia | exact Ex].
Qed.

(** ** The data fetch adapter, continued *)

Section AdapterFurther.
Context {net : Network} {py : PythonLib}.

(** X1: the lookups ignore the case of their argument: the name is put in
    lower case before the request, so a name and its lower-case form give
    the same request, the same result and the same client. *)
Theorem lookups_ignore_case (name : string) (c : PokeAPIClient.t) :
  get_pokemon_by_name (JStr name) c = get_pokemon_by_name (JStr (lower name)) c
  /\ get_pokemon_by_type (JStr name) c
     = get_pokemon_by_type (JStr (lower name)) c
  /\ search_pokemon (JStr name) c = search_pokemon (JStr (lower name)) c
  /\ get_evolution_chain (JStr name) c
     = get_evolution_chain (JStr (lower name)) c
  /\ get_pokemon_description (JStr name) c
     = get_pokemon_description (JStr (lower name)) c
  /\ get_generation_info (JStr name) c
     = get_generation_info (JStr (lower name)) c
  /\ fetch_pokemon_ability (JStr name) = fetch_pokemon_ability (JStr (lower name)).
Proof.
  unfold get_pokemon_by_name, get_pokemon_by_type, search_pokemon,
    get_evolution_chain, get_pokemon_description, get_generation_info,
    fetch_pokemon_ability, bind, lift, py_lower, rbind.
  rewrite lower_idempotent. repeat split.
Qed.

(** X2: [get_pokemon_by_type] returns at most 50 records, however many
    members the type has upstream. *)
Theorem type_lookup_at_most_50 (pokemon_type : json) (c : PokeAPIClient.t)
  (l : list PokemonData.t) :
  fst (get_pokemon_by_type pokemon_type c) = Ok l -> List.length l <= 50.
Proof.
  unfold get_pokemon_by_type, bind, lift, ret.
  destruct (py_lower pokemon_type) as [lowered|e]; [|discriminate].
  destruct (_make_request ("type/" ++ lowered) c) as [[data|e] c1];
    [|discriminate].
  destruct (truthy data); cbn [negb].
  - unfold rbind.
    destruct (py_getitem data "pokemon") as [members|e]; [|discriminate].
    destruct (py_slice_to 50 members) as [first50|e] eqn:Es; [|discriminate].
    destruct (py_iter first50) as [items|e] eqn:Ei; [|discriminate].
    match goal with
    | |- fst (collect items ?body c1) = _ -> _ =>
        destruct (collect items body c1) as [[r|e] c2] eqn:Ec
    end; [|discriminate].
    cbn [fst]. intros H. injection H as <-.
    apply collect_length in Ec.
    assert (List.length items <= 50); [|lia].
    exact (py_slice_to_length _ _ Es Ei).
  - cbn. intros H. injection H as <-. cbn. lia.
Qed.

(** X3: the moves of a record are the validated names of at most 20
    moves: the first 20 of the document. *)
Theorem moves_at_most_20 (data : json) (p : PokemonData.t) :
  pokemon_of_json data = Ok p ->
  exists moves first20 items names,
    py_getitem data "moves" = Ok moves
    /\ py_slice_to 20 moves = Ok first20
    /\ py_iter first20 = Ok items
    /\ rmap (fun m => mv <~ py_getitem m "move" ; py_getitem mv "name")%result
            items = Ok names
    /\ List.length names <= 20
    /\ validate_str_list (JList names) = Some (PokemonData.moves p).
Proof.
  unfold pokemon_of_json. intros H.
  repeat match type of H with
         | rbind ?x _ = _ =>
             let E := fresh "E" in
             destruct x eqn:E; cbn [rbind] in H; try discriminate
         end.
  injection H as <-. cbn [PokemonData.moves].
  match goal with
  | Hm : rbind (py_getitem data "moves") _ = Ok ?n,
    Hv : validated (validate_str_list (JList ?n)) = Ok ?m |- _ =>
      revert Hm Hv; generalize n m; clear;
      intros names validated_moves Hmoves Hvalid
  end.
  unfold rbind in Hmoves.
  destruct (py_getitem data "moves") as [moves|]; [|discriminate].
  destruct (py_slice_to 20 moves) as [first20|] eqn:Es; [|discriminate].
  destruct (py_iter first20) as [items|] eqn:Ei; [|discriminate].
  exists moves, first20, items, names.
  repeat split; auto.
  - apply rmap_length in Hmoves. rewrite Hmoves.
    exact (py_slice_to_length _ _ Es Ei).
  - now apply validated_ok.
Qed.

End AdapterFurther.

(** ** Requests that succeed, and clients whose session is closed *)

Lemma py_getitem_truthy v k x : py_getitem v k = Ok x -> truthy v = true.
Proof.
  destruct v; cbn; try discriminate. destruct d; [discriminate|reflexivity].
Qed.

Lemma py_getitem_get v k x default :
  py_getitem v k = Ok x -> py_get v k default = Ok x.
Proof.
  destruct v; cbn; try discriminate.
  destruct (dict_get k d); congruence.
Qed.

(** The test [nm == "en"] of [first_english]. *)
Lemma language_is_english A (nm : json) (a b : A) :
  match nm with JStr "en" => a | _ => b end
  = if match nm with JStr s => String.eqb s "en" | _ => false end
    then a else b.
Proof.
  destruct nm as [| | | |s| |]; try reflexivity.
  destruct s as [|[b0 b1 b2 b3 b4 b5 b6 b7] s]; [reflexivity|].
  destruct b0; try reflexivity; destruct b1; try reflexivity;
    destruct b2; try reflexivity; destruct b3; try reflexivity;
    destruct b4; try reflexivity; destruct b5; try reflexivity;
    destruct b6; try reflexivity; destruct b7; try reflexivity.
  destruct s as [|[c0 c1 c2 c3 c4 c5 c6 c7] s]; [reflexivity|].
  destruct c0; try reflexivity; destruct c1; try reflexivity;
    destruct c2; try reflexivity; destruct c3; try reflexivity;
    destruct c4; try reflexivity; destruct c5; try reflexivity;
    destruct c6; try reflexivity; destruct c7; try reflexivity.
  destruct s; reflexivity.
Qed.

Lemma first_english_one_line entries v :
  first_english entries = Ok v ->
  v = JNull
  \/ exists s, v = JStr s /\ has_char LF s = false /\ has_char FF s = false.
Proof.
  induction entries as [|entry rest IH]; cbn [first_english]; intros H.
  - left. congruence.
  - unfold rbind in H.
    destruct (py_getitem entry "language") as [language|]; [|discriminate].
    destruct (py_getitem language "name") as [nm|]; [|discriminate].
    rewrite language_is_english in H.
    destruct (match nm with JStr s => String.eqb s "en" | _ => false end);
      [|auto].
    destruct (py_getitem entry "flavor_text") as [text|]; [|discriminate].
    destruct text; try discriminate. injection H as <-.
    right. eexists. split; [reflexivity|]. split.
    + apply replace_char_keeps_absent; [reflexivity|].
      apply replace_char_removes. reflexivity.
    + apply replace_char_removes. reflexivity.
Qed.

Section AdapterRequests.
Context {net : Network} {py : PythonLib}.

Lemma make_request_ok endpoint data c :
  PokeAPIClient.session c <> SessionClosed ->
  session_get (POKEAPI_BASE_URL ++ "/" ++ endpoint) = HttpResponse 200 (Ok data) ->
  _make_request endpoint c = (Ok data, with_session c).
Proof.
  unfold _make_request, with_session. intros Hs Hget.
  destruct c as [sess lg].
  destruct sess; cbn [PokeAPIClient.session PokeAPIClient.set_session] in *;
    try congruence; now rewrite Hget.
Qed.

Lemma make_request_closed endpoint c :
  PokeAPIClient.session c = SessionClosed ->
  _make_request endpoint c
  = (Ok JNull,
     PokeAPIClient.add_log LogError
       ("Error making PokeAPI request to " ++ POKEAPI_BASE_URL ++ "/"
        ++ endpoint ++ ": Session is closed") c).
Proof.
  unfold _make_request. intros Hs. destruct c as [sess lg].
  cbn [PokeAPIClient.session] in *. subst sess. reflexivity.
Qed.

Lemma with_session_open c :
  PokeAPIClient.session c <> SessionClosed ->
  PokeAPIClient.session (with_session c) = SessionOpen.
Proof.
  unfold with_session. destruct c as [[] lg]; cbn; congruence.
Qed.

Lemma with_session_again c : with_session (with_session c) = with_session c.
Proof. unfold with_session. destruct c as [[] lg]; reflexivity. Qed.

Lemma client_extends_refl c : client_extends c c.
Proof. split; [exists []; now rewrite app_nil_r | now left]. Qed.

Lemma client_extends_trans a b c :
  client_extends a b -> client_extends b c -> client_extends a c.
Proof.
  intros [[l1 E1] S1] [[l2 E2] S2]. split.
  - exists (l1 ++ l2)%list. now rewrite E2, E1, app_assoc.
  - destruct S1 as [S1|[S1 S1']], S2 as [S2|[S2 S2']].
    + left. congruence.
    + right. split; congruence.
    + right. split; congruence.
    + congruence.
Qed.

Lemma client_extends_make_request endpoint :
  preserves client_extends (_make_request endpoint).
Proof.
  intros [sess lg]. unfold _make_request, client_extends.
  destruct sess; cbn [PokeAPIClient.session PokeAPIClient.set_session];
    try (cbn; split; [eexists; reflexivity | auto]);
    destruct (session_get _) as [e|status [data|e]];
    try destruct (status =? 200)%Z; cbn;
    (split; [first [eexists; reflexivity | exists []; now rewrite app_nil_r]
            | auto]).
Qed.

(** One step of the proof that a method of the client preserves
    [client_extends]. *)
Ltac client_step :=
  match goal with
  | |- preserves _ (bind _ _) =>
      apply preserves_bind; [exact client_extends_trans | | intros]
  | |- preserves _ (ret _) => apply preserves_ret, client_extends_refl
  | |- preserves _ (lift _) => apply preserves_lift, client_extends_refl
  | |- preserves _ (_make_request _) => apply client_extends_make_request
  | |- preserves _ (collect _ _) =>
      apply preserves_collect;
      [exact client_extends_refl | exact client_extends_trans | intros]
  | |- preserves _ (if ?b then _ else _) => destruct b
  | |- preserves _ (match ?x with _ => _ end) => destruct x
  end.

Lemma client_extends_get_pokemon_by_name name :
  preserves client_extends (get_pokemon_by_name name).
Proof. unfold get_pokemon_by_name. repeat client_step. Qed.

Lemma client_extends_get_pokemon_by_type pokemon_type :
  preserves client_extends (get_pokemon_by_type pokemon_type).
Proof.
  unfold get_pokemon_by_type.
  repeat first [apply client_extends_get_pokemon_by_name | client_step].
Qed.

Lemma client_extends_search_pokemon query :
  preserves client_extends (search_pokemon query).
Proof.
  unfold search_pokemon.
  repeat first [apply client_extends_get_pokemon_by_name | client_step].
Qed.

Lemma client_extends_get_evolution_chain pokemon_name :
  preserves client_extends (get_evolution_chain pokemon_name).
Proof. unfold get_evolution_chain. repeat client_step. Qed.

Lemma client_extends_get_pokemon_description pokemon_name :
  preserves client_extends (get_pokemon_description pokemon_name).
Proof. unfold get_pokemon_description. repeat client_step. Qed.

Lemma client_extends_get_all_types : preserves client_extends get_all_types.
Proof. unfold get_all_types. repeat client_step. Qed.

Lemma client_extends_get_generation_info generation :
  preserves client_extends (get_generation_info generation).
Proof. unfold get_generation_info. repeat client_step. Qed.

(** X4: [extract_evolutions] lists the name of the species of a link, then
    the names of each of its evolutions in turn, in the order of
    [evolves_to] (depth first); the traversal ends, whatever the
    document. *)
Theorem extract_evolutions_preorder (chain_link species nm : json)
  (links : list json) (fuel : nat) :
  py_getitem chain_link "species" = Ok species ->
  py_getitem species "name" = Ok nm ->
  py_get chain_link "evolves_to" (JList []) = Ok (JList links) ->
  json_size chain_link <= fuel ->
  extract_evolutions fuel chain_link
  = (rest <~ rmap (fun link => extract_evolutions (json_size link) link) links ;
     Ok (nm :: List.concat rest))%result
  /\ extract_evolutions fuel chain_link <> Raise RecursionError.
Proof.
  intros Hs Hn He Hf. split; [|now apply extract_evolutions_terminates].
  destruct fuel as [|n]; [pose proof (json_size_pos chain_link); lia|].
  cbn [extract_evolutions]. rewrite Hs. cbn [rbind]. rewrite Hn, He.
  cbn [rbind py_iter].
  rewrite (rmap_ext_in (extract_evolutions n)
             (fun link => extract_evolutions (json_size link) link));
    [reflexivity|].
  intros x Hx.
  pose proof (@evolves_to_smaller _ _ _ _ He eq_refl Hx) as Hlt.
  apply extract_evolutions_fuel; lia.
Qed.

(** X5: [get_evolution_chain] follows the URL of the species document: the
    second request goes to the chain whose id is the next-to-last segment
    of the URL, and the result is the traversal of the chain served
    there.  Both requests succeed without a log record. *)
Theorem evolution_chain_follows_url (name pre id : string)
  (species ec chain_data chain : json) (c : PokeAPIClient.t) :
  PokeAPIClient.session c <> SessionClosed ->
  session_get (POKEAPI_BASE_URL ++ "/pokemon-species/" ++ lower name)
  = HttpResponse 200 (Ok species) ->
  py_getitem species "evolution_chain" = Ok ec ->
  py_getitem ec "url" = Ok (JStr (pre ++ "/" ++ id ++ "/")) ->
  has_char SLASH id = false ->
  session_get (POKEAPI_BASE_URL ++ "/evolution-chain/" ++ id)
  = HttpResponse 200 (Ok chain_data) ->
  py_getitem chain_data "chain" = Ok chain ->
  get_evolution_chain (JStr name) c
  = (extract_evolutions (json_size chain) chain, with_session c).
Proof.
  intros Hc Hspecies Hec Hurl Hid Hchain Hroot.
  unfold get_evolution_chain, bind, lift, ret. cbn [py_lower].
  rewrite (make_request_ok ("pokemon-species/" ++ lower name) c Hc Hspecies).
  rewrite (py_getitem_truthy _ _ Hec). cbn [negb].
  rewrite (py_getitem_get _ _ JNull Hec).
  rewrite (py_getitem_truthy _ _ Hurl). cbn [negb].
  rewrite Hec. cbn [rbind]. rewrite Hurl.
  change (pre ++ "/" ++ id ++ "/")
    with (pre ++ String SLASH (id ++ String SLASH "")).
  rewrite split_on_app, split_on_app, (split_without_separator _ _ Hid).
  unfold second_last. rewrite !rev_app_distr. cbn [rev app split split_on].
  assert (Hopen : PokeAPIClient.session (with_session c) <> SessionClosed)
    by (rewrite with_session_open by exact Hc; discriminate).
  rewrite (make_request_ok ("evolution-chain/" ++ id) _ Hopen Hchain).
  rewrite (py_getitem_truthy _ _ Hroot). cbn [negb].
  rewrite Hroot, with_session_again. reflexivity.
Qed.

(** X6: [get_pokemon_description] returns [None] or a text on one line:
    the line feeds and form feeds of the upstream text are replaced. *)
Theorem description_is_one_line (pokemon_name : json) (c : PokeAPIClient.t) :
  match fst (get_pokemon_description pokemon_name c) with
  | Ok JNull => True
  | Ok (JStr s) => has_char LF s = false /\ has_char FF s = false
  | Ok _ => False
  | Raise _ => True
  end.
Proof.
  unfold get_pokemon_description, bind, lift, ret.
  destruct (py_lower pokemon_name) as [lowered|e]; [|exact I].
  destruct (_make_request ("pokemon-species/" ++ lowered) c)
    as [[species_data|e] c1]; [|exact I].
  destruct (truthy species_data); cbn [negb fst]; [|exact I].
  destruct (py_get species_data "flavor_text_entries" JNull) as [fte|e];
    [|exact I].
  destruct (truthy fte); cbn [negb fst]; [|exact I].
  unfold rbind.
  destruct (py_getitem species_data "flavor_text_entries") as [l|e];
    [|exact I].
  destruct (py_iter l) as [entries|e]; [|exact I].
  destruct (first_english entries) as [v|e] eqn:E; [|exact I].
  destruct (first_english_one_line _ E) as [->|[s [-> H]]]; auto.
Qed.

(** X7: no method of the client closes its session or removes a record
    from its log: a call adds records to the log, and opens a session when
    there was none. *)
Theorem methods_keep_the_session (m : client_method) (c : PokeAPIClient.t) :
  client_extends c (snd (call_method m c)).
Proof.
  revert c. change (preserves client_extends (call_method m)).
  destruct m; cbn [call_method]; unfold get_pokemon_by_id;
    repeat first
      [ apply client_extends_get_pokemon_by_name
      | apply client_extends_get_pokemon_by_type
      | apply client_extends_search_pokemon
      | apply client_extends_get_evolution_chain
      | apply client_extends_get_pokemon_description
      | apply client_extends_get_all_types
      | apply client_extends_get_generation_info
      | client_step ].
Qed.

(** X8: on a client whose session is closed, every method returns its
    "not found" result and logs one error, whatever the network would
    answer. *)
Theorem closed_session_finds_nothing (m : client_method)
  (c : PokeAPIClient.t) :
  PokeAPIClient.session c = SessionClosed ->
  exists msg,
    call_method m c
    = (Ok (not_found m), PokeAPIClient.add_log LogError msg c).
Proof.
  intros Hc.
  pose proof (fun endpoint => make_request_closed endpoint c Hc) as E.
  destruct m; cbn [call_method not_found];
    unfold get_pokemon_by_id, get_pokemon_by_name, get_pokemon_by_type,
      search_pokemon, get_evolution_chain, get_pokemon_description,
      get_all_types, get_generation_info, bind, lift, py_lower, py_str;
    rewrite E; eexists; reflexivity.
Qed.

End AdapterRequests.

(** ** The dispatcher, continued *)

Section DispatcherFurther.
Context {py : PythonLib} {net : Network} {web : WebSearcher}.

(** X9: a tool call whose function the catalogue does not offer is
    ignored when its arguments are JSON: nothing is stored, no step is
    recorded, the client is not used. *)
Theorem uncatalogued_call_is_ignored (i : nat) (function_call : tool_call)
  (function_args : json) (w : world) :
  offered (function_name function_call) = false ->
  json_loads (function_args_raw function_call) = Ok function_args ->
  execute_function_call i function_call w = (Ok tt, w).
Proof.
  intros Hoff Hargs.
  unfold execute_function_call, decode_and_dispatch, try_except, bind, lift.
  rewrite Hargs. unfold offered in Hoff.
  cbn [existsb POKEAPI_FUNCTION_DEFINITIONS fd_name] in Hoff.
  repeat (apply orb_false_iff in Hoff;
          let E := fresh "E" in destruct Hoff as [E Hoff]).
  unfold dispatch.
  repeat match goal with
         | E : (_ =? _) = false |- _ => rewrite E; clear E
         end.
  reflexivity.
Qed.

(** X10: a call of a catalogue function with one required parameter,
    other than [_research_unique_pokemon], is ignored when the argument
    object lacks the parameter or gives it a false value ([null], the
    empty string, 0). *)
Theorem call_without_argument_is_ignored (fd : function_definition)
  (k : string) (d : list (string * json)) (w : world) :
  In fd POKEAPI_FUNCTION_DEFINITIONS ->
  fd_required fd = [k] ->
  fd_name fd <> "_research_unique_pokemon" ->
  truthy (dict_get_default k JNull d) = false ->
  dispatch (fd_name fd) (JDict d) w = (Ok tt, w).
Proof.
  intros Hin Hreq Hname Harg. unfold dict_get_default in Harg.
  cbn [In POKEAPI_FUNCTION_DEFINITIONS] in Hin.
  repeat (destruct Hin as [<-|Hin]);
    try destruct Hin; cbn [fd_required fd_name] in *;
    try discriminate; try congruence;
    injection Hreq as <-;
    unfold dispatch, bind, lift, ret; cbn [String.eqb Ascii.eqb Bool.eqb py_get];
    cbn; rewrite Harg; reflexivity.
Qed.

Lemma truthy_nonempty (s : string) : s <> "" -> truthy (JStr s) = true.
Proof.
  intros H. cbn. destruct (String.eqb s "") eqn:E; [|reflexivity].
  apply String.eqb_eq in E. contradiction.
Qed.

(** X11: a lookup by name of a pokemon that is not found fails the tool
    call: the adapter returns [None], [None.model_dump()] raises, and the
    dispatcher records one failed step with the message of
    [AttributeError]; nothing is stored. *)
Theorem missing_pokemon_fails_the_call (i : nat) (function_call : tool_call)
  (d : list (string * json)) (name : string) (w : world) :
  function_name function_call = "get_pokemon_by_name" ->
  json_loads (function_args_raw function_call) = Ok (JDict d) ->
  dict_get "name" d = Some (JStr name) ->
  name <> "" ->
  failed_request (session_get (POKEAPI_BASE_URL ++ "/pokemon/" ++ lower name))
  = true ->
  exists msg,
    execute_function_call i function_call w
    = (Ok tt,
       with_step
         (step_failed SYNTHESIS
            ("Failed research subagent " ++ str_succ i
             ++ " in executing function get_pokemon_by_name")
            AttributeError)
         (with_client
            (PokeAPIClient.add_log
               (failure_level (pokeapi_client w)
                  (session_get
                     (POKEAPI_BASE_URL ++ "/pokemon/" ++ lower name)))
               msg (with_session (pokeapi_client w)))
            w)).
Proof.
  intros Hname Hargs Hd Hne Hfail.
  destruct (make_request_failed ("pokemon/" ++ lower name) (pokeapi_client w)
              Hfail) as [msg E].
  exists msg.
  unfold execute_function_call, decode_and_dispatch, try_except, bind, lift.
  rewrite Hargs, Hname. unfold dispatch. cbn [String.eqb Ascii.eqb Bool.eqb].
  cbn [py_get]. rewrite Hd. unfold bind, lift.
  rewrite (truthy_nonempty Hne).
  unfold client_call, get_pokemon_by_name, bind, lift. cbn [py_lower].
  rewrite E. reflexivity.
Qed.

(** X12: the result of a lookup by name that finds a record is stored
    under the key made of [pokemon_] and the name as the call gave it (not
    in lower case); the other keys and the ledger are untouched. *)
Theorem lookup_result_is_stored (i : nat) (function_call : tool_call)
  (d : list (string * json)) (name : string) (p : PokemonData.t) (w : world) :
  function_name function_call = "get_pokemon_by_name" ->
  json_loads (function_args_raw function_call) = Ok (JDict d) ->
  dict_get "name" d = Some (JStr name) ->
  name <> "" ->
  fst (get_pokemon_by_name (JStr name) (pokeapi_client w)) = Ok (Some p) ->
  let w' := snd (execute_function_call i function_call w) in
  fst (execute_function_call i function_call w) = Ok tt
  /\ dict_get ("pokemon_" ++ name) (collected w')
     = Some (Json (PokemonData.model_dump p))
  /\ (forall k, k <> "pokemon_" ++ name ->
                dict_get k (collected w') = dict_get k (collected w))
  /\ ledger w' = ledger w.
Proof.
  intros Hname Hargs Hd Hne Hfound.
  unfold execute_function_call, decode_and_dispatch, try_except, bind, lift.
  rewrite Hargs, Hname. unfold dispatch. cbn [String.eqb Ascii.eqb Bool.eqb].
  cbn [py_get]. rewrite Hd. unfold bind, lift.
  rewrite (truthy_nonempty Hne). unfold client_call.
  destruct (get_pokemon_by_name (JStr name) (pokeapi_client w)) as [r c].
  cbn [fst] in Hfound. subst r. cbn [model_dump_or_raise ret py_str].
  unfold set_collected_data, modify, with_context, collected, ledger.
  cbn [fst snd context ResearchContext.collected_data
       ResearchContext.research_steps].
  split; [reflexivity|]. split; [apply dict_get_set_same|].
  split; [|reflexivity].
  intros k Hk. apply dict_get_set_other.
  apply String.eqb_neq. congruence.
Qed.

(** X13: the [fetch_all_pokemon] tool stores the keys of the response
    object, not the listed pokemon: the loop [p for p in pokemon_list]
    runs over a dict.  The limit and the offset default to 100 and 0, and
    the key under which the list is stored is made of the offset and the
    limit. *)
Theorem fetch_all_pokemon_stores_keys (d : list (string * json))
  (status : Z) (response : list (string * json)) (w : world) :
  let limit := dict_get_default "limit" (JInt 100) d in
  let offset := dict_get_default "offset" (JInt 0) d in
  requests_get (POKEAPI_BASE_URL ++ "/pokemon")
    [("limit", limit); ("offset", offset)]
  = HttpResponse status (Ok (JDict response)) ->
  andb (400 <=? status)%Z (status <? 600)%Z = false ->
  dispatch "fetch_all_pokemon" (JDict d) w
  = (Ok tt,
     with_data ("all_pokemon_" ++ py_str offset ++ "_" ++ py_str limit)
       (Json (JList (map JStr (dict_keys response)))) w).
Proof.
  cbv zeta. unfold dict_get_default. intros Hget Hstatus.
  unfold dispatch. cbn [String.eqb Ascii.eqb Bool.eqb].
  unfold bind, lift. cbn [py_get].
  unfold fetch_all_pokemon. rewrite Hget. unfold raise_for_status_json.
  rewrite Hstatus. reflexivity.
Qed.

Lemma collect_Forall S A B (P : B -> Prop) (body : A -> M S (option B)) :
  forall (l : list A),
    (forall a s b s', In a l -> body a s = (Ok (Some b), s') -> P b) ->
    forall s r s', collect l body s = (Ok r, s') -> Forall P r.
Proof.
  induction l as [|a t IH]; cbn [collect]; intros Hbody s r s' H.
  - injection H as <- _. constructor.
  - unfold bind, ret in H.
    destruct (body a s) as [[o|e] s1] eqn:Ea; [|discriminate].
    destruct (collect t body s1) as [[rest|e] s2] eqn:E; [|discriminate].
    injection H as <- _.
    assert (Hrest : Forall P rest).
    { eapply IH; [|exact E]. intros a' s0 b s0' Hin. apply Hbody. now right. }
    destruct o as [b|]; [|exact Hrest].
    constructor; [|exact Hrest]. eapply Hbody; [now left | exact Ea].
Qed.

(** X14: [_research_pokemon_api] never raises.  When the pokemon is not
    found it changes nothing; when the lookup raises it records one failed
    step; when the pokemon is found it records one failed step, or stores
    the dump of the record (the record of the lookup with its description
    and evolution chain) and records one successful step with this dump
    and with the source URL made of the name as given. *)
Theorem research_pokemon_api_outcome (pokemon_name : json) (w : world) :
  let w' := snd (_research_pokemon_api pokemon_name w) in
  let failed e :=
    step_failed POKEAPI_QUERY
      ("Failed to retrieve data for " ++ py_str pokemon_name) e in
  fst (_research_pokemon_api pokemon_name w) = Ok tt
  /\ match fst (get_pokemon_by_name pokemon_name (pokeapi_client w)) with
     | Ok None => context w' = context w
     | Raise e => context w' = context (with_step (failed e) w)
     | Ok (Some p) =>
         (exists e, context w' = context (with_step (failed e) w))
         \/ (exists p',
               PokemonData.id p' = PokemonData.id p
               /\ PokemonData.name p' = PokemonData.name p
               /\ context w'
                  = context
                      (with_step
                         (step_done POKEAPI_QUERY
                            ("Retrieved comprehensive data for "
                             ++ py_str pokemon_name ++ " from PokeAPI")
                            (Some [("pokemon_data",
                                    Json (PokemonData.model_dump p'))])
                            ["https://pokeapi.co/api/v2/pokemon/"
                             ++ py_str pokemon_name])
                         (with_data ("pokemon_" ++ py_str pokemon_name)
                            (Json (PokemonData.model_dump p')) w)))
     end.
Proof.
  cbv zeta. unfold _research_pokemon_api, try_except, bind, client_call.
  destruct (get_pokemon_by_name pokemon_name (pokeapi_client w))
    as [[[p|]|e] c1]; cbn [fst snd pokeapi_client context requests].
  2:{ split; reflexivity. }
  2:{ split; reflexivity. }
  destruct (get_pokemon_description pokemon_name c1) as [[description|e] c2];
    cbn [fst snd pokeapi_client context requests].
  2:{ split; [reflexivity|]. left. exists e. reflexivity. }
  destruct (get_evolution_chain pokemon_name c2) as [[evolution_chain|e] c3];
    cbn [fst snd pokeapi_client context requests].
  2:{ split; [reflexivity|]. left. exists e. reflexivity. }
  split; [reflexivity|]. right.
  eexists. split; [|split; [|reflexivity]].
  - destruct description, evolution_chain; try destruct (truthy _);
      reflexivity.
  - destruct description, evolution_chain; try destruct (truthy _);
      reflexivity.
Qed.

(** X15: [_research_training_info] and [_research_unique_pokemon] never
    raise and never record a failed step: a failure leaves the context as
    it was.  Otherwise they store at most 6 entries and record one
    successful step; each entry of [_research_unique_pokemon] is for one
    of its criteria and lists at most 10 pokemon. *)
Theorem background_research_is_silent (w : world) :
  (let w' := snd (_research_training_info w) in
   fst (_research_training_info w) = Ok tt
   /\ (context w' = context w
       \/ exists training_data,
            List.length training_data <= 6
            /\ context w'
               = context
                   (with_step
                      (step_done ANALYSIS
                         "Researched and analysed training information for early-game Pokemon"
                         (Some (pydict_of_json training_data)) [])
                      (with_data "training_research"
                         (Json (JDict training_data)) w))))
  /\ (let w' := snd (_research_unique_pokemon w) in
      fst (_research_unique_pokemon w) = Ok tt
      /\ (context w' = context w
          \/ exists unique_pokemon,
               List.length unique_pokemon <= 6
               /\ Forall (fun kv =>
                            In (fst kv) unique_criteria
                            /\ exists l, snd kv = JList l
                                         /\ List.length l <= 10)
                         unique_pokemon
               /\ context w'
                  = context
                      (with_step
                         (step_done ANALYSIS
                            "Researched and analysed unique Pokemon matching the query criteria"
                            (Some (pydict_of_json unique_pokemon)) [])
                         (with_data "unique_pokemon"
                            (Json (JDict unique_pokemon)) w)))).
Proof.
  cbv zeta. split.
  - unfold _research_training_info, try_except, bind, client_call.
    match goal with
    | |- context [collect early_pokemon ?body (pokeapi_client w)] =>
        destruct (collect early_pokemon body (pokeapi_client w))
          as [[training_data|e] c1] eqn:E
    end; cbn [fst snd]; (split; [reflexivity|]).
    + right. exists training_data. split; [|reflexivity].
      apply collect_length in E. exact E.
    + left. reflexivity.
  - unfold _research_unique_pokemon, try_except.
    rewrite bind_unfold.
    match goal with
    | |- context [collect unique_criteria ?body w] =>
        assert (Hctx : preserves same_context (collect unique_criteria body))
    end.
    { apply preserves_collect;
        [exact same_context_refl | exact same_context_trans | intros criteria].
      repeat first
        [ apply preserves_bind; [exact same_context_trans | | intros]
        | apply preserves_ret, same_context_refl
        | apply preserves_lift, same_context_refl
        | apply same_context_client_call
        | intro; apply same_context_refl
        | match goal with
          | |- preserves _ (if ?b then _ else _) => destruct b
          end ]. }
    specialize (Hctx w).
    match goal with
    | |- context [collect unique_criteria ?body w] =>
        destruct (collect unique_criteria body w)
          as [[unique_pokemon|e] w1] eqn:E
    end; cbn [fst snd] in *; destruct Hctx as [Hctx _].
    2:{ split; [reflexivity | left; exact Hctx]. }
    split; [reflexivity|]. right. exists unique_pokemon.
    split; [exact (collect_length _ _ _ E)|]. split.
    + eapply collect_Forall; [|exact E].
      intros criteria s b s' Hin.
      unfold bind, read, gets, lift, ret, client_call.
      destruct (py_lower _); [|discriminate].
      destruct (contains criteria _); [|discriminate].
      destruct (search_pokemon (JStr criteria) _) as [[results|e] c];
        [|discriminate].
      intros Hb.
      assert (Hbeq : b = (criteria,
                          JList (map PokemonData.model_dump
                                   (firstn 10 results)))) by congruence.
      subst b. cbn [fst snd].
      split; [exact Hin|]. eexists. split; [reflexivity|].
      rewrite length_map. apply firstn_le_length.
    + unfold with_step, with_data, bind, set_collected_data, append_step,
        modify, with_context. cbn [fst snd context]. now rewrite Hctx.
Qed.

End DispatcherFurther.

(** ** The session of the client during a run *)

Lemma client_kept_refl w : client_kept w w.
Proof. apply client_extends_refl. Qed.

Lemma client_kept_trans a b c :
  client_kept a b -> client_kept b c -> client_kept a c.
Proof. apply client_extends_trans. Qed.

Lemma client_kept_with_context f : preserves client_kept (modify (with_context f)).
Proof. intros w. apply client_extends_refl. Qed.

Lemma client_kept_client_call `{Network} `{PythonLib} A
  (m : M PokeAPIClient.t A) :
  preserves client_extends m -> preserves client_kept (client_call m).
Proof.
  intros Hm w. unfold client_call, client_kept. specialize (Hm (pokeapi_client w)).
  now destruct (m (pokeapi_client w)).
Qed.

Lemma client_kept_create `{LanguageModel} kind :
  preserves client_kept (create kind).
Proof.
  intros w. unfold create. destruct (chat_completion kind _);
    apply client_extends_refl.
Qed.

(** One step of the proof that a method of the client preserves
    [client_extends], and one step of the proof that a command of the
    agent preserves [client_kept]. *)
Ltac adapter_step :=
  match goal with
  | |- preserves client_extends (bind _ _) =>
      apply preserves_bind; [exact client_extends_trans | | intros]
  | |- preserves client_extends (ret _) =>
      apply preserves_ret, client_extends_refl
  | |- preserves client_extends (lift _) =>
      apply preserves_lift, client_extends_refl
  | |- preserves client_extends (get_pokemon_by_name _) =>
      apply client_extends_get_pokemon_by_name
  | |- preserves client_extends (get_pokemon_by_id _) =>
      apply client_extends_get_pokemon_by_name
  | |- preserves client_extends (get_pokemon_by_type _) =>
      apply client_extends_get_pokemon_by_type
  | |- preserves client_extends (search_pokemon _) =>
      apply client_extends_search_pokemon
  | |- preserves client_extends (get_evolution_chain _) =>
      apply client_extends_get_evolution_chain
  | |- preserves client_extends (get_pokemon_description _) =>
      apply client_extends_get_pokemon_description
  | |- preserves client_extends get_all_types =>
      apply client_extends_get_all_types
  | |- preserves client_extends (get_generation_info _) =>
      apply client_extends_get_generation_info
  | |- preserves client_extends (collect _ _) =>
      apply preserves_collect;
      [exact client_extends_refl | exact client_extends_trans | intros]
  | |- preserves client_extends (match ?x with _ => _ end) => destruct x
  end.

Ltac kept_step :=
  match goal with
  | |- preserves client_kept (bind _ _) =>
      apply preserves_bind; [exact client_kept_trans | | intros]
  | |- preserves client_kept (try_except _ _) =>
      apply preserves_try_except; [exact client_kept_trans | | intros]
  | |- preserves client_kept (ret _) => apply preserves_ret, client_kept_refl
  | |- preserves client_kept (raise _) =>
      apply preserves_raise, client_kept_refl
  | |- preserves client_kept (lift _) => apply preserves_lift, client_kept_refl
  | |- preserves client_kept (read _) => apply preserves_gets, client_kept_refl
  | |- preserves client_kept (client_call _) =>
      apply client_kept_client_call; repeat adapter_step
  | |- preserves client_kept (set_collected_data _ _) =>
      apply client_kept_with_context
  | |- preserves client_kept (set_original_query _) =>
      apply client_kept_with_context
  | |- preserves client_kept (set_clarified_goals _) =>
      apply client_kept_with_context
  | |- preserves client_kept (append_step _) => apply client_kept_with_context
  | |- preserves client_kept (create _) => apply client_kept_create
  | |- preserves client_kept (content_or_raise ?r _) =>
      unfold content_or_raise; destruct (content r)
  | |- preserves client_kept (model_dump_or_raise ?o) =>
      destruct o; cbn [model_dump_or_raise]
  | |- preserves client_kept (for_each _ _) =>
      apply preserves_for_each;
      [exact client_kept_refl | exact client_kept_trans | intros]
  | |- preserves client_kept (collect _ _) =>
      apply preserves_collect;
      [exact client_kept_refl | exact client_kept_trans | intros]
  | |- preserves client_kept (if ?b then _ else _) => destruct b
  | |- preserves client_kept (match ?x with _ => _ end) => destruct x
  end.

Section SessionOfARun.
Context {py : PythonLib} {net : Network} {llm : LanguageModel}
        {web : WebSearcher}.

Lemma client_kept_dispatch function_name function_args :
  preserves client_kept (dispatch function_name function_args).
Proof.
  unfold dispatch, _research_pokemon_api, _research_pokemon_web,
    _research_training_info, _research_unique_pokemon.
  repeat kept_step.
Qed.

Lemma client_kept_execute_function_calls response i :
  preserves client_kept (_execute_function_calls response i).
Proof.
  unfold _execute_function_calls, execute_function_call, decode_and_dispatch.
  repeat first [apply client_kept_dispatch | kept_step].
Qed.

Lemma client_kept_conducting_research :
  preserves client_kept _conducting_research.
Proof.
  unfold _conducting_research, research_subagent.
  repeat first [apply client_kept_execute_function_calls | kept_step].
Qed.

Lemma client_kept_clarify_goals : preserves client_kept _clarify_goals.
Proof.
  unfold _clarify_goals.
  apply preserves_try_bind_except.
  - exact client_kept_trans.
  - apply client_kept_create.
  - intros response. repeat kept_step.
  - intros o e. unfold clarify_except. repeat kept_step.
Qed.

Lemma client_kept_generate_final_report :
  preserves client_kept _generate_final_report.
Proof.
  unfold _generate_final_report, generate_report, error_report.
  repeat kept_step.
Qed.

Lemma client_kept_analyse_findings fuel :
  fpreserves client_kept (_analyse_findings fuel).
Proof.
  induction fuel as [|fuel IH]; cbn [_analyse_findings].
  - intro w. exact I.
  - apply fpreserves_fbind; [exact client_kept_trans | | intros _].
    { apply fpreserves_run_m. unfold analyse_prompt. repeat kept_step. }
    apply fpreserves_ftry_except; [exact client_kept_trans | | intros e].
    2:{ apply fpreserves_fret, client_kept_refl. }
    apply fpreserves_fbind; [exact client_kept_trans | | ].
    { apply fpreserves_run_m. unfold analyse_request. repeat kept_step. }
    intros [[analysis_data refinement_count] refine].
    apply fpreserves_fbind; [exact client_kept_trans | | intros _].
    2:{ apply fpreserves_run_m. unfold analysis_step. repeat kept_step. }
    destruct refine.
    + apply fpreserves_fbind; [exact client_kept_trans | | intros _; exact IH].
      apply fpreserves_run_m. unfold refine_query.
      repeat first [ apply client_kept_clarify_goals
                   | apply client_kept_conducting_research
                   | kept_step ].
    + apply fpreserves_fret, client_kept_refl.
Qed.

Lemma client_kept_pipeline fuel : fpreserves client_kept (pipeline fuel).
Proof.
  unfold pipeline.
  apply fpreserves_fbind; [exact client_kept_trans | | intros _].
  { apply fpreserves_run_m, client_kept_clarify_goals. }
  apply fpreserves_fbind; [exact client_kept_trans | | intros _].
  { apply fpreserves_run_m, client_kept_conducting_research. }
  apply fpreserves_fbind; [exact client_kept_trans | | intros _].
  { apply client_kept_analyse_findings. }
  apply fpreserves_run_m, client_kept_generate_final_report.
Qed.

(** A run with a budget of 3 or more has a result. *)
Lemma run_returns (fuel : nat) (query : string) (client : PokeAPIClient.t) :
  run (3 + fuel) query client <> None.
Proof.
  unfold run, pipeline, fbind, run_m.
  set (w0 := start query client).
  assert (C0 : refinement_count_of (context w0) = Json (JInt 0)) by reflexivity.
  pose proof (frame_clarify_goals w0) as H1.
  destruct (_clarify_goals w0) as [[[]|e] w1]; cbn [snd] in H1;
    [|discriminate].
  pose proof (frame_conducting_research w1) as H2.
  pose proof (frame_trans H1 H2) as H12.
  destruct (_conducting_research w1) as [[[]|e] w2]; cbn [snd] in H2, H12;
    [|discriminate].
  assert (C2 : refinement_count_of (context w2) = Json (JInt 0)).
  { now rewrite (frame_refinement_count H12). }
  pose proof (@analyse_findings_bounded _ _ _ _ 3 w2 0%Z ltac:(lia) C2 ltac:(lia))
    as B.
  destruct (_analyse_findings 3 w2) as [[r3 w3]|] eqn:E3; [|contradiction].
  rewrite (@analyse_findings_fuel_mono _ _ _ _ 3 (3 + fuel) ltac:(lia) _ _ E3).
  destruct r3 as [[]|e]; [|discriminate].
  destruct (_generate_final_report w3); discriminate.
Qed.

(** X16: a run leaves the session of the client closed, whether it
    returns a report or raises, and removes no record from the client's
    log. *)
Theorem run_closes_the_session (fuel : nat) (query : string)
  (client : PokeAPIClient.t) :
  match run (3 + fuel) query client with
  | None => False
  | Some (_, w) =>
      PokeAPIClient.session (pokeapi_client w) = SessionClosed
      /\ exists added,
           PokeAPIClient.log (pokeapi_client w)
           = (PokeAPIClient.log client ++ added)%list
  end.
Proof.
  pose proof (run_returns fuel query client) as Hret.
  unfold run in *.
  pose proof (client_kept_pipeline (3 + fuel) (start query client)) as Hkept.
  destruct (pipeline (3 + fuel) (start query client)) as [[r w]|];
    [|congruence].
  destruct Hkept as [[added Hlog] Hsession].
  cbn [start pokeapi_client PokeAPIClient.aenter PokeAPIClient.set_session
       PokeAPIClient.session PokeAPIClient.log] in Hlog, Hsession.
  assert (Hopen : PokeAPIClient.session (pokeapi_client w) = SessionOpen).
  { destruct Hsession as [E|[E _]]; [exact E | discriminate]. }
  unfold leave, PokeAPIClient.aexit. cbn [pokeapi_client]. rewrite Hopen.
  cbn [PokeAPIClient.set_session PokeAPIClient.session PokeAPIClient.log].
  split; [reflexivity | exists added; exact Hlog].
Qed.

End SessionOfARun.

(** ** The phases of a run, continued *)

Lemma fbind_unfold S A B (m : F S A) (f : A -> F S B) s :
  fbind m f s
  = match m s with
    | Some (Ok a, s') => f a s'
    | Some (Raise e, s') => Some (Raise e, s')
    | None => None
    end.
Proof. reflexivity. Qed.

Lemma bind_set A k v (f : unit -> M world A) w :
  bind (set_collected_data k v) f w = f tt (with_data k v w).
Proof. reflexivity. Qed.

Lemma bind_goals A g (f : unit -> M world A) w :
  bind (set_clarified_goals g) f w = f tt (with_goals g w).
Proof. reflexivity. Qed.

Lemma bind_step A st (f : unit -> M world A) w :
  bind (append_step st) f w = f tt (with_step st w).
Proof. reflexivity. Qed.

Lemma collected_with_step st w : collected (with_step st w) = collected w.
Proof. reflexivity. Qed.

Lemma collected_with_data k v w :
  collected (with_data k v w) = dict_set k v (collected w).
Proof. reflexivity. Qed.

Lemma ledger_with_step st w : ledger (with_step st w) = (ledger w ++ [st])%list.
Proof. reflexivity. Qed.

Lemma ledger_with_data k v w : ledger (with_data k v w) = ledger w.
Proof. reflexivity. Qed.

Lemma context_with_step st w :
  context (with_step st w)
  = ResearchContext.mk (ResearchContext.original_query (context w))
      (ResearchContext.clarified_goals (context w))
      (ResearchContext.research_steps (context w) ++ [st])%list
      (ResearchContext.collected_data (context w))
      (ResearchContext.current_focus (context w))
      (ResearchContext.user_feedback (context w)).
Proof. reflexivity. Qed.

Section PhasesFurther.
Context {py : PythonLib} {net : Network} {llm : LanguageModel}
        {web : WebSearcher}.

Lemma create_answer kind response w :
  chat_completion kind (request_number kind w) = Completion response ->
  create kind w = (Ok response, with_request kind w).
Proof. intros H. unfold create. fold (request_number kind w). now rewrite H. Qed.

Lemma create_error kind e w :
  chat_completion kind (request_number kind w) = ApiError e ->
  create kind w = (Raise e, with_request kind w).
Proof. intros H. unfold create. fold (request_number kind w). now rewrite H. Qed.

(** X17: when the language model answers the clarification request and the
    answer cannot be used (no content, a content that is not JSON, or JSON
    that is not an object), [_clarify_goals] returns normally and records
    one failed step; the goals, the query and the collected data are as
    before. *)
Theorem clarification_failure_is_recorded (response : message) (w : world) :
  chat_completion Clarify (request_number Clarify w) = Completion response ->
  let failed e :=
    (Ok tt,
     with_step (step_failed CLARIFICATION "Failed to clarify goals" e)
       (with_request Clarify w)) in
  match content response with
  | None =>
      _clarify_goals w
      = failed (RuntimeError "LLM returned no clarification goal content")
  | Some text =>
      match json_loads (strip text) with
      | Raise e => _clarify_goals w = failed e
      | Ok (JDict _) => True
      | Ok _ => _clarify_goals w = failed AttributeError
      end
  end.
Proof.
  intros Hresp. cbv zeta.
  unfold _clarify_goals, try_bind_except. rewrite (create_answer _ _ Hresp).
  unfold try_except, content_or_raise, bind, lift, ret, raise.
  destruct (content response) as [text|]; [|reflexivity].
  destruct (json_loads (strip text)) as [[]|e]; first [reflexivity | exact I].
Qed.

(** X18: when the answer to the clarification request is a JSON object,
    [_clarify_goals] stores its five fields in the collected data and its
    goals in the context, with the defaults of the source for the fields
    that the object lacks, and records one successful step; the query is
    untouched. *)
Theorem clarification_is_stored (response : message) (text : string)
  (d : list (string * json)) (w : world) :
  chat_completion Clarify (request_number Clarify w) = Completion response ->
  content response = Some text ->
  json_loads (strip text) = Ok (JDict d) ->
  let w' := snd (_clarify_goals w) in
  let stored k default :=
    dict_get k (collected w') = Some (Json (dict_get_default k default d)) in
  fst (_clarify_goals w) = Ok tt
  /\ ResearchContext.clarified_goals (context w')
     = dict_get_default "goals" (JList []) d
  /\ stored "pokemon_to_research" (JList [])
  /\ stored "research_focus" (JStr "")
  /\ stored "constraints" (JList [])
  /\ stored "subagent_instructions" (JList [])
  /\ stored "num_subagents" (JInt 1)
  /\ ledger w'
     = (ledger w
        ++ [step_done CLARIFICATION
              "Clarified research goals and identified key areas to investigate"
              (Some (pydict_of_json d)) []])%list
  /\ ResearchContext.original_query (context w')
     = ResearchContext.original_query (context w).
Proof.
  intros Hresp Hcontent Hjson. cbv zeta.
  assert (E : _clarify_goals w
    = (Ok tt,
       with_step
         (step_done CLARIFICATION
            "Clarified research goals and identified key areas to investigate"
            (Some (pydict_of_json d)) [])
         (with_data "num_subagents"
            (Json (dict_get_default "num_subagents" (JInt 1) d))
         (with_data "subagent_instructions"
            (Json (dict_get_default "subagent_instructions" (JList []) d))
         (with_data "constraints"
            (Json (dict_get_default "constraints" (JList []) d))
         (with_data "research_focus"
            (Json (dict_get_default "research_focus" (JStr "") d))
         (with_data "pokemon_to_research"
            (Json (dict_get_default "pokemon_to_research" (JList []) d))
         (with_goals (dict_get_default "goals" (JList []) d)
            (with_request Clarify w))))))))).
  { unfold _clarify_goals, try_bind_except. rewrite (create_answer _ _ Hresp).
    unfold try_except. rewrite bind_unfold. unfold content_or_raise.
    rewrite Hcontent. unfold ret at 1. rewrite bind_unfold. unfold lift at 1.
    rewrite Hjson. rewrite bind_goals, !bind_set. reflexivity. }
  rewrite E. cbn [fst snd].
  rewrite !collected_with_step, !ledger_with_step, !context_with_step.
  rewrite !ledger_with_data.
  split; [reflexivity|]. split; [reflexivity|].
  repeat match goal with
         | |- _ /\ _ => split
         | |- dict_get _ (collected (with_data _ _ _)) = _ =>
             rewrite collected_with_data
         | |- dict_get ?k (dict_set ?k _ _) = _ => apply dict_get_set_same
         | |- dict_get _ (dict_set _ _ _) = _ =>
             rewrite dict_get_set_other by reflexivity
         end; reflexivity.
Qed.

(** X19: a worker raises only while its prompt is built: when its
    instruction cannot be read, or when the constraints or the pokemon to
    research are not lists of strings.  The state is then as before; every
    later failure is recorded as a failed step and the worker returns. *)
Theorem worker_raises_only_from_its_prompt (raw_instructions : pyval)
  (i : nat) (w : world) (e : exn) :
  fst (research_subagent raw_instructions i w) = Raise e ->
  snd (research_subagent raw_instructions i w) = w
  /\ (subagent_task raw_instructions i = Raise e
      \/ pyval_join ", "
           (dict_get_default "constraints" (Json (JList [])) (collected w))
         = Raise e
      \/ pyval_join ", "
           (dict_get_default "pokemon_to_research" (Json (JList []))
              (collected w))
         = Raise e).
Proof.
  unfold research_subagent.
  rewrite bind_unfold. unfold read, gets. cbn [fst snd].
  rewrite bind_unfold. unfold lift at 1.
  destruct (subagent_task raw_instructions i) as [task|e1];
    [|cbn; intros H; injection H as <-; auto].
  rewrite bind_unfold. unfold lift at 1. fold (collected w).
  destruct (pyval_join ", " (dict_get_default "constraints" _ _)) as [cs|e1];
    [|cbn; intros H; injection H as <-; auto].
  rewrite bind_unfold. unfold lift at 1.
  destruct (pyval_join ", " (dict_get_default "pokemon_to_research" _ _))
    as [ps|e1]; [|cbn; intros H; injection H as <-; auto].
  intros H. exfalso.
  match type of H with
  | fst (try_except ?m ?h w) = _ =>
      destruct (@never_raises_try_except _ _ m h
                  (fun e' => never_raises_append_step _) w) as [a Ha]
  end.
  congruence.
Qed.

(** X20: a worker whose answer carries no tool call never reaches its
    synthesis: the step that reports the worker as completed is recorded,
    then running the tool calls of the answer raises [TypeError], which is
    recorded as a failure of step 1; no synthesis request is sent and
    nothing is stored. *)
Theorem worker_without_tool_calls (raw_instructions task : pyval) (i : nat)
  (constraints pokemon : string) (response : message) (w : world) :
  subagent_task raw_instructions i = Ok task ->
  pyval_join ", "
    (dict_get_default "constraints" (Json (JList [])) (collected w))
  = Ok constraints ->
  pyval_join ", "
    (dict_get_default "pokemon_to_research" (Json (JList [])) (collected w))
  = Ok pokemon ->
  chat_completion ToolCalls (request_number ToolCalls w)
  = Completion response ->
  tool_calls response = None ->
  collected w <> [] \/ content response <> None ->
  research_subagent raw_instructions i w
  = (Ok tt,
     with_step
       (step_failed SYNTHESIS
          ("Failed research subagent " ++ str_succ i ++ " in step 1 ")
          TypeError)
       (with_step
          (step_done SYNTHESIS ("Completed research subagent " ++ str_succ i)
             (Some (collected w)) [])
          (with_request ToolCalls w))).
Proof.
  intros Htask Hcs Hps Hresp Hcalls Hdata.
  unfold research_subagent.
  rewrite bind_unfold. unfold read, gets. cbn [fst snd].
  rewrite bind_unfold. unfold lift at 1. rewrite Htask.
  rewrite bind_unfold. unfold lift at 1. fold (collected w). rewrite Hcs.
  rewrite bind_unfold. unfold lift at 1. rewrite Hps.
  unfold try_except at 1.
  rewrite bind_unfold, (create_answer _ _ Hresp), Hcalls.
  rewrite bind_unfold. unfold ret at 1.
  rewrite bind_unfold. cbn [fst snd with_request context].
  fold (collected w).
  assert (Hcontent :
    match collected w with
    | [] =>
        content_or_raise response
          ("subagent " ++ str_succ i ++ " returned no content") ;; ret tt
    | _ :: _ => ret tt
    end (with_request ToolCalls w) = (Ok tt, with_request ToolCalls w)).
  { destruct (collected w) as [|kv rest] eqn:Ec; [|reflexivity].
    destruct Hdata as [Hd|Hc]; [congruence|].
    unfold content_or_raise, bind. destruct (content response); [|congruence].
    reflexivity. }
  rewrite bind_unfold, Hcontent.
  rewrite bind_unfold. cbn [fst snd with_request context].
  rewrite bind_unfold. unfold append_step at 1, modify.
  rewrite bind_unfold. unfold _execute_function_calls. rewrite Hcalls.
  reflexivity.
Qed.

(** X21: [_analyse_findings] raises exactly when its prompt cannot be
    built (the goals are not a list of strings, or the collected data hold
    an object that [json.dumps] rejects); the state is then as before.
    Every failure after the prompt is caught, also those of the phases
    that a refinement runs again. *)
Theorem analysis_raises_only_from_its_prompt (fuel : nat) (w : world)
  (e : exn) :
  (fst (analyse_prompt w) = Raise e ->
   _analyse_findings (S fuel) w = Some (Raise e, w))
  /\ (forall w', _analyse_findings (S fuel) w = Some (Raise e, w') ->
                 fst (analyse_prompt w) = Raise e /\ w' = w).
Proof.
  cbn [_analyse_findings]. rewrite fbind_unfold.
  change (run_m analyse_prompt w) with (Some (analyse_prompt w)).
  pose proof (analyse_prompt_state w) as Hstate.
  destruct (analyse_prompt w) as [[[]|e1] w1]; cbn [fst snd] in *; subst w1.
  - split; [discriminate|]. intros w'. unfold ftry_except.
    match goal with
    | |- match ?m with _ => _ end = _ -> _ =>
        destruct m as [[[[]|e2] w2]|]
    end; unfold fret; discriminate.
  - split.
    + intros H. injection H as ->. reflexivity.
    + intros w' H. injection H as -> ->. auto.
Qed.

(** X22: when the analysis request fails, or its answer has no content or
    is not JSON, [_analyse_findings] returns normally and records no
    step: unlike the other phases, a failed analysis leaves no entry in
    the ledger, and the collected data are as before. *)
Theorem failed_analysis_leaves_no_step (fuel : nat) (w : world) :
  fst (analyse_prompt w) = Ok tt ->
  match chat_completion Analyse (request_number Analyse w) with
  | ApiError _ =>
      _analyse_findings (S fuel) w = Some (Ok tt, with_request Analyse w)
  | Completion response =>
      match content response with
      | None =>
          _analyse_findings (S fuel) w = Some (Ok tt, with_request Analyse w)
      | Some text =>
          match json_loads (strip text) with
          | Raise _ =>
              _analyse_findings (S fuel) w
              = Some (Ok tt, with_request Analyse w)
          | Ok _ => True
          end
      end
  end.
Proof.
  intros Hprompt. cbn [_analyse_findings]. rewrite fbind_unfold.
  change (run_m analyse_prompt w) with (Some (analyse_prompt w)).
  pose proof (analyse_prompt_state w) as Hstate.
  destruct (analyse_prompt w) as [[[]|e1] w1]; cbn [fst snd] in *;
    [subst w1|discriminate].
  unfold ftry_except, fbind, run_m, analyse_request.
  destruct (chat_completion Analyse (request_number Analyse w))
    as [e|response] eqn:E.
  - rewrite bind_unfold, (create_error _ _ E). reflexivity.
  - rewrite bind_unfold, (create_answer _ _ E).
    unfold content_or_raise.
    destruct (content response) as [text|]; [|reflexivity].
    rewrite bind_unfold. unfold ret at 1.
    rewrite bind_unfold. unfold lift at 1.
    destruct (json_loads (strip text)) as [analysis_data|e]; [exact I|].
    reflexivity.
Qed.

(** X23: [_generate_final_report] always returns a report when the query
    of the context is a string and the stored analysis can be written as
    JSON: the report has this query, the collected data and the ledger of
    the context, whether the report request succeeded or not. *)
Theorem report_is_always_returned (w : world) (q : string) :
  ResearchContext.original_query (context w) = JStr q ->
  json_dumps (dict_get_default "analysis" (Json (JDict [])) (collected w))
  = Ok tt ->
  exists report,
    fst (_generate_final_report w) = Ok report
    /\ ResearchReport.query report = q
    /\ ResearchReport.detailed_findings report = collected w
    /\ ResearchReport.research_steps report = ledger w.
Proof.
  intros Hq Hd.
  unfold _generate_final_report, try_except.
  rewrite bind_unfold. unfold read, gets. cbn [fst snd].
  rewrite bind_unfold. unfold lift at 1. fold (collected w). rewrite Hd.
  assert (Hgen :
    context (snd (generate_report w)) = context w
    /\ match fst (generate_report w) with
       | Ok report =>
           ResearchReport.query report = q
           /\ ResearchReport.detailed_findings report = collected w
           /\ ResearchReport.research_steps report = ledger w
       | Raise _ => True
       end).
  { unfold generate_report, bind, read, gets, lift, create, content_or_raise,
      ret, raise, validated, collected, ledger. cbn [fst snd].
    destruct (chat_completion Report _) as [e'|response]; [now split|].
    destruct (content response); [|now split]. cbn [fst snd context].
    rewrite Hq, validate_str_ok.
    repeat match goal with
           | |- context [pyval_get ?v ?k ?d] => destruct (pyval_get v k d)
           | |- context [validate_str_list ?v] =>
               destruct (validate_str_list v)
           | |- context [validate_confidence ?v] =>
               destruct (validate_confidence v)
           end; cbn [fst snd context]; repeat split. }
  destruct Hgen as [Hctx Hrep].
  destruct (generate_report w) as [[report|e'] w1]; cbn [fst snd] in *.
  - exists report. auto.
  - unfold error_report, bind, read, gets, lift, ret, validated, collected,
      ledger. cbn [fst snd]. rewrite Hctx, Hq, validate_str_ok.
    eexists. cbn [fst]. repeat split.
Qed.

End PhasesFurther.

(** ** The web searcher *)

Lemma string_firstn_length n s : String.length (string_firstn n s) <= n.
Proof.
  revert s. induction n as [|n IH]; intros [|c t]; cbn; try lia.
  specialize (IH t). lia.
Qed.

Lemma rmap_In A B (f : A -> result B) l r b :
  rmap f l = Ok r -> In b r -> exists a, In a l /\ f a = Ok b.
Proof.
  revert r. induction l as [|a t IH]; cbn; intros r H Hb.
  - injection H as <-. destruct Hb.
  - destruct (f a) as [b'|e] eqn:Ea; [|discriminate].
    destruct (rmap f t) as [bs|e]; [|discriminate].
    injection H as <-. destruct Hb as [->|Hb].
    + exists a. auto.
    + destruct (IH bs eq_refl Hb) as [a' [Ha' Ea']]. exists a'. auto.
Qed.

Lemma rmap_ok A B (f : A -> result B) l :
  (forall a, In a l -> exists b, f a = Ok b) -> exists r, rmap f l = Ok r.
Proof.
  induction l as [|a t IH]; cbn; intros H; [eexists; reflexivity|].
  destruct (H a) as [b Eb]; [now left|]. rewrite Eb.
  destruct IH as [bs Ebs]; [intros a' Ha'; apply H; now right|].
  rewrite Ebs. eexists; reflexivity.
Qed.

Lemma Forall_firstn A (P : A -> Prop) n l : Forall P l -> Forall P (firstn n l).
Proof.
  intros H. revert n. induction H as [|a t Ha Ht IH]; intros [|n]; cbn;
    constructor; auto.
Qed.

Lemma list_slice_to_spec A (P : A -> Prop) (n : Z) (l : list A) :
  List.length (list_slice_to n l) <= List.length l
  /\ ((0 <= n)%Z -> (Z.of_nat (List.length (list_slice_to n l)) <= n)%Z)
  /\ (Forall P l -> Forall P (list_slice_to n l)).
Proof.
  unfold list_slice_to. destruct (0 <=? n)%Z eqn:E.
  - rewrite length_firstn. split; [lia|]. split; [lia | apply Forall_firstn].
  - rewrite length_firstn. split; [lia|]. split; [lia | apply Forall_firstn].
Qed.

Section WebSearcherProperties.
Context {py : PythonLib} {pages : Web}.

Lemma page_result_spec query url source :
  In source web_sources ->
  match page_result query url source with
  | Ok l => List.length l <= 1 /\ Forall site_result l
  | Raise _ => True
  end.
Proof.
  intros Hs. unfold page_result.
  destruct (web_get url) as [| |e|status_code page_content];
    try (cbn; auto; fail).
  destruct (status_code =? 200)%Z; [|cbn; auto].
  unfold rbind.
  destruct (_extract_text_content page_content) as [text|e]; [|exact I].
  destruct (py_title query) as [query_title|e]; [|exact I].
  split; [cbn; lia|]. constructor; [|constructor].
  eexists _, _, _, _. split; [reflexivity|]. split; [exact Hs|].
  apply string_firstn_length.
Qed.

Lemma rtry_page_result (r : result string) (k : string -> string)
  (query : json) (source : string) :
  In source web_sources ->
  exists l,
    rtry (lowered <~ r ; page_result query (k lowered) source)%result
         (fun _ => Ok [])
    = Ok l
    /\ List.length l <= 1 /\ Forall site_result l.
Proof.
  intros Hs. destruct r as [lowered|e]; cbn [rbind rtry].
  - pose proof (@page_result_spec query (k lowered) source Hs) as H.
    destruct (page_result query (k lowered) source) as [l|e]; cbn [rtry].
    + exists l. tauto.
    + exists []. cbn. auto.
  - exists []. cbn. auto.
Qed.

Lemma search_results_spec (query : json) :
  exists results,
    search_results query = Ok results
    /\ List.length results <= 3
    /\ ((0 <= Settings.max_web_results settings)%Z ->
        (Z.of_nat (List.length results)
         <= Settings.max_web_results settings)%Z)
    /\ Forall site_result results
    /\ (Settings.web_scraping_enabled settings = false -> results = []).
Proof.
  unfold search_results.
  destruct (Settings.web_scraping_enabled settings); cbn [negb].
  2:{ exists []. cbn. repeat split; auto; lia. }
  destruct (@rtry_page_result (py_lower query)
              (fun lowered => "https://bulbapedia.bulbagarden.net/wiki/"
                              ++ title (replace_char SP "_" lowered))
              query "Bulbapedia") as [l1 [E1 [L1 F1]]];
    [cbn; auto|].
  destruct (@rtry_page_result (py_lower query)
              (fun lowered => "https://www.serebii.net/pokedex/"
                              ++ remove_char SP lowered ++ ".shtml")
              query "Serebii") as [l2 [E2 [L2 F2]]];
    [cbn; auto|].
  destruct (@rtry_page_result (py_lower query)
              (fun lowered => "https://pokemondb.net/pokedex/"
                              ++ replace_char SP "-" lowered)
              query "Pokemon Database") as [l3 [E3 [L3 F3]]];
    [cbn; auto|].
  unfold _search_bulbapedia, _search_serebii, _search_pokemon_database.
  rewrite E1, E2, E3. cbn [extend_with app].
  eexists. split; [reflexivity|].
  destruct (@list_slice_to_spec _ site_result
              (Settings.max_web_results settings) ((l1 ++ l2) ++ l3)%list)
    as [Hlen [Hmax Hall]].
  rewrite !length_app in Hlen.
  split; [lia|]. split; [exact Hmax|]. split; [|discriminate].
  apply Hall. repeat (apply Forall_app; split); assumption.
Qed.

Lemma sentences_of_site_result r :
  site_result r ->
  exists content_, sentences_of r = Ok (split_sentences content_).
Proof.
  intros (page_title & url & source & content_ & -> & _ & _).
  exists content_. reflexivity.
Qed.

Lemma kept_sentences (keywords : list string) (low high n : nat)
  (results : list json) :
  Forall site_result results ->
  exists found,
    (sentences <~ rmap (fun result_ =>
                          sentences <~ sentences_of result_ ;
                          Ok (filter (kept keywords low high)
                                     (map strip sentences)))
                       results ;
     Ok (firstn n (List.concat sentences)))%result
    = Ok found
    /\ List.length found <= n
    /\ Forall (fun sentence =>
                 low < String.length sentence < high
                 /\ any_in keywords (lower sentence) = true)
              found.
Proof.
  intros Hres.
  destruct (@rmap_ok _ _
              (fun result_ =>
                 (sentences <~ sentences_of result_ ;
                  Ok (filter (kept keywords low high) (map strip sentences)))
                 %result)
              results) as [lists E].
  { intros r Hr. rewrite Forall_forall in Hres.
    destruct (sentences_of_site_result (Hres r Hr)) as [c Ec].
    rewrite Ec. eexists. reflexivity. }
  rewrite E. cbn [rbind]. eexists. split; [reflexivity|].
  split; [apply firstn_le_length|].
  apply Forall_firstn, Forall_forall. intros sentence Hin.
  apply in_concat in Hin. destruct Hin as [l [Hl Hin]].
  destruct (@rmap_In _ _ _ _ _ _ E Hl) as [r [_ Er]].
  unfold rbind in Er. destruct (sentences_of r); [|discriminate].
  injection Er as <-. apply filter_In in Hin. destruct Hin as [_ Hk].
  unfold kept in Hk. apply andb_true_iff in Hk. destruct Hk as [Hany Hlen].
  apply andb_true_iff in Hlen. destruct Hlen as [Hlow Hhigh].
  apply Nat.ltb_lt in Hlow, Hhigh. auto.
Qed.

(** X24: with [web_scraping_enabled] off (the default), the four search
    methods send no request and find nothing: the results, the tips and
    the locations are empty lists, and the competitive information has
    its four keys with empty lists. *)
Theorem disabled_web_search_finds_nothing (v : json) :
  Settings.web_scraping_enabled settings = false ->
  @search_pokemon_info web_researcher v = @search_pokemon_info web_disabled v
  /\ @search_training_tips web_researcher v
     = @search_training_tips web_disabled v
  /\ @search_competitive_info web_researcher v
     = @search_competitive_info web_disabled v
  /\ @search_location_info web_researcher v
     = @search_location_info web_disabled v.
Proof.
  intros Hoff.
  assert (E : forall q, search_results q = Ok []).
  { intros q. unfold search_results. now rewrite Hoff. }
  cbn [search_pokemon_info search_training_tips search_competitive_info
       search_location_info web_researcher web_disabled].
  unfold tips_list, locations_list, competitive_info.
  rewrite !E. repeat split.
Qed.

(** X25: [search_pokemon_info] never raises, whatever the query and the
    web do.  It returns at most 3 results, at most [max_web_results] when
    this setting is not negative, and each result has a title, a URL, one
    of the three sites as its source, and a content of at most 1000
    characters. *)
Theorem web_search_is_bounded (query : json) :
  exists results,
    @search_pokemon_info web_researcher query = Ok (JList results)
    /\ List.length results <= 3
    /\ ((0 <= Settings.max_web_results settings)%Z ->
        (Z.of_nat (List.length results)
         <= Settings.max_web_results settings)%Z)
    /\ Forall site_result results.
Proof.
  destruct (search_results_spec query) as (results & E & H3 & Hmax & Hall & _).
  exists results. cbn [search_pokemon_info web_researcher].
  rewrite E. cbn [rbind]. auto.
Qed.

(** X26: [search_training_tips] and [search_location_info] never raise.
    The tips are at most 5 sentences, each of more than 20 and fewer than
    200 characters, with one of the training keywords in its lower-case
    form; the locations are at most 3 sentences, each of more than 10 and
    fewer than 150 characters, with one of the location keywords. *)
Theorem tips_and_locations_are_bounded (pokemon_name : json) :
  (exists tips,
     @search_training_tips web_researcher pokemon_name
     = Ok (JList (map JStr tips))
     /\ List.length tips <= 5
     /\ Forall (fun sentence =>
                  20 < String.length sentence < 200
                  /\ any_in training_keywords (lower sentence) = true)
               tips)
  /\ (exists locations,
        @search_location_info web_researcher pokemon_name
        = Ok (JList (map JStr locations))
        /\ List.length locations <= 3
        /\ Forall (fun sentence =>
                     10 < String.length sentence < 150
                     /\ any_in location_keywords (lower sentence) = true)
                  locations).
Proof.
  cbn [search_training_tips search_location_info web_researcher]. split.
  - unfold tips_list.
    destruct (search_results_spec
                (JStr (py_str pokemon_name ++ " training tips pokemon")))
      as (results & E & _ & _ & Hall & _).
    rewrite E. cbn [rbind].
    destruct (kept_sentences training_keywords 20 200 5 Hall)
      as (tips & Et & Hlen & Hkept).
    exists tips. rewrite Et. cbn [rbind]. auto.
  - unfold locations_list.
    destruct (search_results_spec
                (JStr (py_str pokemon_name ++ " location catch pokemon")))
      as (results & E & _ & _ & Hall & _).
    rewrite E. cbn [rbind].
    destruct (kept_sentences location_keywords 10 150 3 Hall)
      as (locations & El & Hlen & Hkept).
    exists locations. rewrite El. cbn [rbind]. auto.
Qed.

(** X27: [search_competitive_info] never raises and returns a dict with
    the keys [movesets], [strategies], [counters] and [teammates]; no
    code fills the counters and the teammates, which are always empty. *)
Theorem competitive_info_has_no_counters (pokemon_name : json) :
  exists movesets strategies,
    @search_competitive_info web_researcher pokemon_name
    = Ok (JDict [ ("movesets", JList (map JStr movesets));
                  ("strategies", JList (map JStr strategies));
                  ("counters", JList []);
                  ("teammates", JList []) ]).
Proof.
  cbn [search_competitive_info web_researcher]. unfold competitive_info.
  destruct (search_results_spec
              (JStr (py_str pokemon_name ++ " competitive pokemon battle")))
    as (results & E & _ & _ & Hall & _).
  rewrite E. cbn [rbind].
  destruct (@rmap_ok _ _ competitive_of results) as [found Ef].
  { intros r Hr. rewrite Forall_forall in Hall.
    destruct (Hall r Hr) as (page_title & url & source & content_ & -> & _).
    eexists. reflexivity. }
  rewrite Ef. eexists _, _. reflexivity.
Qed.

(** X28: with [web_scraping_enabled] off, [_research_pokemon_web] stores
    the empty web data under the key of the pokemon and records one
    successful web search step that has no source: web research adds no
    source to a report. *)
Theorem disabled_web_research_adds_no_source (pokemon_name : json)
  (w : world) :
  Settings.web_scraping_enabled settings = false ->
  validate_str_list (JList []) = Some [] ->
  @_research_pokemon_web py web_researcher pokemon_name w
  = (Ok tt,
     with_step
       (step_done WEB_SEARCH
          ("Gathered additional information about " ++ py_str pokemon_name
           ++ " from web sources")
          (Some (pydict_of_json empty_web_data)) [])
       (with_data ("web_data_" ++ py_str pokemon_name)
          (Json (JDict empty_web_data)) w)).
Proof.
  intros Hoff Hvalid.
  assert (E : forall q, search_results q = Ok []).
  { intros q. unfold search_results. now rewrite Hoff. }
  unfold _research_pokemon_web, try_except, bind, lift.
  cbn [search_pokemon_info search_training_tips search_competitive_info
       search_location_info web_researcher].
  unfold tips_list, locations_list, competitive_info.
  rewrite !E. cbn [py_iter rbind rmap map List.concat firstn flat_map].
  rewrite Hvalid. reflexivity.
Qed.

End WebSearcherProperties.

(** ** What a tool call cannot change *)

Lemma control_kept_refl w : control_kept w w.
Proof. repeat split. Qed.

Lemma control_kept_trans a b c :
  control_kept a b -> control_kept b c -> control_kept a c.
Proof.
  intros [Q1 [G1 K1]] [Q2 [G2 K2]]. split; [congruence|].
  split; [congruence|]. intros k Hk. rewrite (K2 k Hk). now apply K1.
Qed.

Lemma control_kept_client_call A (m : M PokeAPIClient.t A) :
  preserves control_kept (client_call m).
Proof.
  intros w. unfold client_call. destruct (m (pokeapi_client w)).
  repeat split.
Qed.

Lemma control_kept_step st : preserves control_kept (append_step st).
Proof. intros w. repeat split. Qed.

Lemma control_kept_set k v :
  forallb (fun c => negb (String.eqb k c)) control_keys = true ->
  preserves control_kept (set_collected_data k v).
Proof.
  intros Hk w. split; [reflexivity|]. split; [reflexivity|].
  intros c Hc.
  change (dict_get c (dict_set k v (collected w)) = dict_get c (collected w)).
  apply dict_get_set_other.
  rewrite forallb_forall in Hk. specialize (Hk c Hc).
  now apply negb_true_iff in Hk.
Qed.

(** One step of the proof that a command leaves the control data. *)
Ltac control_step :=
  match goal with
  | |- preserves control_kept (bind _ _) =>
      apply preserves_bind; [exact control_kept_trans | | intros]
  | |- preserves control_kept (try_except _ _) =>
      apply preserves_try_except; [exact control_kept_trans | | intros]
  | |- preserves control_kept (ret _) =>
      apply preserves_ret, control_kept_refl
  | |- preserves control_kept (raise _) =>
      apply preserves_raise, control_kept_refl
  | |- preserves control_kept (lift _) =>
      apply preserves_lift, control_kept_refl
  | |- preserves control_kept (read _) =>
      apply preserves_gets, control_kept_refl
  | |- preserves control_kept (client_call _) => apply control_kept_client_call
  | |- preserves control_kept (set_collected_data _ _) =>
      apply control_kept_set; reflexivity
  | |- preserves control_kept (append_step _) => apply control_kept_step
  | |- preserves control_kept (model_dump_or_raise ?o) =>
      destruct o; cbn [model_dump_or_raise]
  | |- preserves control_kept (for_each _ _) =>
      apply preserves_for_each;
      [exact control_kept_refl | exact control_kept_trans | intros]
  | |- preserves control_kept (collect _ _) =>
      apply preserves_collect;
      [exact control_kept_refl | exact control_kept_trans | intros]
  | |- preserves control_kept (if ?b then _ else _) => destruct b
  | |- preserves control_kept (match ?x with _ => _ end) => destruct x
  end.

Section ControlData.
Context {py : PythonLib} {net : Network} {web : WebSearcher}.

Lemma control_kept_dispatch function_name function_args :
  preserves control_kept (dispatch function_name function_args).
Proof.
  unfold dispatch, _research_pokemon_api, _research_pokemon_web,
    _research_training_info, _research_unique_pokemon.
  repeat control_step.
Qed.

(** X29: no tool call changes the data that steer a run: whatever the
    calls of an answer are and whatever the network returns, the query,
    the goals, the research focus, the constraints, the instructions and
    the number of the workers, the analysis, the refined query and the
    refinement counter are as before. *)
Theorem tool_calls_keep_control_data (response : message) (i : nat)
  (w : world) :
  control_kept w (snd (_execute_function_calls response i w)).
Proof.
  revert w.
  change (preserves control_kept (_execute_function_calls response i)).
  unfold _execute_function_calls, execute_function_call, decode_and_dispatch.
  repeat first [apply control_kept_dispatch | control_step].
Qed.

End ControlData.

(** * Further examples *)

(** ** The adapter *)

Example title_examples :
  title "pikachu_training tips" = "Pikachu_Training Tips"
  /\ title "mr. mime's 3d" = "Mr. Mime'S 3D".
Proof. split; reflexivity. Qed.

Example split_sentences_examples :
  split_sentences "a..b!" = ["a"; "b"; ""]
  /\ split_sentences "" = [""]
  /\ split_sentences "?a" = [""; "a"]
  /\ split_spaces "a   b" = ["a"; " b"].
Proof. repeat split; reflexivity. Qed.

Lemma type_lookup_at_most_50_witness :
  exists l,
    fst (@get_pokemon_by_type net_demo demo_python (JStr "Electric")
           PokeAPIClient.init) = Ok l
    /\ List.length l <= 50.
Proof.
  eexists. split; [reflexivity|].
  apply (@type_lookup_at_most_50 net_demo demo_python (JStr "Electric")
           PokeAPIClient.init).
  reflexivity.
Defined.

Lemma moves_at_most_20_witness :
  exists p,
    @pokemon_of_json demo_python pikachu_document = Ok p
    /\ exists moves first20 items names,
         py_getitem pikachu_document "moves" = Ok moves
         /\ py_slice_to 20 moves = Ok first20
         /\ py_iter first20 = Ok items
         /\ rmap (fun m => mv <~ py_getitem m "move" ; py_getitem mv "name")%result
                 items = Ok names
         /\ List.length names <= 20
         /\ @validate_str_list demo_python (JList names)
            = Some (PokemonData.moves p).
Proof.
  eexists. split; [reflexivity|].
  apply (@moves_at_most_20 demo_python pikachu_document). reflexivity.
Defined.

Lemma extract_evolutions_preorder_witness :
  let ivysaur := chain_link_of "ivysaur" [chain_link_of "venusaur" []] in
  py_getitem bulbasaur_chain "species" = Ok (JDict [("name", JStr "bulbasaur")])
  /\ py_getitem (JDict [("name", JStr "bulbasaur")]) "name"
     = Ok (JStr "bulbasaur")
  /\ py_get bulbasaur_chain "evolves_to" (JList []) = Ok (JList [ivysaur])
  /\ json_size bulbasaur_chain <= json_size bulbasaur_chain
  /\ extract_evolutions (json_size bulbasaur_chain) bulbasaur_chain
     = Ok [JStr "bulbasaur"; JStr "ivysaur"; JStr "venusaur"]
  /\ extract_evolutions (json_size bulbasaur_chain) bulbasaur_chain
     <> Raise RecursionError.
Proof.
  cbv zeta.
  split; [reflexivity|]. split; [reflexivity|]. split; [reflexivity|].
  split; [apply Nat.le_refl|].
  exact (@extract_evolutions_preorder bulbasaur_chain
           (JDict [("name", JStr "bulbasaur")]) (JStr "bulbasaur")
           [chain_link_of "ivysaur" [chain_link_of "venusaur" []]]
           (json_size bulbasaur_chain)
           eq_refl eq_refl eq_refl (Nat.le_refl _)).
Defined.

Lemma evolution_chain_follows_url_witness :
  PokeAPIClient.session PokeAPIClient.init <> SessionClosed
  /\ @session_get net_evolution
       (POKEAPI_BASE_URL ++ "/pokemon-species/" ++ lower "Bulbasaur")
     = HttpResponse 200 (Ok bulbasaur_species)
  /\ py_getitem bulbasaur_species "evolution_chain"
     = Ok (JDict [("url",
                   JStr "https://pokeapi.co/api/v2/evolution-chain/1/")])
  /\ py_getitem
       (JDict [("url", JStr "https://pokeapi.co/api/v2/evolution-chain/1/")])
       "url"
     = Ok (JStr ("https://pokeapi.co/api/v2/evolution-chain" ++ "/" ++ "1"
                 ++ "/"))
  /\ has_char SLASH "1" = false
  /\ @session_get net_evolution (POKEAPI_BASE_URL ++ "/evolution-chain/" ++ "1")
     = HttpResponse 200 (Ok (JDict [("chain", bulbasaur_chain)]))
  /\ py_getitem (JDict [("chain", bulbasaur_chain)]) "chain"
     = Ok bulbasaur_chain
  /\ @get_evolution_chain net_evolution (JStr "Bulbasaur") PokeAPIClient.init
     = (Ok [JStr "bulbasaur"; JStr "ivysaur"; JStr "venusaur"],
        PokeAPIClient.set_session SessionOpen PokeAPIClient.init).
Proof.
  split; [discriminate|].
  repeat (split; [reflexivity|]).
  exact (@evolution_chain_follows_url net_evolution "Bulbasaur"
           "https://pokeapi.co/api/v2/evolution-chain" "1"
           bulbasaur_species
           (JDict [("url",
                    JStr "https://pokeapi.co/api/v2/evolution-chain/1/")])
           (JDict [("chain", bulbasaur_chain)]) bulbasaur_chain
           PokeAPIClient.init
           ltac:(discriminate) eq_refl eq_refl eq_refl eq_refl eq_refl
           eq_refl).
Defined.

(** The English description of the species document, on one line. *)
Example description_example :
  fst (@get_pokemon_description net_evolution (JStr "Bulbasaur")
         PokeAPIClient.init)
  = Ok (JStr "A strange seed was planted on its back at birth.").
Proof. reflexivity. Qed.

Lemma closed_session_finds_nothing_witness :
  let closed := PokeAPIClient.aexit (PokeAPIClient.aenter PokeAPIClient.init) in
  PokeAPIClient.session closed = SessionClosed
  /\ exists msg,
       @call_method net_demo demo_python GetAllTypes closed
       = (Ok (Values []), PokeAPIClient.add_log LogError msg closed).
Proof.
  cbv zeta. split; [reflexivity|].
  exact (@closed_session_finds_nothing net_demo demo_python GetAllTypes
           (PokeAPIClient.aexit (PokeAPIClient.aenter PokeAPIClient.init))
           eq_refl).
Defined.

(** ** The dispatcher *)

Lemma uncatalogued_call_is_ignored_witness :
  offered "get_weather" = false
  /\ @json_loads demo_python
       (function_args_raw (mk_tool_call "get_weather" (Some "{}")))
     = Ok (JDict [])
  /\ @execute_function_call demo_python net_demo web_disabled 0
       (mk_tool_call "get_weather" (Some "{}")) demo_world
     = (Ok tt, demo_world).
Proof.
  split; [reflexivity|]. split; [reflexivity|].
  exact (@uncatalogued_call_is_ignored demo_python net_demo web_disabled 0
           (mk_tool_call "get_weather" (Some "{}")) (JDict []) demo_world
           eq_refl eq_refl).
Defined.

Lemma call_without_argument_is_ignored_witness :
  let fd := mk_function_definition "get_pokemon_by_name"
              [("name", "string")] ["name"] in
  In fd POKEAPI_FUNCTION_DEFINITIONS
  /\ fd_required fd = ["name"]
  /\ fd_name fd <> "_research_unique_pokemon"
  /\ truthy (dict_get_default "name" JNull [("name", JStr "")]) = false
  /\ @dispatch demo_python net_demo web_disabled (fd_name fd)
       (JDict [("name", JStr "")]) demo_world
     = (Ok tt, demo_world).
Proof.
  cbv zeta.
  assert (Hin : In (mk_function_definition "get_pokemon_by_name"
                      [("name", "string")] ["name"])
                   POKEAPI_FUNCTION_DEFINITIONS).
  { do 4 right. left. reflexivity. }
  assert (Hname : fd_name (mk_function_definition "get_pokemon_by_name"
                             [("name", "string")] ["name"])
                  <> "_research_unique_pokemon") by discriminate.
  split; [exact Hin|]. split; [reflexivity|]. split; [exact Hname|].
  split; [reflexivity|].
  exact (@call_without_argument_is_ignored demo_python net_demo web_disabled
           (mk_function_definition "get_pokemon_by_name"
              [("name", "string")] ["name"])
           "name" [("name", JStr "")] demo_world Hin eq_refl Hname eq_refl).
Defined.

Lemma missing_pokemon_fails_the_call_witness :
  let function_call :=
    mk_tool_call "get_pokemon_by_name" (Some (name_text "MissingNo")) in
  function_name function_call = "get_pokemon_by_name"
  /\ @json_loads lookup_python (function_args_raw function_call)
     = Ok (JDict [("name", JStr "MissingNo")])
  /\ dict_get "name" [("name", JStr "MissingNo")] = Some (JStr "MissingNo")
  /\ "MissingNo" <> ""
  /\ failed_request
       (@session_get net_demo
          (POKEAPI_BASE_URL ++ "/pokemon/" ++ lower "MissingNo")) = true
  /\ exists msg,
       @execute_function_call lookup_python net_demo web_disabled 0
         function_call demo_world
       = (Ok tt,
          with_step
            (step_failed SYNTHESIS
               "Failed research subagent 1 in executing function get_pokemon_by_name"
               AttributeError)
            (with_client
               (PokeAPIClient.add_log LogWarning msg
                  (PokeAPIClient.set_session SessionOpen
                     (pokeapi_client demo_world)))
               demo_world)).
Proof.
  cbv zeta.
  assert (Hne : "MissingNo" <> "") by discriminate.
  split; [reflexivity|]. split; [reflexivity|]. split; [reflexivity|].
  split; [exact Hne|]. split; [reflexivity|].
  exact (@missing_pokemon_fails_the_call lookup_python net_demo web_disabled 0
           (mk_tool_call "get_pokemon_by_name" (Some (name_text "MissingNo")))
           [("name", JStr "MissingNo")] "MissingNo" demo_world
           eq_refl eq_refl eq_refl Hne eq_refl).
Defined.

Lemma lookup_result_is_stored_witness :
  let function_call :=
    mk_tool_call "get_pokemon_by_name" (Some (name_text "Pikachu")) in
  exists p,
    function_name function_call = "get_pokemon_by_name"
    /\ @json_loads lookup_python (function_args_raw function_call)
       = Ok (JDict [("name", JStr "Pikachu")])
    /\ dict_get "name" [("name", JStr "Pikachu")] = Some (JStr "Pikachu")
    /\ "Pikachu" <> ""
    /\ fst (@get_pokemon_by_name net_demo lookup_python (JStr "Pikachu")
              (pokeapi_client demo_world)) = Ok (Some p)
    /\ PokemonData.id p = 25%Z
    /\ let w' := snd (@execute_function_call lookup_python net_demo
                        web_disabled 0 function_call demo_world) in
       fst (@execute_function_call lookup_python net_demo web_disabled 0
              function_call demo_world) = Ok tt
       /\ dict_get "pokemon_Pikachu" (collected w')
          = Some (Json (PokemonData.model_dump p))
       /\ (forall k, k <> "pokemon_Pikachu" ->
                     dict_get k (collected w') = dict_get k (collected demo_world))
       /\ ledger w' = ledger demo_world.
Proof.
  cbv zeta.
  assert (Hne : "Pikachu" <> "") by discriminate.
  eexists.
  split; [reflexivity|]. split; [reflexivity|]. split; [reflexivity|].
  split; [exact Hne|]. split; [reflexivity|]. split; [reflexivity|].
  exact (@lookup_result_is_stored lookup_python net_demo web_disabled 0
           (mk_tool_call "get_pokemon_by_name" (Some (name_text "Pikachu")))
           [("name", JStr "Pikachu")] "Pikachu" _ demo_world
           eq_refl eq_refl eq_refl Hne eq_refl).
Defined.

Lemma fetch_all_pokemon_stores_keys_witness :
  @requests_get net_listing (POKEAPI_BASE_URL ++ "/pokemon")
    [("limit", dict_get_default "limit" (JInt 100) []);
     ("offset", dict_get_default "offset" (JInt 0) [])]
  = HttpResponse 200 (Ok (JDict pokemon_listing))
  /\ andb (400 <=? 200)%Z (200 <? 600)%Z = false
  /\ @dispatch demo_python net_listing web_disabled "fetch_all_pokemon"
       (JDict []) demo_world
     = (Ok tt,
        with_data "all_pokemon_0_100"
          (Json (JList [JStr "count"; JStr "next"; JStr "previous";
                        JStr "results"]))
          demo_world).
Proof.
  split; [reflexivity|]. split; [reflexivity|].
  exact (@fetch_all_pokemon_stores_keys demo_python net_listing web_disabled
           [] 200%Z pokemon_listing demo_world eq_refl eq_refl).
Defined.

(** A lookup through [_research_pokemon_api] that finds its pokemon: the
    record is stored and the step has the source URL with the name as
    given. *)
Example research_pokemon_api_example :
  let w' := snd (@_research_pokemon_api demo_python net_demo (JStr "Pikachu")
                   demo_world) in
  map ResearchStep.sources (ledger w')
  = [["https://pokeapi.co/api/v2/pokemon/Pikachu"]]
  /\ map fst (collected w') = ["pokemon_Pikachu"].
Proof. vm_compute. split; reflexivity. Qed.

(** ** The phases *)

Lemma clarification_failure_is_recorded_witness :
  @chat_completion llm_text Clarify (request_number Clarify demo_world)
  = Completion (mk_message (Some "A report.") None)
  /\ @_clarify_goals demo_python llm_text demo_world
     = (Ok tt,
        with_step
          (step_failed CLARIFICATION "Failed to clarify goals" JSONDecodeError)
          (with_request Clarify demo_world)).
Proof.
  split; [reflexivity|].
  exact (@clarification_failure_is_recorded demo_python llm_text
           (mk_message (Some "A report.") None) demo_world eq_refl).
Defined.

Lemma clarification_is_stored_witness :
  let w' := snd (@_clarify_goals demo_python llm_empty_object demo_world) in
  let stored k default :=
    dict_get k (collected w')
    = Some (Json (dict_get_default k default [])) in
  @chat_completion llm_empty_object Clarify (request_number Clarify demo_world)
  = Completion (mk_message (Some "{}") None)
  /\ content (mk_message (Some "{}") None) = Some "{}"
  /\ @json_loads demo_python (strip "{}") = Ok (JDict [])
  /\ fst (@_clarify_goals demo_python llm_empty_object demo_world) = Ok tt
  /\ ResearchContext.clarified_goals (context w')
     = dict_get_default "goals" (JList []) []
  /\ stored "pokemon_to_research" (JList [])
  /\ stored "research_focus" (JStr "")
  /\ stored "constraints" (JList [])
  /\ stored "subagent_instructions" (JList [])
  /\ stored "num_subagents" (JInt 1)
  /\ ledger w'
     = (ledger demo_world
        ++ [step_done CLARIFICATION
              "Clarified research goals and identified key areas to investigate"
              (Some (pydict_of_json [])) []])%list
  /\ ResearchContext.original_query (context w')
     = ResearchContext.original_query (context demo_world).
Proof.
  cbv zeta.
  split; [reflexivity|]. split; [reflexivity|]. split; [reflexivity|].
  exact (@clarification_is_stored demo_python llm_empty_object
           (mk_message (Some "{}") None) "{}" [] demo_world
           eq_refl eq_refl eq_refl).
Defined.

Lemma worker_raises_only_from_its_prompt_witness :
  let r := @research_subagent demo_python net_demo llm_text web_disabled
             (Json (JDict [])) 0 malformed_world in
  fst r = Raise TypeError
  /\ snd r = malformed_world
  /\ (subagent_task (Json (JDict [])) 0 = Raise TypeError
      \/ @pyval_join ", "
           (dict_get_default "constraints" (Json (JList []))
              (collected malformed_world))
         = Raise TypeError
      \/ @pyval_join ", "
           (dict_get_default "pokemon_to_research" (Json (JList []))
              (collected malformed_world))
         = Raise TypeError).
Proof.
  cbv zeta. split; [reflexivity|].
  exact (@worker_raises_only_from_its_prompt demo_python net_demo llm_text
           web_disabled (Json (JDict [])) 0 malformed_world TypeError eq_refl).
Defined.

Lemma worker_without_tool_calls_witness :
  let response := mk_message (Some "A report.") None in
  subagent_task (Json (JDict [])) 0 = Ok (Json (JStr ""))
  /\ pyval_join ", "
       (dict_get_default "constraints" (Json (JList [])) (collected demo_world))
     = Ok ""
  /\ pyval_join ", "
       (dict_get_default "pokemon_to_research" (Json (JList []))
          (collected demo_world))
     = Ok ""
  /\ @chat_completion llm_text ToolCalls (request_number ToolCalls demo_world)
     = Completion response
  /\ tool_calls response = None
  /\ (collected demo_world <> [] \/ content response <> None)
  /\ @research_subagent demo_python net_demo llm_text web_disabled
       (Json (JDict [])) 0 demo_world
     = (Ok tt,
        with_step
          (step_failed SYNTHESIS "Failed research subagent 1 in step 1 "
             TypeError)
          (with_step
             (step_done SYNTHESIS "Completed research subagent 1"
                (Some (collected demo_world)) [])
             (with_request ToolCalls demo_world))).
Proof.
  cbv zeta.
  assert (Hcontent : collected demo_world <> []
                     \/ content (mk_message (Some "A report.") None) <> None)
    by (right; discriminate).
  repeat (split; [reflexivity|]). split; [exact Hcontent|].
  exact (@worker_without_tool_calls demo_python net_demo llm_text web_disabled
           (Json (JDict [])) (Json (JStr "")) 0 "" ""
           (mk_message (Some "A report.") None) demo_world
           eq_refl eq_refl eq_refl eq_refl eq_refl Hcontent).
Defined.

Lemma analysis_raises_only_from_its_prompt_witness :
  fst (analyse_prompt objects_world) = Raise TypeError
  /\ @_analyse_findings demo_python net_demo llm_text web_disabled 1
       objects_world
     = Some (Raise TypeError, objects_world).
Proof.
  split; [reflexivity|].
  exact (proj1 (@analysis_raises_only_from_its_prompt demo_python net_demo
                  llm_text web_disabled 0 objects_world TypeError)
           eq_refl).
Defined.

Lemma failed_analysis_leaves_no_step_witness :
  fst (analyse_prompt demo_world) = Ok tt
  /\ @_analyse_findings demo_python net_demo llm_unreachable web_disabled 1
       demo_world
     = Some (Ok tt, with_request Analyse demo_world).
Proof.
  split; [reflexivity|].
  exact (@failed_analysis_leaves_no_step demo_python net_demo llm_unreachable
           web_disabled 0 demo_world eq_refl).
Defined.

Lemma report_is_always_returned_witness :
  ResearchContext.original_query (context demo_world)
  = JStr "best bug-type team"
  /\ json_dumps
       (dict_get_default "analysis" (Json (JDict [])) (collected demo_world))
     = Ok tt
  /\ exists report,
       fst (@_generate_final_report demo_python llm_unreachable demo_world)
       = Ok report
       /\ ResearchReport.query report = "best bug-type team"
       /\ ResearchReport.detailed_findings report = collected demo_world
       /\ ResearchReport.research_steps report = ledger demo_world.
Proof.
  split; [reflexivity|]. split; [reflexivity|].
  exact (@report_is_always_returned demo_python llm_unreachable demo_world
           "best bug-type team" eq_refl eq_refl).
Defined.

(** A run that raises, and a run that returns a report, leave the session
    closed. *)
Example run_closes_the_session_examples :
  match @run demo_python net_demo llm_unreachable web_disabled 3
          "best bug-type team" PokeAPIClient.init with
  | Some (Raise _, w) =>
      PokeAPIClient.session (pokeapi_client w) = SessionClosed
  | _ => False
  end
  /\ match @run demo_python net_demo llm_empty_object web_disabled 3
             "best bug-type team" PokeAPIClient.init with
     | Some (Ok _, w) =>
         PokeAPIClient.session (pokeapi_client w) = SessionClosed
     | _ => False
     end.
Proof. split; vm_compute; reflexivity. Qed.

(** ** The web searcher *)

Lemma disabled_web_search_finds_nothing_witness :
  Settings.web_scraping_enabled (@settings web_default) = false
  /\ @search_pokemon_info (@web_researcher demo_python web_default)
       (JStr "Pikachu")
     = Ok (JList [])
  /\ @search_training_tips (@web_researcher demo_python web_default)
       (JStr "Pikachu")
     = Ok (JList [])
  /\ @search_competitive_info (@web_researcher demo_python web_default)
       (JStr "Pikachu")
     = Ok (JDict [ ("movesets", JList []); ("strategies", JList []);
                   ("counters", JList []); ("teammates", JList []) ])
  /\ @search_location_info (@web_researcher demo_python web_default)
       (JStr "Pikachu")
     = Ok (JList []).
Proof.
  split; [reflexivity|].
  exact (@disabled_web_search_finds_nothing demo_python web_default
           (JStr "Pikachu") eq_refl).
Defined.

Lemma disabled_web_research_adds_no_source_witness :
  Settings.web_scraping_enabled (@settings web_default) = false
  /\ @validate_str_list demo_python (JList []) = Some []
  /\ @_research_pokemon_web demo_python (@web_researcher demo_python web_default)
       (JStr "Pikachu") demo_world
     = (Ok tt,
        with_step
          (step_done WEB_SEARCH
             "Gathered additional information about Pikachu from web sources"
             (Some (pydict_of_json empty_web_data)) [])
          (with_data "web_data_Pikachu" (Json (JDict empty_web_data))
             demo_world)).
Proof.
  split; [reflexivity|]. split; [reflexivity|].
  exact (@disabled_web_research_adds_no_source demo_python web_default
           (JStr "Pikachu") demo_world eq_refl eq_refl).
Defined.

(** With scraping enabled: the page of one site is found, one site times
    out and one answers 404; the tips and the locations are the sentences
    of the page that pass the tests. *)
Example web_search_examples :
  (exists content_,
     @search_pokemon_info (@web_researcher demo_python web_enabled)
       (JStr "Pikachu training tips pokemon")
     = Ok (JList [JDict
             [ ("title", JStr "Pikachu Training Tips Pokemon - Bulbapedia");
               ("url",
                 JStr "https://bulbapedia.bulbagarden.net/wiki/Pikachu_Training_Tips_Pokemon");
               ("source", JStr "Bulbapedia");
               ("content", JStr content_) ]]))
  /\ @search_training_tips (@web_researcher demo_python web_enabled)
       (JStr "Pikachu")
     = Ok (JList
             [JStr "It can evolve into Raichu with a stone";
              JStr "Train it well It lives in the forest near the power plant"])
  /\ @search_location_info (@web_researcher demo_python web_enabled)
       (JStr "Pikachu")
     = Ok (JList
             [JStr "Train it well It lives in the forest near the power plant"]).
Proof. split; [eexists; reflexivity | split; reflexivity]. Qed.
